(** * IPv4 address conflict detection (RFC 5227): the sd-ipv4acd state machine

    A shallow embedding of [src/libsystemd-network/sd-ipv4acd.c]: the session
    record, the timer and packet handlers, the public setters, [start] and
    [stop], followed by the properties of the state machine. *)

From Stdlib Require Import ZArith List Bool String Lia.
Import ListNotations.
Open Scope Z_scope.

(** ** Machine integers

    [unsigned] is 32 bits wide and [usec_t] is [uint64_t]; arithmetic on them
    wraps around. *)

Definition u32 (x : Z) : Z := x mod 2 ^ 32.
Definition u64 (x : Z) : Z := x mod 2 ^ 64.

(** Conversion of an [int64_t] to [int] (the assignment to [event_priority]). *)
Definition s32 (x : Z) : Z := (x + 2 ^ 31) mod 2 ^ 32 - 2 ^ 31.

(** ** Constants *)

(** errno values (Linux, [<errno.h>]). *)
Definition EINTR : Z := 4.
Definition EAGAIN : Z := 11.
Definition EBUSY : Z := 16.
Definition EINVAL : Z := 22.

(** Modelled from the spec: [USEC_PER_SEC] comes from time-util.h, which is
    not part of the sources at hand; the spec gives every interval in seconds
    and the code multiplies by the number of microseconds in one. *)
Definition USEC_PER_SEC : Z := 1000000.

(** Modelled from the spec: [sizeof(struct ether_arp)], the "ARP Ethernet
    structure (28 bytes)" of [<netinet/if_ether.h>]. *)
Definition sizeof_ether_arp : Z := 28.

(* Constants from the RFC *)
Definition PROBE_WAIT_USEC : Z := 1 * USEC_PER_SEC.
Definition PROBE_NUM : Z := 3.
Definition PROBE_MIN_USEC : Z := 1 * USEC_PER_SEC.
Definition PROBE_MAX_USEC : Z := 2 * USEC_PER_SEC.
Definition ANNOUNCE_WAIT_USEC : Z := 2 * USEC_PER_SEC.
Definition ANNOUNCE_NUM : Z := 2.
Definition ANNOUNCE_INTERVAL_USEC : Z := 2 * USEC_PER_SEC.
Definition MAX_CONFLICTS : Z := 10.
Definition RATE_LIMIT_INTERVAL_USEC : Z := 60 * USEC_PER_SEC.
Definition DEFEND_INTERVAL_USEC : Z := 10 * USEC_PER_SEC.

(** ** Data model *)

Inductive IPv4ACDState : Type :=
| IPV4ACD_STATE_INIT
| IPV4ACD_STATE_STARTED
| IPV4ACD_STATE_WAITING_PROBE
| IPV4ACD_STATE_PROBING
| IPV4ACD_STATE_WAITING_ANNOUNCE
| IPV4ACD_STATE_ANNOUNCING
| IPV4ACD_STATE_RUNNING.

Definition IPv4ACDState_eqb (a b : IPv4ACDState) : bool :=
  match a, b with
  | IPV4ACD_STATE_INIT, IPV4ACD_STATE_INIT
  | IPV4ACD_STATE_STARTED, IPV4ACD_STATE_STARTED
  | IPV4ACD_STATE_WAITING_PROBE, IPV4ACD_STATE_WAITING_PROBE
  | IPV4ACD_STATE_PROBING, IPV4ACD_STATE_PROBING
  | IPV4ACD_STATE_WAITING_ANNOUNCE, IPV4ACD_STATE_WAITING_ANNOUNCE
  | IPV4ACD_STATE_ANNOUNCING, IPV4ACD_STATE_ANNOUNCING
  | IPV4ACD_STATE_RUNNING, IPV4ACD_STATE_RUNNING => true
  | _, _ => false
  end.

(** The events handed to the callback (sd-ipv4acd.h). *)
Inductive sd_ipv4acd_event : Type :=
| SD_IPV4ACD_EVENT_STOP
| SD_IPV4ACD_EVENT_BIND
| SD_IPV4ACD_EVENT_CONFLICT.

(** [struct ether_addr]: six octets. *)
Record ether_addr : Type := mk_ether_addr { ether_addr_octet : list Z }.

(** Modelled from the spec: [ether_addr_is_null] lives in ether-addr-util.h;
    the spec asks for a "non-zero mac", so the null address is the one whose
    octets are all zero. *)
Definition ether_addr_is_null (a : ether_addr) : bool :=
  forallb (fun o => o =? 0) (ether_addr_octet a).

(** [struct ether_arp], reduced to the protocol addresses. Each four-octet
    field is kept as the 32-bit word those octets form in memory, the same
    representation as the [be32_t address] of the session, so that the
    [memcmp] of the classifier is equality of words. *)
Record ether_arp : Type := mk_ether_arp { arp_spa : Z; arp_tpa : Z }.

(** A timer source of the event loop: absolute deadline, priority, and whether
    it is still armed (a one-shot source is switched off when it fires). *)
Record time_source : Type := mk_time_source {
  ts_usec : Z;
  ts_priority : Z;
  ts_enabled : bool
}.

(** An I/O source of the event loop: the descriptor watched for input. *)
Record io_source : Type := mk_io_source { io_fd : Z; io_priority : Z }.

(** [struct sd_ipv4acd]. Pointers to event sources, to the event loop and to
    the callback are options; [None] is the NULL pointer. The session itself
    is a value: the handle [ll] is never NULL here, which is what the
    opening [assert(ll)] or [assert_return(ll, -EINVAL)] of every function
    asks for, and [n_ref] stays as [sd_ipv4acd_new] sets it (taking and
    dropping references is not modelled). *)
Record sd_ipv4acd : Type := mk_sd_ipv4acd {
  n_ref : Z;
  state : IPv4ACDState;
  ifindex : Z;
  fd : Z;
  n_iteration : Z;
  n_conflict : Z;
  receive_message_event_source : option io_source;
  timer_event_source : option time_source;
  defend_window : Z;
  address : Z;
  mac_addr : ether_addr;
  event : option Z;
  event_priority : Z;
  callback : option Z;
  userdata : Z
}.

(** Field updates. *)
Definition with_state (st : IPv4ACDState) (ll : sd_ipv4acd) : sd_ipv4acd :=
  mk_sd_ipv4acd (n_ref ll) st (ifindex ll) (fd ll) (n_iteration ll)
    (n_conflict ll) (receive_message_event_source ll) (timer_event_source ll)
    (defend_window ll) (address ll) (mac_addr ll) (event ll)
    (event_priority ll) (callback ll) (userdata ll).

Definition with_ifindex (i : Z) (ll : sd_ipv4acd) : sd_ipv4acd :=
  mk_sd_ipv4acd (n_ref ll) (state ll) i (fd ll) (n_iteration ll)
    (n_conflict ll) (receive_message_event_source ll) (timer_event_source ll)
    (defend_window ll) (address ll) (mac_addr ll) (event ll)
    (event_priority ll) (callback ll) (userdata ll).

Definition with_fd (f : Z) (ll : sd_ipv4acd) : sd_ipv4acd :=
  mk_sd_ipv4acd (n_ref ll) (state ll) (ifindex ll) f (n_iteration ll)
    (n_conflict ll) (receive_message_event_source ll) (timer_event_source ll)
    (defend_window ll) (address ll) (mac_addr ll) (event ll)
    (event_priority ll) (callback ll) (userdata ll).

Definition with_n_iteration (n : Z) (ll : sd_ipv4acd) : sd_ipv4acd :=
  mk_sd_ipv4acd (n_ref ll) (state ll) (ifindex ll) (fd ll) n
    (n_conflict ll) (receive_message_event_source ll) (timer_event_source ll)
    (defend_window ll) (address ll) (mac_addr ll) (event ll)
    (event_priority ll) (callback ll) (userdata ll).

Definition with_n_conflict (n : Z) (ll : sd_ipv4acd) : sd_ipv4acd :=
  mk_sd_ipv4acd (n_ref ll) (state ll) (ifindex ll) (fd ll) (n_iteration ll)
    n (receive_message_event_source ll) (timer_event_source ll)
    (defend_window ll) (address ll) (mac_addr ll) (event ll)
    (event_priority ll) (callback ll) (userdata ll).

Definition with_receive_message_event_source (s : option io_source)
  (ll : sd_ipv4acd) : sd_ipv4acd :=
  mk_sd_ipv4acd (n_ref ll) (state ll) (ifindex ll) (fd ll) (n_iteration ll)
    (n_conflict ll) s (timer_event_source ll)
    (defend_window ll) (address ll) (mac_addr ll) (event ll)
    (event_priority ll) (callback ll) (userdata ll).

Definition with_timer_event_source (s : option time_source)
  (ll : sd_ipv4acd) : sd_ipv4acd :=
  mk_sd_ipv4acd (n_ref ll) (state ll) (ifindex ll) (fd ll) (n_iteration ll)
    (n_conflict ll) (receive_message_event_source ll) s
    (defend_window ll) (address ll) (mac_addr ll) (event ll)
    (event_priority ll) (callback ll) (userdata ll).

Definition with_defend_window (w : Z) (ll : sd_ipv4acd) : sd_ipv4acd :=
  mk_sd_ipv4acd (n_ref ll) (state ll) (ifindex ll) (fd ll) (n_iteration ll)
    (n_conflict ll) (receive_message_event_source ll) (timer_event_source ll)
    w (address ll) (mac_addr ll) (event ll)
    (event_priority ll) (callback ll) (userdata ll).

Definition with_address (a : Z) (ll : sd_ipv4acd) : sd_ipv4acd :=
  mk_sd_ipv4acd (n_ref ll) (state ll) (ifindex ll) (fd ll) (n_iteration ll)
    (n_conflict ll) (receive_message_event_source ll) (timer_event_source ll)
    (defend_window ll) a (mac_addr ll) (event ll)
    (event_priority ll) (callback ll) (userdata ll).

Definition with_mac_addr (m : ether_addr) (ll : sd_ipv4acd) : sd_ipv4acd :=
  mk_sd_ipv4acd (n_ref ll) (state ll) (ifindex ll) (fd ll) (n_iteration ll)
    (n_conflict ll) (receive_message_event_source ll) (timer_event_source ll)
    (defend_window ll) (address ll) m (event ll)
    (event_priority ll) (callback ll) (userdata ll).

Definition with_event (ev : option Z) (ll : sd_ipv4acd) : sd_ipv4acd :=
  mk_sd_ipv4acd (n_ref ll) (state ll) (ifindex ll) (fd ll) (n_iteration ll)
    (n_conflict ll) (receive_message_event_source ll) (timer_event_source ll)
    (defend_window ll) (address ll) (mac_addr ll) ev
    (event_priority ll) (callback ll) (userdata ll).

Definition with_event_priority (p : Z) (ll : sd_ipv4acd) : sd_ipv4acd :=
  mk_sd_ipv4acd (n_ref ll) (state ll) (ifindex ll) (fd ll) (n_iteration ll)
    (n_conflict ll) (receive_message_event_source ll) (timer_event_source ll)
    (defend_window ll) (address ll) (mac_addr ll) (event ll)
    p (callback ll) (userdata ll).

Definition with_callback (cb : option Z) (ud : Z) (ll : sd_ipv4acd)
  : sd_ipv4acd :=
  mk_sd_ipv4acd (n_ref ll) (state ll) (ifindex ll) (fd ll) (n_iteration ll)
    (n_conflict ll) (receive_message_event_source ll) (timer_event_source ll)
    (defend_window ll) (address ll) (mac_addr ll) (event ll)
    (event_priority ll) cb ud.

(** ** What a handler does to the outside world

    Frames put on the wire and invocations of the callback, in order. The
    callback is an observer: its invocation is recorded, with the event and
    the userdata it receives; a callback that calls back into the session
    is not modelled. Log lines are left out. *)
Inductive action : Type :=
| ArpProbe (ifindex : Z) (pa : Z) (ha : ether_addr)
| ArpAnnouncement (ifindex : Z) (pa : Z) (ha : ether_addr)
| Callback (cb : Z) (ev : sd_ipv4acd_event) (userdata : Z).

(** ** What the outside world answers during one call

    The values the environment returns to the calls a handler makes: the
    random draw, the clock of the event loop, and the return codes of the
    ARP and event-loop primitives (negative is an error, as in C). *)
Record env : Type := mk_env {
  random_u64 : Z;           (* random_u64() *)
  r_event_now : Z;          (* return code of sd_event_now() *)
  time_now : Z;             (* the time sd_event_now() stores *)
  r_add_time : Z;           (* sd_event_add_time() *)
  r_set_priority : Z;       (* sd_event_source_set_priority() on the timer *)
  r_send : Z;               (* arp_send_probe() / arp_send_announcement() *)
  recv_n : Z;               (* recv() *)
  recv_errno : Z;           (* errno after a failed recv() *)
  packet : ether_arp;       (* the frame recv() stored *)
  r_bind : Z;               (* arp_network_bind_raw_socket() *)
  r_add_io : Z;             (* sd_event_add_io() *)
  r_io_set_priority : Z     (* sd_event_source_set_priority() on the I/O source *)
}.

(** ** The monad of the handlers

    A computation reads and updates the session, appends to the trace of
    actions, and either returns or dies on a failed assertion. *)
Inductive outcome (A : Type) : Type :=
| Done (a : A)
| Aborted (msg : string).
Arguments Done {A} a.
Arguments Aborted {A} msg.

Definition M (A : Type) : Type :=
  sd_ipv4acd -> outcome (A * sd_ipv4acd * list action).

Definition ret {A : Type} (a : A) : M A := fun ll => Done (a, ll, []).

Definition bind {A B : Type} (m : M A) (f : A -> M B) : M B :=
  fun ll =>
    match m ll with
    | Done (a, ll1, t1) =>
        match f a ll1 with
        | Done (b, ll2, t2) => Done (b, ll2, t1 ++ t2)
        | Aborted msg => Aborted msg
        end
    | Aborted msg => Aborted msg
    end.

Definition get : M sd_ipv4acd := fun ll => Done (ll, ll, []).
Definition modify (f : sd_ipv4acd -> sd_ipv4acd) : M unit :=
  fun ll => Done (tt, f ll, []).
Definition emit (a : action) : M unit := fun ll => Done (tt, ll, [a]).
Definition abort {A : Type} (msg : string) : M A := fun _ => Aborted msg.

Notation "x <- c1 ;; c2" := (bind c1 (fun x => c2))
  (at level 61, c1 at next level, right associativity).
Notation "c1 ;; c2" := (bind c1 (fun _ => c2))
  (at level 61, right associativity).

(** ** The state machine *)

(** [ipv4acd_set_state]: repeating the current state without [reset_counter]
    counts one more iteration, anything else enters [st] afresh. *)
Definition ipv4acd_set_state (st : IPv4ACDState) (reset_counter : bool)
  (ll : sd_ipv4acd) : sd_ipv4acd :=
  if IPv4ACDState_eqb st (state ll) && negb reset_counter
  then with_n_iteration (u32 (n_iteration ll + 1)) ll
  else with_n_iteration 0 (with_state st ll).

(** [ipv4acd_reset]: drop both event sources, close the socket ([safe_close]
    returns -1), back to INIT. *)
Definition ipv4acd_reset (ll : sd_ipv4acd) : sd_ipv4acd :=
  ipv4acd_set_state IPV4ACD_STATE_INIT true
    (with_fd (-1)
       (with_receive_message_event_source None
          (with_timer_event_source None ll))).

(** [sd_ipv4acd_new]: a zeroed session ([new0]) with one reference, in INIT,
    with no interface and no socket. Allocation failure (-ENOMEM) yields no
    session and is outside the model. *)
Definition sd_ipv4acd_new : sd_ipv4acd :=
  {| n_ref := 1;
     state := IPV4ACD_STATE_INIT;
     ifindex := -1;
     fd := -1;
     n_iteration := 0;
     n_conflict := 0;
     receive_message_event_source := None;
     timer_event_source := None;
     defend_window := 0;
     address := 0;
     mac_addr := mk_ether_addr [0; 0; 0; 0; 0; 0];
     event := None;
     event_priority := 0;
     callback := None;
     userdata := 0 |}.

(** [ipv4acd_client_notify]: nothing happens without a callback. *)
Definition ipv4acd_client_notify (ev : sd_ipv4acd_event) : M unit :=
  ll <- get ;;
  match callback ll with
  | None => ret tt
  | Some cb => emit (Callback cb ev (userdata ll))
  end.

(** [sd_ipv4acd_stop]. *)
Definition sd_ipv4acd_stop : M Z :=
  modify ipv4acd_reset ;;
  ipv4acd_client_notify SD_IPV4ACD_EVENT_STOP ;;
  ret 0.

(** The local [next_timeout] of [ipv4acd_set_next_wakeup]: [usec], plus a
    random share of [random_usec] when that is positive. *)
Definition next_timeout (e : env) (usec random_usec : Z) : Z :=
  if 0 <? random_usec
  then u64 (usec + u64 (random_u64 e) mod random_usec)
  else usec.

(** [ipv4acd_set_next_wakeup]: arm a one-shot timer [next_timeout] from now.
    The new source replaces the old one only once both event-loop calls have
    succeeded; [assert_se] on the clock kills the program when it fails. *)
Definition ipv4acd_set_next_wakeup (e : env) (usec random_usec : Z) : M Z :=
  if r_event_now e <? 0 then abort "sd_event_now" else
  if r_add_time e <? 0 then ret (r_add_time e) else
  if r_set_priority e <? 0 then ret (r_set_priority e) else
  ll <- get ;;
  modify (with_timer_event_source
            (Some {| ts_usec :=
                       u64 (time_now e + next_timeout e usec random_usec);
                     ts_priority := event_priority ll;
                     ts_enabled := true |})) ;;
  ret 0.

(** Modelled from the spec: [arp_send_probe] is declared in arp-util.h and
    defined outside the sources at hand. It "emits an ARP request with sender
    protocol address = 0.0.0.0, target protocol address = target_ip, sender
    hardware = sender_mac" and fails when the write fails; a frame is on the
    wire exactly when the call succeeds. *)
Definition arp_send_probe (e : env) : M Z :=
  ll <- get ;;
  if r_send e <? 0 then ret (r_send e)
  else emit (ArpProbe (ifindex ll) (address ll) (mac_addr ll)) ;;
       ret (r_send e).

(** Modelled from the spec: [arp_send_announcement], from arp-util.h as well,
    "emits a gratuitous ARP with sender and target protocol addresses both =
    ip". *)
Definition arp_send_announcement (e : env) : M Z :=
  ll <- get ;;
  if r_send e <? 0 then ret (r_send e)
  else emit (ArpAnnouncement (ifindex ll) (address ll) (mac_addr ll)) ;;
       ret (r_send e).

(** [ipv4acd_arp_conflict]: the sender protocol address is ours. *)
Definition ipv4acd_arp_conflict (ll : sd_ipv4acd) (arp : ether_arp) : bool :=
  arp_spa arp =? address ll.

(** The body of [case IPV4ACD_STATE_WAITING_PROBE: case IPV4ACD_STATE_PROBING:]
    in [ipv4acd_on_timeout]. The result is the [r] of the C function: a
    negative value stands for [goto fail]. *)
Definition on_timeout_probe (e : env) : M Z :=
  r <- arp_send_probe e ;;
  if r <? 0 then ret r else
  ll <- get ;;
  if n_iteration ll <? PROBE_NUM - 2 then
    modify (ipv4acd_set_state IPV4ACD_STATE_PROBING false) ;;
    ipv4acd_set_next_wakeup e PROBE_MIN_USEC (PROBE_MAX_USEC - PROBE_MIN_USEC)
  else
    modify (ipv4acd_set_state IPV4ACD_STATE_WAITING_ANNOUNCE true) ;;
    ipv4acd_set_next_wakeup e ANNOUNCE_WAIT_USEC 0.

(** The body of [case IPV4ACD_STATE_WAITING_ANNOUNCE:], which ANNOUNCING falls
    through to. *)
Definition on_timeout_announce (e : env) : M Z :=
  r <- arp_send_announcement e ;;
  if r <? 0 then ret r else
  modify (ipv4acd_set_state IPV4ACD_STATE_ANNOUNCING false) ;;
  r <- ipv4acd_set_next_wakeup e ANNOUNCE_INTERVAL_USEC 0 ;;
  if r <? 0 then ret r else
  ll <- get ;;
  (if n_iteration ll =? 0 then
     modify (with_n_conflict 0) ;;
     ipv4acd_client_notify SD_IPV4ACD_EVENT_BIND
   else ret tt) ;;
  ret 0.

(** [ipv4acd_on_timeout]. *)
Definition ipv4acd_on_timeout (e : env) : M Z :=
  ll <- get ;;
  r <- match state ll with
       | IPV4ACD_STATE_STARTED =>
           modify (ipv4acd_set_state IPV4ACD_STATE_WAITING_PROBE true) ;;
           if MAX_CONFLICTS <=? n_conflict ll then
             r <- ipv4acd_set_next_wakeup e RATE_LIMIT_INTERVAL_USEC
                    PROBE_WAIT_USEC ;;
             if r <? 0 then ret r else
             modify (with_n_conflict 0) ;;
             ret 0
           else
             ipv4acd_set_next_wakeup e 0 PROBE_WAIT_USEC
       | IPV4ACD_STATE_WAITING_PROBE
       | IPV4ACD_STATE_PROBING =>
           on_timeout_probe e
       | IPV4ACD_STATE_ANNOUNCING =>
           if ANNOUNCE_NUM - 1 <=? n_iteration ll then
             modify (ipv4acd_set_state IPV4ACD_STATE_RUNNING false) ;;
             ret 0
           else on_timeout_announce e
       | IPV4ACD_STATE_WAITING_ANNOUNCE =>
           on_timeout_announce e
       | _ => abort "Invalid state."
       end ;;
  if r <? 0 then sd_ipv4acd_stop ;; ret 0 else ret 0.

(** [ipv4acd_on_conflict]. *)
Definition ipv4acd_on_conflict : M unit :=
  ll <- get ;;
  modify (with_n_conflict (u32 (n_conflict ll + 1))) ;;
  modify ipv4acd_reset ;;
  ipv4acd_client_notify SD_IPV4ACD_EVENT_CONFLICT.

(** [ipv4acd_on_packet]. The handler is entered with the event source and
    the descriptor it was registered with, so [assert(s)] and
    [assert(fd >= 0)] hold. [recv] returns the length read, at most
    [sizeof(struct ether_arp)], or a negative value with [errno] set. *)
Definition ipv4acd_on_packet (e : env) : M Z :=
  if recv_n e <? 0 then
    if (recv_errno e =? EAGAIN) || (recv_errno e =? EINTR) then ret 0
    else sd_ipv4acd_stop ;; ret 0
  else if negb (recv_n e =? sizeof_ether_arp) then ret 0
  else
    ll <- get ;;
    r <- match state ll with
         | IPV4ACD_STATE_ANNOUNCING
         | IPV4ACD_STATE_RUNNING =>
             if ipv4acd_arp_conflict ll (packet e) then
               if r_event_now e <? 0 then abort "sd_event_now" else
               if defend_window ll <? time_now e then
                 modify (with_defend_window
                           (u64 (time_now e + DEFEND_INTERVAL_USEC))) ;;
                 arp_send_announcement e
               else ipv4acd_on_conflict ;; ret 0
             else ret 0
         | IPV4ACD_STATE_WAITING_PROBE
         | IPV4ACD_STATE_PROBING
         | IPV4ACD_STATE_WAITING_ANNOUNCE =>
             ipv4acd_on_conflict ;; ret 0
         | _ => abort "Invalid state."
         end ;;
    if r <? 0 then sd_ipv4acd_stop ;; ret 0 else ret 0.

(** ** The public API *)

(** [sd_ipv4acd_set_ifindex]. *)
Definition sd_ipv4acd_set_ifindex (i : Z) : M Z :=
  ll <- get ;;
  if negb (0 <? i) then ret (- EINVAL) else
  if negb (IPv4ACDState_eqb (state ll) IPV4ACD_STATE_INIT) then ret (- EBUSY)
  else modify (with_ifindex i) ;; ret 0.

(** [sd_ipv4acd_set_mac]; [None] is a NULL [addr]. *)
Definition sd_ipv4acd_set_mac (addr : option ether_addr) : M Z :=
  ll <- get ;;
  match addr with
  | None => ret (- EINVAL)
  | Some a =>
      if negb (IPv4ACDState_eqb (state ll) IPV4ACD_STATE_INIT)
      then ret (- EBUSY)
      else modify (with_mac_addr a) ;; ret 0
  end.

(** [sd_ipv4acd_detach_event]. *)
Definition sd_ipv4acd_detach_event : M Z :=
  modify (with_event None) ;; ret 0.

(** [sd_ipv4acd_attach_event]; with a NULL [ev] the default loop is taken,
    which may fail with [r_default]. *)
Definition sd_ipv4acd_attach_event (ev : option Z) (r_default : Z)
  (default_loop : Z) (priority : Z) : M Z :=
  ll <- get ;;
  match event ll with
  | Some _ => ret (- EBUSY)
  | None =>
      r <- match ev with
           | Some l => modify (with_event (Some l)) ;; ret 0
           | None =>
               if r_default <? 0 then ret r_default
               else modify (with_event (Some default_loop)) ;; ret 0
           end ;;
      if r <? 0 then ret r else
      modify (with_event_priority (s32 priority)) ;; ret 0
  end.

(** [sd_ipv4acd_set_callback]. *)
Definition sd_ipv4acd_set_callback (cb : option Z) (ud : Z) : M Z :=
  modify (with_callback cb ud) ;; ret 0.

(** [sd_ipv4acd_set_address]; [None] is a NULL [address]. *)
Definition sd_ipv4acd_set_address (a : option Z) : M Z :=
  ll <- get ;;
  match a with
  | None => ret (- EINVAL)
  | Some s_addr =>
      if negb (IPv4ACDState_eqb (state ll) IPV4ACD_STATE_INIT)
      then ret (- EBUSY)
      else modify (with_address s_addr) ;; ret 0
  end.

(** [sd_ipv4acd_is_running]. *)
Definition sd_ipv4acd_is_running (ll : sd_ipv4acd) : bool :=
  negb (IPv4ACDState_eqb (state ll) IPV4ACD_STATE_INIT).

(** [sd_ipv4acd_start]. The inner block is the part of the function that
    leaves through [goto fail] on a negative [r]. *)
Definition sd_ipv4acd_start (e : env) : M Z :=
  ll <- get ;;
  match event ll with
  | None => ret (- EINVAL)
  | Some _ =>
      if negb (0 <? ifindex ll) then ret (- EINVAL) else
      if address ll =? 0 then ret (- EINVAL) else
      if ether_addr_is_null (mac_addr ll) then ret (- EINVAL) else
      if negb (IPv4ACDState_eqb (state ll) IPV4ACD_STATE_INIT)
      then ret (- EBUSY) else
      if r_bind e <? 0 then ret (r_bind e) else
      modify (with_fd (r_bind e)) ;;
      modify (with_defend_window 0) ;;
      modify (with_n_conflict 0) ;;
      r <- (if r_add_io e <? 0 then ret (r_add_io e) else
            modify (with_receive_message_event_source
                      (Some {| io_fd := r_bind e; io_priority := 0 |})) ;;
            if r_io_set_priority e <? 0 then ret (r_io_set_priority e) else
            modify (with_receive_message_event_source
                      (Some {| io_fd := r_bind e;
                               io_priority := event_priority ll |})) ;;
            r <- ipv4acd_set_next_wakeup e 0 0 ;;
            if r <? 0 then ret r else
            modify (ipv4acd_set_state IPV4ACD_STATE_STARTED true) ;;
            ret 0) ;;
      if r <? 0 then modify ipv4acd_reset ;; ret r else ret 0
  end.

(** ** Driving a session *)

(** A timer is armed when the session holds a timer source that has not
    fired yet. *)
Definition timer_armed (ll : sd_ipv4acd) : bool :=
  match timer_event_source ll with
  | Some t => ts_enabled t
  | None => false
  end.

(** The timer source of the session is switched off. *)
Definition disarm (ll : sd_ipv4acd) : sd_ipv4acd :=
  match timer_event_source ll with
  | Some t =>
      with_timer_event_source
        (Some {| ts_usec := ts_usec t;
                 ts_priority := ts_priority t;
                 ts_enabled := false |}) ll
  | None => ll
  end.

(** The two things the event loop can tell a session. *)
Inductive loop_event : Type :=
| TimerFires (e : env)
| SocketReadable (e : env).

(** Modelled from the spec: the event loop (sd-event) is outside the sources
    at hand. It runs a handler only for a source the session still holds
    ("it releases the timer source and rx source (so no pending callback can
    fire)"), and the timer is a "one-shot": it is switched off when it fires
    and fires no more until a new one is armed. *)
Definition dispatch (ev : loop_event) : M Z :=
  ll <- get ;;
  match ev with
  | TimerFires e =>
      if timer_armed ll
      then modify disarm ;; ipv4acd_on_timeout e
      else ret 0
  | SocketReadable e =>
      match receive_message_event_source ll with
      | Some _ => ipv4acd_on_packet e
      | None => ret 0
      end
  end.

(** Everything that can happen to a live session: a call of the embedding
    program or an event of the loop. *)
Inductive api_call : Type :=
| Call_set_ifindex (i : Z)
| Call_set_mac (addr : option ether_addr)
| Call_set_address (a : option Z)
| Call_set_callback (cb : option Z) (ud : Z)
| Call_attach_event (ev : option Z) (r_default default_loop priority : Z)
| Call_detach_event
| Call_start (e : env)
| Call_stop
| Loop (ev : loop_event).

Definition perform (c : api_call) : M Z :=
  match c with
  | Call_set_ifindex i => sd_ipv4acd_set_ifindex i
  | Call_set_mac addr => sd_ipv4acd_set_mac addr
  | Call_set_address a => sd_ipv4acd_set_address a
  | Call_set_callback cb ud => sd_ipv4acd_set_callback cb ud
  | Call_attach_event ev r l p => sd_ipv4acd_attach_event ev r l p
  | Call_detach_event => sd_ipv4acd_detach_event
  | Call_start e => sd_ipv4acd_start e
  | Call_stop => sd_ipv4acd_stop
  | Loop ev => dispatch ev
  end.

(** A run: the calls one after the other, a failed assertion ends it. *)
Fixpoint run (cs : list api_call) : M unit :=
  match cs with
  | [] => ret tt
  | c :: cs' => perform c ;; run cs'
  end.

(** The sessions a program can get to from a fresh one. *)
Inductive reachable : sd_ipv4acd -> Prop :=
| reachable_new : reachable sd_ipv4acd_new
| reachable_step (ll : sd_ipv4acd) (c : api_call) (r : Z)
    (ll' : sd_ipv4acd) (t : list action) :
    reachable ll -> perform c ll = Done (r, ll', t) -> reachable ll'.

(** ** Reading a trace *)

Definition is_probe (a : action) : bool :=
  match a with ArpProbe _ _ _ => true | _ => false end.

Definition is_announcement (a : action) : bool :=
  match a with ArpAnnouncement _ _ _ => true | _ => false end.

Definition probes (t : list action) : nat := List.length (filter is_probe t).

Definition announcements (t : list action) : nat :=
  List.length (filter is_announcement t).

(** The events the callback has seen. *)
Fixpoint events (t : list action) : list sd_ipv4acd_event :=
  match t with
  | [] => []
  | Callback _ ev _ :: t' => ev :: events t'
  | _ :: t' => events t'
  end.

(** ** Predicates on sessions and environments *)

(** The session is as [ipv4acd_reset] leaves it. *)
Definition is_reset (ll : sd_ipv4acd) : Prop :=
  state ll = IPV4ACD_STATE_INIT /\
  n_iteration ll = 0 /\
  timer_event_source ll = None /\
  receive_message_event_source ll = None /\
  fd ll = -1.

(** No send error and no scheduling error in this call. *)
Definition env_ok (e : env) : Prop :=
  0 <= r_event_now e /\ 0 <= r_add_time e /\ 0 <= r_set_priority e /\
  0 <= r_send e.

(** The timer of the session is armed for [d] microseconds after the time
    [now] of the call that armed it. *)
Definition wakeup_after (ll : sd_ipv4acd) (now d : Z) : Prop :=
  exists t, timer_event_source ll = Some t /\
            ts_enabled t = true /\ ts_usec t = u64 (now + d).

(** [defend_window] is clear in the states between [start] and the first
    announcement. *)
Definition defend_window_clear (ll : sd_ipv4acd) : Prop :=
  match state ll with
  | IPV4ACD_STATE_STARTED
  | IPV4ACD_STATE_WAITING_PROBE
  | IPV4ACD_STATE_PROBING
  | IPV4ACD_STATE_WAITING_ANNOUNCE => defend_window ll = 0
  | _ => True
  end.

(** No conflict has been counted in a session that waits for its first
    timer. *)
Definition started_without_conflicts (ll : sd_ipv4acd) : Prop :=
  state ll = IPV4ACD_STATE_STARTED -> n_conflict ll = 0.

(** The states in which [ipv4acd_on_packet] handles a full frame. *)
Definition packet_state (st : IPv4ACDState) : bool :=
  match st with
  | IPV4ACD_STATE_WAITING_PROBE
  | IPV4ACD_STATE_PROBING
  | IPV4ACD_STATE_WAITING_ANNOUNCE
  | IPV4ACD_STATE_ANNOUNCING
  | IPV4ACD_STATE_RUNNING => true
  | _ => false
  end.

(** What [ipv4acd_client_notify] hands to the callback of [ll], if it has
    one. *)
Definition notified (ll : sd_ipv4acd) (ev : sd_ipv4acd_event) : list action :=
  match callback ll with
  | Some cb => [Callback cb ev (userdata ll)]
  | None => []
  end.

(** The session once [ipv4acd_set_next_wakeup] has armed its timer for [d]
    microseconds after the clock of [e]. *)
Definition armed_for (e : env) (d : Z) (ll : sd_ipv4acd) : sd_ipv4acd :=
  with_timer_event_source
    (Some {| ts_usec := u64 (time_now e + d);
             ts_priority := event_priority ll;
             ts_enabled := true |}) ll.

(** The timer could be scheduled: the clock answered and both event-loop
    calls succeeded. *)
Definition sched_ok (e : env) : Prop :=
  0 <= r_event_now e /\ 0 <= r_add_time e /\ 0 <= r_set_priority e.

(** The timer could not be scheduled (the clock did answer). *)
Definition sched_fails (e : env) : Prop :=
  0 <= r_event_now e /\ (r_add_time e < 0 \/ r_set_priority e < 0).

(** The timer handler puts a frame on the wire in these situations. *)
Definition sends_on_timeout (ll : sd_ipv4acd) : bool :=
  match state ll with
  | IPV4ACD_STATE_WAITING_PROBE
  | IPV4ACD_STATE_PROBING
  | IPV4ACD_STATE_WAITING_ANNOUNCE => true
  | IPV4ACD_STATE_ANNOUNCING => n_iteration ll <? ANNOUNCE_NUM - 1
  | _ => false
  end.

(** The timer handler arms the next timer in these situations. *)
Definition schedules_on_timeout (ll : sd_ipv4acd) : bool :=
  match state ll with
  | IPV4ACD_STATE_STARTED => true
  | _ => sends_on_timeout ll
  end.

(** ** Concrete sessions and runs

    The configuration of scenario S1: interface 2, MAC 02:00:00:00:00:01,
    address 169.254.7.7 (its four octets as a word in memory order). *)

Definition mac_s1 : ether_addr := mk_ether_addr [2; 0; 0; 0; 0; 1].

Definition address_s1 : Z := 169 + 254 * 2 ^ 8 + 7 * 2 ^ 16 + 7 * 2 ^ 24.

(** An environment in which every call succeeds: the clock reads [now], the
    random source draws [rnd], the socket opened by [start] is descriptor 3,
    and a read from it yields a full frame sent from our own address. *)
Definition env_at (now rnd : Z) : env :=
  {| random_u64 := rnd;
     r_event_now := 0;
     time_now := now;
     r_add_time := 0;
     r_set_priority := 0;
     r_send := 0;
     recv_n := sizeof_ether_arp;
     recv_errno := 0;
     packet := {| arp_spa := address_s1; arp_tpa := address_s1 |};
     r_bind := 3;
     r_add_io := 0;
     r_io_set_priority := 0 |}.

Definition configure_s1 : list api_call :=
  [ Call_attach_event (Some 1) 0 0 0;
    Call_set_callback (Some 1) 0;
    Call_set_ifindex 2;
    Call_set_mac (Some mac_s1);
    Call_set_address (Some address_s1) ].

(** The timer fires at [now]; the conflicting frame arrives at [now]. *)
Definition tick (now rnd : Z) : api_call := Loop (TimerFires (env_at now rnd)).
Definition conflict_frame (now : Z) : api_call :=
  Loop (SocketReadable (env_at now 0)).

(** The configured session of scenario S1, before [start]. *)
Definition session_s1 : sd_ipv4acd :=
  with_address address_s1
    (with_mac_addr mac_s1
       (with_ifindex 2
          (with_callback (Some 1) 0
             (with_event (Some 1) sd_ipv4acd_new)))).

(** One round of scenario S3, begun at time [t0]: [start], the timer of
    STARTED, the timer of WAITING_PROBE that sends the first probe, and a
    conflicting frame in answer to it. *)
Definition s3_round (t0 : Z) : list api_call :=
  [ Call_start (env_at t0 0);
    tick t0 500000;
    tick (t0 + 500000) 0;
    conflict_frame (t0 + 600000) ].

(** Scenario S3: ten such rounds, one per second, then the eleventh
    [start]. *)
Definition s3_calls : list api_call :=
  configure_s1 ++
  flat_map s3_round
    [0; 1000000; 2000000; 3000000; 4000000;
     5000000; 6000000; 7000000; 8000000; 9000000] ++
  [Call_start (env_at 10000000 0)].

(** Scenario S4: a clean bind (three probes, two announcements, RUNNING at
    8 s), a conflict at 9 s that is defended, and a second one at 14 s,
    inside the defend window. *)
Definition s4_calls : list api_call :=
  configure_s1 ++
  [ Call_start (env_at 0 0);
    tick 0 0;
    tick 0 0;
    tick 1000000 0;
    tick 2000000 0;
    tick 4000000 0;
    tick 6000000 0;
    tick 8000000 0;
    conflict_frame 9000000;
    conflict_frame 14000000 ].

(** The session a call leaves behind. *)
Definition session_after {A : Type} (o : outcome (A * sd_ipv4acd * list action))
  : option sd_ipv4acd :=
  match o with
  | Done (_, ll, _) => Some ll
  | Aborted _ => None
  end.

(** The trace a call leaves behind. *)
Definition trace_of {A : Type} (o : outcome (A * sd_ipv4acd * list action))
  : list action :=
  match o with
  | Done (_, _, t) => t
  | Aborted _ => []
  end.

(** The configuration of [ll'] is that of [ll]. *)
Definition same_config (ll ll' : sd_ipv4acd) : Prop :=
  ifindex ll' = ifindex ll /\ address ll' = address ll /\
  mac_addr ll' = mac_addr ll /\ callback ll' = callback ll /\
  userdata ll' = userdata ll.

(** The probe and the announcement a session sends. *)
Definition probe_of (ll : sd_ipv4acd) : action :=
  ArpProbe (ifindex ll) (address ll) (mac_addr ll).
Definition announcement_of (ll : sd_ipv4acd) : action :=
  ArpAnnouncement (ifindex ll) (address ll) (mac_addr ll).

(** A timer tick of the event loop. *)
Definition timer (e : env) : api_call := Loop (TimerFires e).

(** The session of scenario S1 right after a successful [start] at time 0. *)
Definition started_s1 : sd_ipv4acd :=
  Eval vm_compute in
    match session_after (sd_ipv4acd_start (env_at 0 0) session_s1) with
    | Some ll => ll
    | None => session_s1
    end.

(** The same session when its third probe has gone out, waiting to
    announce. *)
Definition waiting_announce_s1 : sd_ipv4acd :=
  Eval vm_compute in
    match session_after
            (run [tick 0 0; tick 0 0; tick 1000000 0; tick 2000000 0]
               started_s1) with
    | Some ll => ll
    | None => session_s1
    end.

(** The same session once bound: RUNNING, at 8 s. *)
Definition running_s1 : sd_ipv4acd :=
  Eval vm_compute in
    match session_after
            (run [tick 4000000 0; tick 6000000 0; tick 8000000 0]
               waiting_announce_s1) with
    | Some ll => ll
    | None => session_s1
    end.

(** The handler returned after stopping the session of [ll]: the session is
    reset, its configuration kept, and the callback, if there is one, has
    seen STOP and nothing else. *)
Definition stops (ll : sd_ipv4acd)
  (o : outcome (Z * sd_ipv4acd * list action)) : Prop :=
  exists ll' t,
    o = Done (0, ll', t) /\ is_reset ll' /\ same_config ll ll' /\
    (callback ll <> None -> events t = [SD_IPV4ACD_EVENT_STOP]).

(** An environment like [env_at], for a read that yields [n] bytes. *)
Definition env_recv (now n : Z) : env :=
  {| random_u64 := 0;
     r_event_now := 0;
     time_now := now;
     r_add_time := 0;
     r_set_priority := 0;
     r_send := 0;
     recv_n := n;
     recv_errno := 0;
     packet := {| arp_spa := address_s1; arp_tpa := address_s1 |};
     r_bind := 3;
     r_add_io := 0;
     r_io_set_priority := 0 |}.

(** An environment like [env_at] in which sending fails with -ENETDOWN. *)
Definition env_send_fails (now : Z) : env :=
  {| random_u64 := 0;
     r_event_now := 0;
     time_now := now;
     r_add_time := 0;
     r_set_priority := 0;
     r_send := -100;
     recv_n := sizeof_ether_arp;
     recv_errno := 0;
     packet := {| arp_spa := address_s1; arp_tpa := address_s1 |};
     r_bind := 3;
     r_add_io := 0;
     r_io_set_priority := 0 |}.

(** The session of scenario S1 in PROBING, its first probe sent. *)
Definition probing_s1 : sd_ipv4acd :=
  Eval vm_compute in
    match session_after (run [tick 0 0; tick 0 0] started_s1) with
    | Some ll => ll
    | None => session_s1
    end.

(** Where scenario S4 ends. *)
Definition s4_final : sd_ipv4acd :=
  Eval vm_compute in
    match session_after (run s4_calls sd_ipv4acd_new) with
    | Some ll => ll
    | None => session_s1
    end.

(** Where scenario S3 stands after the eleventh [start], and what has gone
    over the wire and to the callback until then. *)
Definition s3_final : sd_ipv4acd :=
  Eval vm_compute in
    match session_after (run s3_calls sd_ipv4acd_new) with
    | Some ll => ll
    | None => session_s1
    end.

Definition s3_trace : list action :=
  Eval vm_compute in trace_of (run s3_calls sd_ipv4acd_new).

(** ** Runs without conflicts *)

(** A read from the socket that is no conflict for [ll]: a short frame, a
    read that failed with EAGAIN or EINTR, or, once the address is announced,
    a full frame sent from another address. (Before that, every full frame
    counts as a conflict.) *)
Definition no_conflict (e : env) (ll : sd_ipv4acd) : Prop :=
  0 <= recv_n e < sizeof_ether_arp \/
  (recv_n e < 0 /\ (recv_errno e = EAGAIN \/ recv_errno e = EINTR)) \/
  (recv_n e = sizeof_ether_arp /\
   (state ll = IPV4ACD_STATE_ANNOUNCING \/ state ll = IPV4ACD_STATE_RUNNING) /\
   ipv4acd_arp_conflict ll (packet e) = false).

(** An event of the loop without error and without conflict. *)
Definition quiet (ev : loop_event) (ll : sd_ipv4acd) : Prop :=
  match ev with
  | TimerFires e => env_ok e
  | SocketReadable e => no_conflict e ll
  end.

(** Every event of the run is quiet in the session it meets. *)
Fixpoint quiet_run (evs : list loop_event) (ll : sd_ipv4acd) : Prop :=
  match evs with
  | [] => True
  | ev :: evs' =>
      quiet ev ll /\
      forall r ll' t, dispatch ev ll = Done (r, ll', t) -> quiet_run evs' ll'
  end.

Definition is_timer (ev : loop_event) : bool :=
  match ev with TimerFires _ => true | SocketReadable _ => false end.

(** How often the timer fires in a run. *)
Definition ticks (evs : list loop_event) : nat :=
  List.length (filter is_timer evs).

(** What a session that waits to announce has sent and reported once its
    timer has fired [n] times, and the state it is in then. *)
Definition announce_trace (ll : sd_ipv4acd) (n : nat) : list action :=
  match n with
  | O => []
  | S O => announcement_of ll :: notified ll SD_IPV4ACD_EVENT_BIND
  | _ => announcement_of ll :: notified ll SD_IPV4ACD_EVENT_BIND
           ++ [announcement_of ll]
  end.

Definition announce_state (n : nat) : IPv4ACDState :=
  match n with
  | O => IPV4ACD_STATE_WAITING_ANNOUNCE
  | S O | S (S O) => IPV4ACD_STATE_ANNOUNCING
  | _ => IPV4ACD_STATE_RUNNING
  end.

(** Where the session [ll] stands when the timer of the session [ll0], which
    waited to announce, has fired [k] times. *)
Definition announce_phase (ll0 : sd_ipv4acd) (k : nat) (ll : sd_ipv4acd)
  : Prop :=
  same_config ll0 ll /\ state ll = announce_state k /\
  match k with
  | O => timer_armed ll = true
  | S O => n_iteration ll = 0 /\ n_conflict ll = 0 /\ timer_armed ll = true
  | S (S O) =>
      n_iteration ll = ANNOUNCE_NUM - 1 /\ n_conflict ll = 0 /\
      timer_armed ll = true
  | _ => n_conflict ll = 0 /\ timer_armed ll = false
  end.

(** A run of scenario S1 from WAITING_ANNOUNCE: three ticks, with a short
    frame and a frame from another sender in between. *)
Definition announce_run_s1 : list loop_event :=
  [ TimerFires (env_at 4000000 0);
    SocketReadable (env_recv 4500000 20);
    TimerFires (env_at 6000000 0);
    SocketReadable
      {| random_u64 := 0; r_event_now := 0; time_now := 7000000;
         r_add_time := 0; r_set_priority := 0; r_send := 0;
         recv_n := sizeof_ether_arp; recv_errno := 0;
         packet := {| arp_spa := 0; arp_tpa := address_s1 |};
         r_bind := 3; r_add_io := 0; r_io_set_priority := 0 |};
    TimerFires (env_at 8000000 0) ].


(** ** Reference counting *)

Definition with_n_ref (n : Z) (ll : sd_ipv4acd) : sd_ipv4acd :=
  mk_sd_ipv4acd n (state ll) (ifindex ll) (fd ll) (n_iteration ll)
    (n_conflict ll) (receive_message_event_source ll) (timer_event_source ll)
    (defend_window ll) (address ll) (mac_addr ll) (event ll)
    (event_priority ll) (callback ll) (userdata ll).

(** What has become of the object a pointer was passed for: there was none
    (NULL), it lives on, or it has been freed, with the contents it had when
    [free] was reached. *)
Inductive object : Type :=
| Null
| Live (ll : sd_ipv4acd)
| Freed (last : sd_ipv4acd).

(** [sd_ipv4acd_ref]; the argument is NULL ([None]) or points to a session.
    The result is what the returned pointer points to. [assert_se] kills the
    program on a session without references. *)
Definition sd_ipv4acd_ref (p : option sd_ipv4acd)
  : outcome (option sd_ipv4acd) :=
  match p with
  | None => Done None
  | Some ll =>
      if 1 <=? n_ref ll
      then Done (Some (with_n_ref (u32 (n_ref ll + 1)) ll))
      else Aborted "ll->n_ref >= 1"
  end.

(** [sd_ipv4acd_unref]; the function returns NULL in every case, the result
    here is the object afterwards and what the call has sent or reported.
    The last reference resets the session, detaches it from the event loop
    and frees it. *)
Definition sd_ipv4acd_unref (p : option sd_ipv4acd)
  : outcome (object * list action) :=
  match p with
  | None => Done (Null, [])
  | Some ll =>
      if 1 <=? n_ref ll then
        let ll1 := with_n_ref (u32 (n_ref ll - 1)) ll in
        if 0 <? n_ref ll1 then Done (Live ll1, [])
        else
          match sd_ipv4acd_detach_event (ipv4acd_reset ll1) with
          | Done (_, ll2, t) => Done (Freed ll2, t)
          | Aborted msg => Aborted msg
          end
      else Aborted "ll->n_ref >= 1"
  end.

(** ** The shape of a session *)

(** The socket and both event sources are there, or all three are gone. *)
Definition holds_resources (ll : sd_ipv4acd) : Prop :=
  timer_event_source ll <> None /\
  receive_message_event_source ll <> None /\ 0 <= fd ll.

Definition released (ll : sd_ipv4acd) : Prop :=
  timer_event_source ll = None /\
  receive_message_event_source ll = None /\ fd ll = -1.

(** The states in which a timer is pending. *)
Definition awaits_timer (st : IPv4ACDState) : bool :=
  match st with
  | IPV4ACD_STATE_STARTED
  | IPV4ACD_STATE_WAITING_PROBE
  | IPV4ACD_STATE_PROBING
  | IPV4ACD_STATE_WAITING_ANNOUNCE
  | IPV4ACD_STATE_ANNOUNCING => true
  | _ => false
  end.

(** Resources and counters as they go with the state: nothing is held in
    INIT and everything otherwise; [n_iteration] is 0 except in the second
    round of PROBING and of ANNOUNCING; [n_conflict] is 0 except in INIT
    after a conflict. *)
Definition session_shape (ll : sd_ipv4acd) : Prop :=
  match state ll with
  | IPV4ACD_STATE_INIT =>
      released ll /\ n_iteration ll = 0 /\ 0 <= n_conflict ll <= 1
  | IPV4ACD_STATE_PROBING
  | IPV4ACD_STATE_ANNOUNCING =>
      holds_resources ll /\ 0 <= n_iteration ll <= 1 /\ n_conflict ll = 0
  | _ =>
      holds_resources ll /\ n_iteration ll = 0 /\ n_conflict ll = 0
  end.

(** The shape, and the timer armed exactly where one is pending. *)
Definition session_wf (ll : sd_ipv4acd) : Prop :=
  session_shape ll /\ timer_armed ll = awaits_timer (state ll).

(** ** Reading a trace, continued *)

(** The frame or callback invocation [a] is made with the configuration of
    [ll]. *)
Definition made_by (ll : sd_ipv4acd) (a : action) : Prop :=
  match a with
  | ArpProbe i pa ha
  | ArpAnnouncement i pa ha =>
      i = ifindex ll /\ pa = address ll /\ ha = mac_addr ll
  | Callback cb _ ud => callback ll = Some cb /\ ud = userdata ll
  end.

(** The environment [e] with the frame [p] in the receive buffer. *)
Definition with_packet (p : ether_arp) (e : env) : env :=
  mk_env (random_u64 e) (r_event_now e) (time_now e) (r_add_time e)
    (r_set_priority e) (r_send e) (recv_n e) (recv_errno e) p (r_bind e)
    (r_add_io e) (r_io_set_priority e).

(** ** Starting a session *)

(** The four settings [sd_ipv4acd_start] asks for. *)
Definition configured (ll : sd_ipv4acd) : Prop :=
  event ll <> None /\ 0 < ifindex ll /\ address ll <> 0 /\
  ether_addr_is_null (mac_addr ll) = false.

(** Nothing fails while the session is started: the socket is bound, the
    I/O source added and given its priority, and the timer scheduled. *)
Definition start_ok (e : env) : Prop :=
  0 <= r_bind e /\ 0 <= r_add_io e /\ 0 <= r_io_set_priority e /\
  sched_ok e.

(** * Properties of the state machine *)

(** ** Proof tools

    Integer arithmetic and the helpers of the machine stay folded under
    [cbn]; the helpers are rewritten with their equations below. *)

#[local] Arguments Z.add : simpl never.
#[local] Arguments Z.sub : simpl never.
#[local] Arguments Z.mul : simpl never.
#[local] Arguments Z.opp : simpl never.
#[local] Arguments Z.modulo : simpl never.
#[local] Arguments Z.pow : simpl never.
#[local] Arguments Z.ltb : simpl never.
#[local] Arguments Z.leb : simpl never.
#[local] Arguments Z.eqb : simpl never.
#[local] Arguments u64 : simpl never.
#[local] Arguments u32 : simpl never.
#[local] Arguments next_timeout : simpl never.

Ltac unfold_m := unfold bind, ret, get, modify, emit, abort.

Ltac ltb_false H :=
  match type of H with
  | 0 <= ?x => let E := fresh "E" in
      assert (E : (x <? 0) = false) by (apply Z.ltb_ge; exact H)
  end.

(** ** The helpers, as equations *)

Lemma client_notify_eq ev ll :
  ipv4acd_client_notify ev ll = Done (tt, ll, notified ll ev).
Proof.
  unfold ipv4acd_client_notify, notified. unfold_m.
  destruct (callback ll); reflexivity.
Qed.

Lemma set_state_reset st ll :
  ipv4acd_set_state st true ll = with_n_iteration 0 (with_state st ll).
Proof. unfold ipv4acd_set_state. rewrite andb_false_r. reflexivity. Qed.

Lemma set_state_enter st ll :
  state ll <> st ->
  ipv4acd_set_state st false ll = with_n_iteration 0 (with_state st ll).
Proof.
  intros H. unfold ipv4acd_set_state.
  destruct st, (state ll); try reflexivity; congruence.
Qed.

Lemma set_state_repeat st ll :
  state ll = st ->
  ipv4acd_set_state st false ll =
  with_n_iteration (u32 (n_iteration ll + 1)) ll.
Proof.
  intros <-. unfold ipv4acd_set_state. destruct (state ll); reflexivity.
Qed.

Lemma reset_eq ll :
  ipv4acd_reset ll =
  with_n_iteration 0 (with_state IPV4ACD_STATE_INIT (with_fd (-1)
    (with_receive_message_event_source None
       (with_timer_event_source None ll)))).
Proof. unfold ipv4acd_reset. apply set_state_reset. Qed.

Lemma notified_reset ll ev : notified (ipv4acd_reset ll) ev = notified ll ev.
Proof. rewrite reset_eq. reflexivity. Qed.

Lemma stop_eq ll :
  sd_ipv4acd_stop ll =
  Done (0, ipv4acd_reset ll, notified ll SD_IPV4ACD_EVENT_STOP).
Proof.
  unfold sd_ipv4acd_stop. unfold bind at 1. unfold modify at 1.
  unfold bind. rewrite client_notify_eq. unfold ret. cbn [app].
  rewrite notified_reset, app_nil_r. reflexivity.
Qed.

Lemma reset_is_reset ll : is_reset (ipv4acd_reset ll).
Proof. rewrite reset_eq. unfold is_reset. repeat split. Qed.

Lemma set_next_wakeup_ok e usec r ll :
  sched_ok e ->
  ipv4acd_set_next_wakeup e usec r ll =
  Done (0, armed_for e (next_timeout e usec r) ll, []).
Proof.
  intros (H1 & H2 & H3). ltb_false H1. ltb_false H2. ltb_false H3.
  unfold ipv4acd_set_next_wakeup. rewrite E, E0, E1. reflexivity.
Qed.

Lemma set_next_wakeup_fails e :
  sched_fails e ->
  exists c, c < 0 /\
    forall usec r ll, ipv4acd_set_next_wakeup e usec r ll = Done (c, ll, []).
Proof.
  intros (H1 & H2). ltb_false H1. unfold ipv4acd_set_next_wakeup. rewrite E.
  destruct (Z.ltb_spec (r_add_time e) 0) as [Ha|Ha].
  - exists (r_add_time e). split; [assumption | reflexivity].
  - destruct H2 as [H2|H2]; [lia|].
    exists (r_set_priority e). split; [assumption|].
    apply Z.ltb_lt in H2. rewrite H2. reflexivity.
Qed.

Lemma on_conflict_eq ll :
  ipv4acd_on_conflict ll =
  Done (tt, ipv4acd_reset (with_n_conflict (u32 (n_conflict ll + 1)) ll),
        notified ll SD_IPV4ACD_EVENT_CONFLICT).
Proof.
  unfold ipv4acd_on_conflict. unfold bind, get, modify.
  rewrite client_notify_eq. rewrite notified_reset. reflexivity.
Qed.

#[local] Arguments ipv4acd_set_next_wakeup : simpl never.
#[local] Arguments sd_ipv4acd_stop : simpl never.
#[local] Arguments ipv4acd_client_notify : simpl never.
#[local] Arguments ipv4acd_on_conflict : simpl never.
#[local] Arguments ipv4acd_set_state : simpl never.
#[local] Arguments ipv4acd_reset : simpl never.

Ltac bools :=
  repeat match goal with
         | H : _ = true |- _ => rewrite H
         | H : _ = false |- _ => rewrite H
         | H : state _ = _ |- _ => rewrite H
         | H : n_iteration _ = _ |- _ => rewrite H
         end.

(* Comparisons between constants are evaluated. *)
Ltac no_var t :=
  match t with
  | context [?x] => is_var x; fail 1
  | _ => idtac
  end.
Ltac closed_test t :=
  let v := eval vm_compute in t in
  match v with
  | true => change t with true
  | false => change t with false
  end.
Ltac closed_tests :=
  repeat match goal with
         | |- context [?a <? ?b] => no_var a; no_var b; closed_test (a <? b)
         | |- context [?a <=? ?b] => no_var a; no_var b; closed_test (a <=? b)
         | |- context [?a =? ?b] => no_var a; no_var b; closed_test (a =? b)
         end.

(* One handler call: unfold the handler, then alternate reduction with the
   rewriting of tests and helpers. *)
Ltac acd_unfold :=
  unfold ipv4acd_on_timeout, ipv4acd_on_packet, on_timeout_probe,
    on_timeout_announce, arp_send_probe, arp_send_announcement;
  unfold_m.

Ltac acd_step :=
  first [ progress cbn
        | progress bools
        | progress closed_tests
        | rewrite app_nil_r
        | rewrite set_state_reset
        | rewrite set_state_repeat by assumption
        | rewrite set_state_enter by congruence
        | rewrite stop_eq
        | rewrite client_notify_eq
        | rewrite on_conflict_eq
        | rewrite set_next_wakeup_ok by assumption ].

Ltac acd_simpl := repeat acd_step.

Ltac env_bools He :=
  let H1 := fresh "H" in let H2 := fresh "H" in
  let H3 := fresh "H" in let H4 := fresh "H" in
  destruct He as (H1 & H2 & H3 & H4);
  assert (sched_ok _) by (repeat split; [exact H1 | exact H2 | exact H3]);
  ltb_false H4.

(** ** The timer handler, transition by transition *)

Lemma on_timeout_started e ll :
  state ll = IPV4ACD_STATE_STARTED -> sched_ok e ->
  n_conflict ll < MAX_CONFLICTS ->
  ipv4acd_on_timeout e ll =
  Done (0, armed_for e (next_timeout e 0 PROBE_WAIT_USEC)
             (with_n_iteration 0 (with_state IPV4ACD_STATE_WAITING_PROBE ll)),
        []).
Proof.
  intros Hs He Hc.
  assert (Ec : (MAX_CONFLICTS <=? n_conflict ll) = false)
    by (apply Z.leb_gt; exact Hc).
  acd_unfold. acd_simpl. reflexivity.
Qed.

Lemma on_timeout_rate_limited e ll :
  state ll = IPV4ACD_STATE_STARTED -> sched_ok e ->
  MAX_CONFLICTS <= n_conflict ll ->
  ipv4acd_on_timeout e ll =
  Done (0, with_n_conflict 0
             (armed_for e
                (next_timeout e RATE_LIMIT_INTERVAL_USEC PROBE_WAIT_USEC)
                (with_n_iteration 0
                   (with_state IPV4ACD_STATE_WAITING_PROBE ll))),
        []).
Proof.
  intros Hs He Hc.
  assert (Ec : (MAX_CONFLICTS <=? n_conflict ll) = true)
    by (apply Z.leb_le; exact Hc).
  acd_unfold. acd_simpl. reflexivity.
Qed.

Lemma on_timeout_first_probe e ll :
  state ll = IPV4ACD_STATE_WAITING_PROBE -> env_ok e ->
  n_iteration ll < PROBE_NUM - 2 ->
  ipv4acd_on_timeout e ll =
  Done (0, armed_for e
             (next_timeout e PROBE_MIN_USEC (PROBE_MAX_USEC - PROBE_MIN_USEC))
             (with_n_iteration 0 (with_state IPV4ACD_STATE_PROBING ll)),
        [ArpProbe (ifindex ll) (address ll) (mac_addr ll)]).
Proof.
  intros Hs He Hn. env_bools He.
  assert (En : (n_iteration ll <? PROBE_NUM - 2) = true)
    by (apply Z.ltb_lt; exact Hn).
  acd_unfold. acd_simpl. reflexivity.
Qed.

Lemma on_timeout_next_probe e ll :
  state ll = IPV4ACD_STATE_PROBING -> env_ok e ->
  n_iteration ll < PROBE_NUM - 2 ->
  ipv4acd_on_timeout e ll =
  Done (0, armed_for e
             (next_timeout e PROBE_MIN_USEC (PROBE_MAX_USEC - PROBE_MIN_USEC))
             (with_n_iteration (u32 (n_iteration ll + 1)) ll),
        [ArpProbe (ifindex ll) (address ll) (mac_addr ll)]).
Proof.
  intros Hs He Hn. env_bools He.
  assert (En : (n_iteration ll <? PROBE_NUM - 2) = true)
    by (apply Z.ltb_lt; exact Hn).
  acd_unfold. acd_simpl. reflexivity.
Qed.

Lemma on_timeout_last_probe e ll :
  state ll = IPV4ACD_STATE_WAITING_PROBE \/ state ll = IPV4ACD_STATE_PROBING ->
  env_ok e ->
  PROBE_NUM - 2 <= n_iteration ll ->
  ipv4acd_on_timeout e ll =
  Done (0, armed_for e (next_timeout e ANNOUNCE_WAIT_USEC 0)
             (with_n_iteration 0
                (with_state IPV4ACD_STATE_WAITING_ANNOUNCE ll)),
        [ArpProbe (ifindex ll) (address ll) (mac_addr ll)]).
Proof.
  intros Hs He Hn. env_bools He.
  assert (En : (n_iteration ll <? PROBE_NUM - 2) = false)
    by (apply Z.ltb_ge; exact Hn).
  acd_unfold. destruct Hs as [Hs|Hs]; acd_simpl; reflexivity.
Qed.

Lemma on_timeout_first_announce e ll :
  state ll = IPV4ACD_STATE_WAITING_ANNOUNCE -> env_ok e ->
  ipv4acd_on_timeout e ll =
  Done (0, with_n_conflict 0
             (armed_for e (next_timeout e ANNOUNCE_INTERVAL_USEC 0)
                (with_n_iteration 0 (with_state IPV4ACD_STATE_ANNOUNCING ll))),
        ArpAnnouncement (ifindex ll) (address ll) (mac_addr ll)
          :: notified ll SD_IPV4ACD_EVENT_BIND).
Proof.
  intros Hs He. env_bools He.
  acd_unfold. acd_simpl. reflexivity.
Qed.

Lemma on_timeout_next_announce e ll :
  state ll = IPV4ACD_STATE_ANNOUNCING -> env_ok e ->
  n_iteration ll = 0 ->
  ipv4acd_on_timeout e ll =
  Done (0, armed_for e (next_timeout e ANNOUNCE_INTERVAL_USEC 0)
             (with_n_iteration 1 ll),
        [ArpAnnouncement (ifindex ll) (address ll) (mac_addr ll)]).
Proof.
  intros Hs He Hn. env_bools He.
  acd_unfold. acd_simpl. reflexivity.
Qed.

Lemma on_timeout_running e ll :
  state ll = IPV4ACD_STATE_ANNOUNCING ->
  ANNOUNCE_NUM - 1 <= n_iteration ll ->
  ipv4acd_on_timeout e ll =
  Done (0, with_n_iteration 0 (with_state IPV4ACD_STATE_RUNNING ll), []).
Proof.
  intros Hs Hn.
  assert (En : (ANNOUNCE_NUM - 1 <=? n_iteration ll) = true)
    by (apply Z.leb_le; exact Hn).
  acd_unfold. acd_simpl. reflexivity.
Qed.

Lemma on_timeout_invalid_state e ll :
  state ll = IPV4ACD_STATE_INIT \/ state ll = IPV4ACD_STATE_RUNNING ->
  ipv4acd_on_timeout e ll = Aborted "Invalid state.".
Proof.
  intros [Hs|Hs]; acd_unfold; acd_simpl; reflexivity.
Qed.

(** A failed send in the timer handler. *)

Lemma on_timeout_send_fails e ll :
  sends_on_timeout ll = true -> r_send e < 0 ->
  ipv4acd_on_timeout e ll =
  Done (0, ipv4acd_reset ll, notified ll SD_IPV4ACD_EVENT_STOP).
Proof.
  intros Hs He. apply Z.ltb_lt in He.
  unfold sends_on_timeout in Hs. acd_unfold.
  destruct (state ll) eqn:Hst; try discriminate; acd_simpl;
    try reflexivity.
  replace (ANNOUNCE_NUM - 1 <=? n_iteration ll) with false
    by (symmetry; apply Z.leb_gt; apply Z.ltb_lt; exact Hs).
  acd_simpl. reflexivity.
Qed.

(** ** The packet handler, case by case *)

Lemma on_packet_short e ll :
  0 <= recv_n e -> recv_n e <> sizeof_ether_arp ->
  ipv4acd_on_packet e ll = Done (0, ll, []).
Proof.
  intros H0 H1. ltb_false H0.
  assert (E1 : (recv_n e =? sizeof_ether_arp) = false)
    by (apply Z.eqb_neq; exact H1).
  acd_unfold. acd_simpl. reflexivity.
Qed.

Lemma on_packet_transient e ll :
  recv_n e < 0 -> recv_errno e = EAGAIN \/ recv_errno e = EINTR ->
  ipv4acd_on_packet e ll = Done (0, ll, []).
Proof.
  intros H0 H1. apply Z.ltb_lt in H0.
  assert (E1 : (recv_errno e =? EAGAIN) || (recv_errno e =? EINTR) = true).
  { apply orb_true_iff. destruct H1 as [H1|H1]; [left|right];
      apply Z.eqb_eq; exact H1. }
  acd_unfold. acd_simpl. reflexivity.
Qed.

Lemma on_packet_recv_fails e ll :
  recv_n e < 0 -> recv_errno e <> EAGAIN -> recv_errno e <> EINTR ->
  ipv4acd_on_packet e ll =
  Done (0, ipv4acd_reset ll, notified ll SD_IPV4ACD_EVENT_STOP).
Proof.
  intros H0 H1 H2. apply Z.ltb_lt in H0.
  apply Z.eqb_neq in H1, H2.
  acd_unfold. acd_simpl. reflexivity.
Qed.

Ltac full_frame Hn :=
  match type of Hn with
  | recv_n ?e = _ =>
      let E := fresh "E" in let E' := fresh "E" in
      assert (E : (recv_n e <? 0) = false)
        by (rewrite Hn; reflexivity);
      assert (E' : (recv_n e =? sizeof_ether_arp) = true)
        by (rewrite Hn; reflexivity)
  end.

Lemma on_packet_probing_conflict e ll :
  recv_n e = sizeof_ether_arp ->
  state ll = IPV4ACD_STATE_WAITING_PROBE \/
  state ll = IPV4ACD_STATE_PROBING \/
  state ll = IPV4ACD_STATE_WAITING_ANNOUNCE ->
  ipv4acd_on_packet e ll =
  Done (0, ipv4acd_reset (with_n_conflict (u32 (n_conflict ll + 1)) ll),
        notified ll SD_IPV4ACD_EVENT_CONFLICT).
Proof.
  intros Hn Hs. full_frame Hn.
  acd_unfold. destruct Hs as [Hs|[Hs|Hs]]; acd_simpl; reflexivity.
Qed.

Lemma on_packet_benign e ll :
  recv_n e = sizeof_ether_arp ->
  state ll = IPV4ACD_STATE_ANNOUNCING \/ state ll = IPV4ACD_STATE_RUNNING ->
  ipv4acd_arp_conflict ll (packet e) = false ->
  ipv4acd_on_packet e ll = Done (0, ll, []).
Proof.
  intros Hn Hs Hc. full_frame Hn.
  acd_unfold. destruct Hs as [Hs|Hs]; acd_simpl; reflexivity.
Qed.

Lemma on_packet_defend e ll :
  recv_n e = sizeof_ether_arp ->
  state ll = IPV4ACD_STATE_ANNOUNCING \/ state ll = IPV4ACD_STATE_RUNNING ->
  ipv4acd_arp_conflict ll (packet e) = true ->
  0 <= r_event_now e ->
  defend_window ll < time_now e ->
  0 <= r_send e ->
  ipv4acd_on_packet e ll =
  Done (0, with_defend_window (u64 (time_now e + DEFEND_INTERVAL_USEC)) ll,
        [ArpAnnouncement (ifindex ll) (address ll) (mac_addr ll)]).
Proof.
  intros Hn Hs Hc H0 Hw H1. full_frame Hn. ltb_false H0. ltb_false H1.
  apply Z.ltb_lt in Hw.
  acd_unfold. destruct Hs as [Hs|Hs]; acd_simpl; reflexivity.
Qed.

Lemma on_packet_defend_fails e ll :
  recv_n e = sizeof_ether_arp ->
  state ll = IPV4ACD_STATE_ANNOUNCING \/ state ll = IPV4ACD_STATE_RUNNING ->
  ipv4acd_arp_conflict ll (packet e) = true ->
  0 <= r_event_now e ->
  defend_window ll < time_now e ->
  r_send e < 0 ->
  ipv4acd_on_packet e ll =
  Done (0,
        ipv4acd_reset
          (with_defend_window (u64 (time_now e + DEFEND_INTERVAL_USEC)) ll),
        notified ll SD_IPV4ACD_EVENT_STOP).
Proof.
  intros Hn Hs Hc H0 Hw H1. full_frame Hn. ltb_false H0.
  apply Z.ltb_lt in Hw, H1.
  acd_unfold. destruct Hs as [Hs|Hs]; acd_simpl; reflexivity.
Qed.

Lemma on_packet_conflict_in_window e ll :
  recv_n e = sizeof_ether_arp ->
  state ll = IPV4ACD_STATE_ANNOUNCING \/ state ll = IPV4ACD_STATE_RUNNING ->
  ipv4acd_arp_conflict ll (packet e) = true ->
  0 <= r_event_now e ->
  time_now e <= defend_window ll ->
  ipv4acd_on_packet e ll =
  Done (0, ipv4acd_reset (with_n_conflict (u32 (n_conflict ll + 1)) ll),
        notified ll SD_IPV4ACD_EVENT_CONFLICT).
Proof.
  intros Hn Hs Hc H0 Hw. full_frame Hn. ltb_false H0.
  apply Z.ltb_ge in Hw.
  acd_unfold. destruct Hs as [Hs|Hs]; acd_simpl; reflexivity.
Qed.

Lemma on_packet_invalid_state e ll :
  recv_n e = sizeof_ether_arp ->
  state ll = IPV4ACD_STATE_INIT \/ state ll = IPV4ACD_STATE_STARTED ->
  ipv4acd_on_packet e ll = Aborted "Invalid state.".
Proof.
  intros Hn Hs. full_frame Hn.
  acd_unfold. destruct Hs as [Hs|Hs]; acd_simpl; reflexivity.
Qed.

(** ** Timer ticks through the event loop *)

Lemma dispatch_timer e ll :
  timer_armed ll = true ->
  dispatch (TimerFires e) ll = ipv4acd_on_timeout e (disarm ll).
Proof.
  intros H. unfold dispatch. unfold_m. rewrite H.
  destruct (ipv4acd_on_timeout e (disarm ll)) as [[[r l] t]|]; reflexivity.
Qed.

Lemma state_disarm ll : state (disarm ll) = state ll.
Proof. unfold disarm. destruct (timer_event_source ll); reflexivity. Qed.

Lemma n_iteration_disarm ll : n_iteration (disarm ll) = n_iteration ll.
Proof. unfold disarm. destruct (timer_event_source ll); reflexivity. Qed.

Lemma n_conflict_disarm ll : n_conflict (disarm ll) = n_conflict ll.
Proof. unfold disarm. destruct (timer_event_source ll); reflexivity. Qed.

Lemma same_config_disarm ll : same_config ll (disarm ll).
Proof.
  unfold disarm, same_config.
  destruct (timer_event_source ll); repeat split.
Qed.

Lemma same_config_refl ll : same_config ll ll.
Proof. repeat split. Qed.

Lemma same_config_trans a b c :
  same_config a b -> same_config b c -> same_config a c.
Proof.
  unfold same_config. intros (?&?&?&?&?) (?&?&?&?&?).
  repeat split; congruence.
Qed.

Lemma probe_of_same ll ll' : same_config ll ll' -> probe_of ll' = probe_of ll.
Proof. intros (?&?&?&?&?). unfold probe_of. congruence. Qed.

Lemma announcement_of_same ll ll' :
  same_config ll ll' -> announcement_of ll' = announcement_of ll.
Proof. intros (?&?&?&?&?). unfold announcement_of. congruence. Qed.

Lemma notified_same ll ll' ev :
  same_config ll ll' -> notified ll' ev = notified ll ev.
Proof.
  intros (_ & _ & _ & Hcb & Hud). unfold notified. rewrite Hcb, Hud.
  reflexivity.
Qed.

Lemma env_ok_sched e : env_ok e -> sched_ok e.
Proof. intros (?&?&?&?). repeat split; assumption. Qed.

(** STARTED: no frame, on to WAITING_PROBE with a fresh counter. *)
Lemma tick_started e ll :
  state ll = IPV4ACD_STATE_STARTED -> timer_armed ll = true -> sched_ok e ->
  exists ll',
    dispatch (TimerFires e) ll = Done (0, ll', []) /\
    state ll' = IPV4ACD_STATE_WAITING_PROBE /\ n_iteration ll' = 0 /\
    timer_armed ll' = true /\ same_config ll ll'.
Proof.
  intros Hs Ht He. rewrite (dispatch_timer e ll Ht).
  pose proof (same_config_disarm ll) as Hc.
  assert (Hs' : state (disarm ll) = IPV4ACD_STATE_STARTED)
    by (rewrite state_disarm; exact Hs).
  destruct (Z.lt_ge_cases (n_conflict (disarm ll)) MAX_CONFLICTS) as [Hn|Hn].
  - rewrite (on_timeout_started e _ Hs' He Hn).
    eexists. split; [reflexivity|]. repeat split; apply Hc.
  - rewrite (on_timeout_rate_limited e _ Hs' He Hn).
    eexists. split; [reflexivity|]. repeat split; apply Hc.
Qed.

(** WAITING_PROBE with a fresh counter: the first probe, on to PROBING. *)
Lemma tick_waiting_probe e ll :
  state ll = IPV4ACD_STATE_WAITING_PROBE -> n_iteration ll = 0 ->
  timer_armed ll = true -> env_ok e ->
  exists ll',
    dispatch (TimerFires e) ll = Done (0, ll', [probe_of ll]) /\
    state ll' = IPV4ACD_STATE_PROBING /\ n_iteration ll' = 0 /\
    timer_armed ll' = true /\ same_config ll ll'.
Proof.
  intros Hs Hn Ht He. rewrite (dispatch_timer e ll Ht).
  pose proof (same_config_disarm ll) as Hc.
  rewrite on_timeout_first_probe;
    [ | rewrite state_disarm; exact Hs | exact He
      | rewrite n_iteration_disarm, Hn; reflexivity ].
  eexists. split.
  - f_equal. f_equal. f_equal. apply (probe_of_same _ _ Hc).
  - repeat split; apply Hc.
Qed.

(** PROBING, first round: the second probe, PROBING once more. *)
Lemma tick_probing e ll :
  state ll = IPV4ACD_STATE_PROBING -> n_iteration ll = 0 ->
  timer_armed ll = true -> env_ok e ->
  exists ll',
    dispatch (TimerFires e) ll = Done (0, ll', [probe_of ll]) /\
    state ll' = IPV4ACD_STATE_PROBING /\ n_iteration ll' = 1 /\
    timer_armed ll' = true /\ same_config ll ll'.
Proof.
  intros Hs Hn Ht He. rewrite (dispatch_timer e ll Ht).
  pose proof (same_config_disarm ll) as Hc.
  rewrite on_timeout_next_probe;
    [ | rewrite state_disarm; exact Hs | exact He
      | rewrite n_iteration_disarm, Hn; reflexivity ].
  rewrite n_iteration_disarm, Hn.
  eexists. split.
  - f_equal. f_equal. f_equal. apply (probe_of_same _ _ Hc).
  - repeat split; try apply Hc. cbn. rewrite state_disarm. exact Hs.
Qed.

(** PROBING with [PROBE_NUM - 2] rounds done: the last probe, on to
    WAITING_ANNOUNCE. *)
Lemma tick_last_probe e ll :
  state ll = IPV4ACD_STATE_PROBING -> PROBE_NUM - 2 <= n_iteration ll ->
  timer_armed ll = true -> env_ok e ->
  exists ll',
    dispatch (TimerFires e) ll = Done (0, ll', [probe_of ll]) /\
    state ll' = IPV4ACD_STATE_WAITING_ANNOUNCE /\ n_iteration ll' = 0 /\
    timer_armed ll' = true /\ same_config ll ll'.
Proof.
  intros Hs Hn Ht He. rewrite (dispatch_timer e ll Ht).
  pose proof (same_config_disarm ll) as Hc.
  rewrite on_timeout_last_probe;
    [ | right; rewrite state_disarm; exact Hs | exact He
      | rewrite n_iteration_disarm; exact Hn ].
  eexists. split.
  - f_equal. f_equal. f_equal. apply (probe_of_same _ _ Hc).
  - repeat split; apply Hc.
Qed.

(** WAITING_ANNOUNCE: the first announcement, the conflict counter cleared
    and BIND reported, on to ANNOUNCING. *)
Lemma tick_waiting_announce e ll :
  state ll = IPV4ACD_STATE_WAITING_ANNOUNCE ->
  timer_armed ll = true -> env_ok e ->
  exists ll',
    dispatch (TimerFires e) ll =
      Done (0, ll', announcement_of ll :: notified ll SD_IPV4ACD_EVENT_BIND) /\
    state ll' = IPV4ACD_STATE_ANNOUNCING /\ n_iteration ll' = 0 /\
    n_conflict ll' = 0 /\
    timer_armed ll' = true /\ same_config ll ll'.
Proof.
  intros Hs Ht He. rewrite (dispatch_timer e ll Ht).
  pose proof (same_config_disarm ll) as Hc.
  rewrite on_timeout_first_announce;
    [ | rewrite state_disarm; exact Hs | exact He ].
  eexists. split.
  - f_equal. f_equal. f_equal;
      [ apply (announcement_of_same _ _ Hc) | apply (notified_same _ _ _ Hc) ].
  - repeat split; apply Hc.
Qed.

(** ANNOUNCING, first round: the second announcement, no event. *)
Lemma tick_announcing e ll :
  state ll = IPV4ACD_STATE_ANNOUNCING -> n_iteration ll = 0 ->
  timer_armed ll = true -> env_ok e ->
  exists ll',
    dispatch (TimerFires e) ll = Done (0, ll', [announcement_of ll]) /\
    state ll' = IPV4ACD_STATE_ANNOUNCING /\ n_iteration ll' = 1 /\
    n_conflict ll' = n_conflict ll /\
    timer_armed ll' = true /\ same_config ll ll'.
Proof.
  intros Hs Hn Ht He. rewrite (dispatch_timer e ll Ht).
  pose proof (same_config_disarm ll) as Hc.
  rewrite on_timeout_next_announce;
    [ | rewrite state_disarm; exact Hs | exact He
      | rewrite n_iteration_disarm; exact Hn ].
  eexists. split.
  - f_equal. f_equal. f_equal. apply (announcement_of_same _ _ Hc).
  - repeat split; try apply Hc.
    + cbn. rewrite state_disarm. exact Hs.
    + cbn. apply n_conflict_disarm.
Qed.

(** ANNOUNCING with [ANNOUNCE_NUM - 1] rounds done: RUNNING, nothing sent
    and no timer armed. *)
Lemma tick_running e ll :
  state ll = IPV4ACD_STATE_ANNOUNCING ->
  ANNOUNCE_NUM - 1 <= n_iteration ll ->
  timer_armed ll = true ->
  exists ll',
    dispatch (TimerFires e) ll = Done (0, ll', []) /\
    state ll' = IPV4ACD_STATE_RUNNING /\
    n_conflict ll' = n_conflict ll /\
    timer_armed ll' = false /\ same_config ll ll'.
Proof.
  intros Hs Hn Ht. rewrite (dispatch_timer e ll Ht).
  pose proof (same_config_disarm ll) as Hc.
  rewrite on_timeout_running;
    [ | rewrite state_disarm; exact Hs
      | rewrite n_iteration_disarm; exact Hn ].
  eexists. split; [reflexivity|].
  repeat split; try apply Hc.
  - cbn. apply n_conflict_disarm.
  - unfold timer_armed, disarm in *. cbn.
    destruct (timer_event_source ll); [reflexivity | discriminate].
Qed.

(** ** Runs *)

Lemma run_cons c cs ll r ll1 t1 :
  perform c ll = Done (r, ll1, t1) ->
  run (c :: cs) ll =
  match run cs ll1 with
  | Done (u, ll2, t2) => Done (u, ll2, t1 ++ t2)
  | Aborted msg => Aborted msg
  end.
Proof. intros H. cbn [run]. unfold bind. rewrite H. reflexivity. Qed.

Lemma run_nil ll : run [] ll = Done (tt, ll, []).
Proof. reflexivity. Qed.

Lemma reachable_run cs ll ll' t :
  reachable ll -> run cs ll = Done (tt, ll', t) -> reachable ll'.
Proof.
  revert ll t. induction cs as [|c cs IH]; intros ll t Hr H.
  - rewrite run_nil in H. injection H as <- _. exact Hr.
  - cbn [run] in H. unfold bind in H.
    destruct (perform c ll) as [[[r l0] t0]|] eqn:E; [|discriminate].
    destruct (run cs l0) as [[[u l1] t1]|] eqn:E'; [|discriminate].
    destruct u. injection H as <- _.
    apply (IH l0 t1); [|exact E'].
    apply (reachable_step ll c r l0 t0 Hr E).
Qed.

(** ** The probing phase *)

(** C1. From STARTED with the timer armed, four timer ticks without frames
    and without send or scheduling errors lead to WAITING_ANNOUNCE and send
    exactly [PROBE_NUM] = 3 probes: none on the tick that leaves STARTED, one
    from the handler of WAITING_PROBE and one for each of the two rounds of
    PROBING; the session enters WAITING_ANNOUNCE on the probe that is sent
    when [n_iteration] has reached [PROBE_NUM - 2], and is in none of the
    earlier ticks in that state. *)
Theorem probing_sends_three_probes :
  forall (ll : sd_ipv4acd) (e1 e2 e3 e4 : env),
    state ll = IPV4ACD_STATE_STARTED -> timer_armed ll = true ->
    env_ok e1 -> env_ok e2 -> env_ok e3 -> env_ok e4 ->
    exists ll1 ll2 ll3 ll4 : sd_ipv4acd,
      dispatch (TimerFires e1) ll = Done (0, ll1, []) /\
      state ll1 = IPV4ACD_STATE_WAITING_PROBE /\
      dispatch (TimerFires e2) ll1 = Done (0, ll2, [probe_of ll]) /\
      state ll2 = IPV4ACD_STATE_PROBING /\ n_iteration ll2 = 0 /\
      dispatch (TimerFires e3) ll2 = Done (0, ll3, [probe_of ll]) /\
      state ll3 = IPV4ACD_STATE_PROBING /\
      n_iteration ll3 = PROBE_NUM - 2 /\
      dispatch (TimerFires e4) ll3 = Done (0, ll4, [probe_of ll]) /\
      state ll4 = IPV4ACD_STATE_WAITING_ANNOUNCE /\
      timer_armed ll4 = true /\
      run [timer e1; timer e2; timer e3; timer e4] ll =
        Done (tt, ll4, [probe_of ll; probe_of ll; probe_of ll]) /\
      probes [probe_of ll; probe_of ll; probe_of ll] = Z.to_nat PROBE_NUM.
Proof.
  intros ll e1 e2 e3 e4 Hs Ht H1 H2 H3 H4.
  destruct (tick_started e1 ll Hs Ht (env_ok_sched e1 H1))
    as (ll1 & D1 & S1 & N1 & T1 & C1).
  destruct (tick_waiting_probe e2 ll1 S1 N1 T1 H2)
    as (ll2 & D2 & S2 & N2 & T2 & C2).
  destruct (tick_probing e3 ll2 S2 N2 T2 H3)
    as (ll3 & D3 & S3 & N3 & T3 & C3).
  assert (N3' : PROBE_NUM - 2 <= n_iteration ll3) by (rewrite N3; reflexivity).
  destruct (tick_last_probe e4 ll3 S3 N3' T3 H4)
    as (ll4 & D4 & S4 & N4 & T4 & C4).
  pose proof (same_config_trans _ _ _ C1 C2) as C12.
  pose proof (same_config_trans _ _ _ C12 C3) as C13.
  rewrite (probe_of_same _ _ C1) in D2.
  rewrite (probe_of_same _ _ C12) in D3.
  rewrite (probe_of_same _ _ C13) in D4.
  exists ll1, ll2, ll3, ll4.
  repeat (split; [assumption|]).
  split; [|reflexivity].
  unfold timer.
  rewrite (run_cons (Loop (TimerFires e1)) _ _ _ _ _ D1),
    (run_cons (Loop (TimerFires e2)) _ _ _ _ _ D2),
    (run_cons (Loop (TimerFires e3)) _ _ _ _ _ D3),
    (run_cons (Loop (TimerFires e4)) _ _ _ _ _ D4), run_nil.
  reflexivity.
Qed.

Lemma env_ok_env_at now rnd : env_ok (env_at now rnd).
Proof. unfold env_ok, env_at. cbn. repeat split; apply Z.le_refl. Qed.

Lemma probing_sends_three_probes_witness :
  exists ll4 : sd_ipv4acd,
    run [timer (env_at 0 0); timer (env_at 0 0); timer (env_at 1000000 0);
         timer (env_at 2000000 0)] started_s1 =
      Done (tt, ll4, [probe_of started_s1; probe_of started_s1;
                      probe_of started_s1]) /\
    state ll4 = IPV4ACD_STATE_WAITING_ANNOUNCE.
Proof.
  destruct (probing_sends_three_probes started_s1
              (env_at 0 0) (env_at 0 0) (env_at 1000000 0) (env_at 2000000 0)
              eq_refl eq_refl
              (env_ok_env_at _ _) (env_ok_env_at _ _)
              (env_ok_env_at _ _) (env_ok_env_at _ _))
    as (ll1 & ll2 & ll3 & ll4 & H).
  exists ll4. split; apply H.
Defined.

(** ** The announcing phase *)

Lemma quiet_frame_is_ignored e ll :
  no_conflict e ll -> dispatch (SocketReadable e) ll = Done (0, ll, []).
Proof.
  intros H. unfold dispatch. unfold_m.
  destruct (receive_message_event_source ll); [|reflexivity].
  destruct H as [H|[[H1 H2]|(H1 & H2 & H3)]].
  - rewrite on_packet_short; [reflexivity | apply H | lia].
  - rewrite (on_packet_transient e ll H1 H2). reflexivity.
  - rewrite (on_packet_benign e ll H1 H2 H3). reflexivity.
Qed.

Lemma idle_timer_does_not_fire e ll :
  timer_armed ll = false -> dispatch (TimerFires e) ll = Done (0, ll, []).
Proof. intros H. unfold dispatch. unfold_m. rewrite H. reflexivity. Qed.

Lemma announce_trace_step ll0 k t1 :
  (k <= 3)%nat ->
  t1 = match k with
       | O => announcement_of ll0 :: notified ll0 SD_IPV4ACD_EVENT_BIND
       | S O => [announcement_of ll0]
       | _ => []
       end ->
  announce_trace ll0 k ++ t1 = announce_trace ll0 (Nat.min 3 (S k)).
Proof.
  intros Hk ->. destruct k as [|[|[|[|k]]]]; cbn [announce_trace Nat.min].
  - reflexivity.
  - reflexivity.
  - apply app_nil_r.
  - apply app_nil_r.
  - exfalso. lia.
Qed.

Lemma announce_trace_saturates ll n :
  announce_trace ll (Nat.min 3 n) = announce_trace ll n.
Proof. destruct n as [|[|[|n]]]; reflexivity. Qed.

Lemma announce_state_saturates n :
  announce_state (Nat.min 3 n) = announce_state n.
Proof. destruct n as [|[|[|n]]]; reflexivity. Qed.

(** One timer tick moves a session that announces one phase on, up to
    RUNNING, where it stays. *)
Lemma announce_phase_tick ll0 k ll e :
  (k <= 3)%nat -> announce_phase ll0 k ll -> env_ok e ->
  exists ll' t,
    dispatch (TimerFires e) ll = Done (0, ll', t) /\
    announce_phase ll0 (Nat.min 3 (S k)) ll' /\
    announce_trace ll0 k ++ t = announce_trace ll0 (Nat.min 3 (S k)).
Proof.
  intros Hk (Hc & Hs & Hp) He.
  destruct k as [|[|[|[|k]]]]; cbn [announce_state] in Hs.
  - destruct (tick_waiting_announce e ll Hs Hp He)
      as (ll' & D & S' & N' & K' & T' & C').
    exists ll'. eexists. split; [exact D|]. split.
    + split; [apply (same_config_trans _ _ _ Hc C')|]. split; [exact S'|].
      repeat split; assumption.
    + apply announce_trace_step; [exact Hk|].
      rewrite (announcement_of_same _ _ Hc), (notified_same _ _ _ Hc).
      reflexivity.
  - destruct Hp as (Hn & Hk' & Ht).
    destruct (tick_announcing e ll Hs Hn Ht He)
      as (ll' & D & S' & N' & K' & T' & C').
    exists ll'. eexists. split; [exact D|]. split.
    + split; [apply (same_config_trans _ _ _ Hc C')|]. split; [exact S'|].
      repeat split; [exact N' | congruence | exact T'].
    + apply announce_trace_step; [exact Hk|].
      rewrite (announcement_of_same _ _ Hc). reflexivity.
  - destruct Hp as (Hn & Hk' & Ht).
    assert (Hn' : ANNOUNCE_NUM - 1 <= n_iteration ll)
      by (rewrite Hn; reflexivity).
    destruct (tick_running e ll Hs Hn' Ht) as (ll' & D & S' & K' & T' & C').
    exists ll'. eexists. split; [exact D|]. split.
    + split; [apply (same_config_trans _ _ _ Hc C')|]. split; [exact S'|].
      split; [congruence | exact T'].
    + apply announce_trace_step; [exact Hk | reflexivity].
  - destruct Hp as (Hk' & Ht).
    exists ll, []. split; [apply (idle_timer_does_not_fire e ll Ht)|]. split.
    + split; [exact Hc|]. split; [exact Hs|]. split; assumption.
    + apply announce_trace_step; [exact Hk | reflexivity].
  - exfalso. lia.
Qed.

(** A quiet run from any phase of the announcing: by induction on the
    run. *)
Lemma announce_phase_run ll0 evs :
  forall k ll,
    (k <= 3)%nat -> announce_phase ll0 k ll -> quiet_run evs ll ->
    exists ll' t,
      run (map Loop evs) ll = Done (tt, ll', t) /\
      announce_phase ll0 (Nat.min 3 (k + ticks evs)) ll' /\
      announce_trace ll0 k ++ t =
        announce_trace ll0 (Nat.min 3 (k + ticks evs)).
Proof.
  induction evs as [|ev evs IH]; intros k ll Hk Hp Hq.
  - exists ll, []. rewrite run_nil. split; [reflexivity|].
    unfold ticks. cbn [filter List.length].
    replace (Nat.min 3 (k + 0)) with k by lia.
    split; [exact Hp | apply app_nil_r].
  - destruct Hq as [Hq1 Hq2]. cbn [map]. destruct ev as [e|e].
    + (* the timer fires *)
      destruct (announce_phase_tick ll0 k ll e Hk Hp Hq1)
        as (ll1 & t1 & D & Hp1 & Ht1).
      destruct (IH (Nat.min 3 (S k)) ll1 ltac:(lia) Hp1 (Hq2 _ _ _ D))
        as (ll' & t & R & Hp' & Ht').
      exists ll', (t1 ++ t).
      rewrite (run_cons (Loop (TimerFires e)) _ _ _ _ _ D), R.
      split; [reflexivity|].
      unfold ticks in *. cbn [filter is_timer List.length].
      replace (Nat.min 3 (k + S (List.length (filter is_timer evs))))
        with (Nat.min 3 (Nat.min 3 (S k) + List.length (filter is_timer evs)))
        by lia.
      split; [exact Hp'|].
      rewrite app_assoc, Ht1. exact Ht'.
    + (* a frame that is no conflict *)
      pose proof (quiet_frame_is_ignored e ll Hq1) as D.
      destruct (IH k ll Hk Hp (Hq2 _ _ _ D)) as (ll' & t & R & Hp' & Ht').
      exists ll', t.
      rewrite (run_cons (Loop (SocketReadable e)) _ _ _ _ _ D), R.
      split; [reflexivity|].
      unfold ticks in *. cbn [filter is_timer].
      split; assumption.
Qed.

(** C2. From WAITING_ANNOUNCE with the timer armed, in every run of the
    event loop without conflicts and without errors, the session sends one
    announcement on each of the first two timer ticks and none afterwards,
    and it is in RUNNING from the third tick on: exactly [ANNOUNCE_NUM] = 2
    announcements before RUNNING. The first announcement, on which
    ANNOUNCING is entered with [n_iteration = 0], clears [n_conflict] and is
    the only one on which BIND is reported: a session with a callback sees
    BIND exactly once. *)
Theorem announcing_sends_two_announcements :
  forall (ll : sd_ipv4acd) (evs : list loop_event),
    state ll = IPV4ACD_STATE_WAITING_ANNOUNCE -> timer_armed ll = true ->
    quiet_run evs ll ->
    exists (ll' : sd_ipv4acd) (t : list action),
      run (map Loop evs) ll = Done (tt, ll', t) /\
      t = announce_trace ll (ticks evs) /\
      state ll' = announce_state (ticks evs) /\
      announcements t = Nat.min (ticks evs) (Z.to_nat ANNOUNCE_NUM) /\
      probes t = 0%nat /\
      (state ll' = IPV4ACD_STATE_RUNNING <-> (3 <= ticks evs)%nat) /\
      ((1 <= ticks evs)%nat ->
       n_conflict ll' = 0 /\
       (callback ll <> None -> events t = [SD_IPV4ACD_EVENT_BIND])) /\
      (ticks evs = 1%nat -> n_iteration ll' = 0) /\
      (ticks evs = 2%nat -> n_iteration ll' = ANNOUNCE_NUM - 1).
Proof.
  intros ll evs Hs Ht Hq.
  assert (Hp : announce_phase ll 0 ll).
  { split; [apply same_config_refl|]. split; [exact Hs | exact Ht]. }
  destruct (announce_phase_run ll evs 0%nat ll ltac:(lia) Hp Hq)
    as (ll' & t & R & (Hc & Hs' & Hp') & Ht').
  change (0 + ticks evs)%nat with (ticks evs) in *.
  cbn [announce_trace app] in Ht'.
  rewrite announce_trace_saturates in Ht'.
  rewrite announce_state_saturates in Hs'.
  exists ll', t. split; [exact R|]. split; [exact Ht'|].
  split; [exact Hs'|]. subst t.
  remember (ticks evs) as n eqn:En. clear En R Hq.
  destruct n as [|[|[|n]]];
    cbn [Nat.min announce_trace announce_state] in Hs', Hp' |- *;
    unfold announcements, probes, notified, announcement_of;
    destruct (callback ll) eqn:Hcb; cbn;
    repeat split; intros; try reflexivity; try lia; try congruence;
    try apply Hp'.
Qed.

Lemma quiet_run_announce_run_s1 : quiet_run announce_run_s1 waiting_announce_s1.
Proof.
  unfold announce_run_s1.
  split; [apply env_ok_env_at|]. intros r ll1 t1 H.
  vm_compute in H. injection H as _ <- _.
  split; [left; split; [discriminate | reflexivity]|]. intros r2 ll2 t2 H.
  vm_compute in H. injection H as _ <- _.
  split; [apply env_ok_env_at|]. intros r3 ll3 t3 H.
  vm_compute in H. injection H as _ <- _.
  split.
  { right. right. split; [reflexivity|]. split; [left; reflexivity|].
    reflexivity. }
  intros r4 ll4 t4 H.
  vm_compute in H. injection H as _ <- _.
  split; [apply env_ok_env_at|]. intros; exact I.
Qed.

Lemma announcing_sends_two_announcements_witness :
  exists ll' : sd_ipv4acd,
    run (map Loop announce_run_s1) waiting_announce_s1 =
      Done (tt, ll',
            [announcement_of waiting_announce_s1;
             Callback 1 SD_IPV4ACD_EVENT_BIND 0;
             announcement_of waiting_announce_s1]) /\
    state ll' = IPV4ACD_STATE_RUNNING.
Proof.
  destruct (announcing_sends_two_announcements waiting_announce_s1
              announce_run_s1 eq_refl eq_refl quiet_run_announce_run_s1)
    as (ll' & t & R & Ht & Hs & _).
  exists ll'. split.
  - rewrite R, Ht. reflexivity.
  - exact Hs.
Defined.

(** ** Defence of a bound address *)

(** C3. In ANNOUNCING and RUNNING a full frame whose sender address is ours,
    seen at a time [now] later than [defend_window], is answered by exactly
    one announcement, moves [defend_window] to [now + DEFEND_INTERVAL_USEC]
    (10 s, in 64-bit arithmetic), reports no event and leaves the state as
    it is, provided the announcement can be sent. Seen at [now <=
    defend_window], it sends nothing, counts one more conflict, reports
    CONFLICT and resets the session to INIT. *)
Theorem conflict_is_defended_once_per_window :
  forall (ll : sd_ipv4acd) (e : env),
    state ll = IPV4ACD_STATE_ANNOUNCING \/ state ll = IPV4ACD_STATE_RUNNING ->
    recv_n e = sizeof_ether_arp ->
    ipv4acd_arp_conflict ll (packet e) = true ->
    0 <= r_event_now e ->
    (defend_window ll < time_now e -> 0 <= r_send e ->
     exists ll',
       ipv4acd_on_packet e ll = Done (0, ll', [announcement_of ll]) /\
       ll' = with_defend_window (u64 (time_now e + DEFEND_INTERVAL_USEC)) ll /\
       defend_window ll' = u64 (time_now e + 10 * USEC_PER_SEC) /\
       (0 <= time_now e -> time_now e + 10 * USEC_PER_SEC < 2 ^ 64 ->
        defend_window ll' = time_now e + 10 * USEC_PER_SEC) /\
       state ll' = state ll /\ n_iteration ll' = n_iteration ll /\
       n_conflict ll' = n_conflict ll /\
       announcements [announcement_of ll] = 1%nat /\
       events [announcement_of ll] = []) /\
    (time_now e <= defend_window ll ->
     exists ll',
       ipv4acd_on_packet e ll =
         Done (0, ll', notified ll SD_IPV4ACD_EVENT_CONFLICT) /\
       is_reset ll' /\
       n_conflict ll' = u32 (n_conflict ll + 1) /\
       announcements (notified ll SD_IPV4ACD_EVENT_CONFLICT) = 0%nat /\
       (callback ll <> None ->
        events (notified ll SD_IPV4ACD_EVENT_CONFLICT) =
          [SD_IPV4ACD_EVENT_CONFLICT])).
Proof.
  intros ll e Hs Hn Hc H0. split.
  - intros Hw H1.
    rewrite (on_packet_defend e ll Hn Hs Hc H0 Hw H1).
    eexists. split; [reflexivity|]. split; [reflexivity|].
    repeat split.
    intros Hlo Hhi. cbn [defend_window with_defend_window].
    unfold u64, DEFEND_INTERVAL_USEC. apply Z.mod_small.
    unfold USEC_PER_SEC in *. lia.
  - intros Hw.
    rewrite (on_packet_conflict_in_window e ll Hn Hs Hc H0 Hw).
    eexists. split; [reflexivity|].
    split; [apply reset_is_reset|].
    split; [rewrite reset_eq; reflexivity|].
    unfold notified. destruct (callback ll).
    + split; [reflexivity|]. intros _. reflexivity.
    + split; [reflexivity|]. intros H. congruence.
Qed.

Lemma conflict_is_defended_once_per_window_witness :
  (exists ll',
     ipv4acd_on_packet (env_at 9000000 0) running_s1 =
       Done (0, ll', [announcement_of running_s1]) /\
     defend_window ll' = 19000000 /\
     state ll' = IPV4ACD_STATE_RUNNING) /\
  (exists ll',
     ipv4acd_on_packet (env_at 14000000 0)
       (with_defend_window 19000000 running_s1) =
       Done (0, ll', [Callback 1 SD_IPV4ACD_EVENT_CONFLICT 0]) /\
     state ll' = IPV4ACD_STATE_INIT).
Proof.
  split.
  - destruct (proj1 (conflict_is_defended_once_per_window running_s1
                       (env_at 9000000 0) (or_intror eq_refl) eq_refl eq_refl
                       (Z.le_refl 0)))
      as (ll' & H1 & H2 & H3 & H4 & H5 & _).
    + reflexivity.
    + apply Z.le_refl.
    + exists ll'. repeat split; [exact H1 | | exact H5].
      rewrite H4; [reflexivity | discriminate | reflexivity].
  - destruct (proj2 (conflict_is_defended_once_per_window
                       (with_defend_window 19000000 running_s1)
                       (env_at 14000000 0) (or_intror eq_refl) eq_refl eq_refl
                       (Z.le_refl 0)))
      as (ll' & H1 & H2 & _).
    + discriminate.
    + exists ll'. split; [exact H1 | apply H2].
Defined.

(** The cadence of the defence (scenarios S4 and S5): after a defence at
    [time_now e1], a second conflict at most [DEFEND_INTERVAL_USEC] later
    resets the session and reports CONFLICT without another announcement; a
    second conflict later than that is defended again. *)
Corollary defence_cadence :
  forall (ll : sd_ipv4acd) (e1 e2 : env),
    state ll = IPV4ACD_STATE_ANNOUNCING \/ state ll = IPV4ACD_STATE_RUNNING ->
    recv_n e1 = sizeof_ether_arp -> recv_n e2 = sizeof_ether_arp ->
    ipv4acd_arp_conflict ll (packet e1) = true ->
    ipv4acd_arp_conflict ll (packet e2) = true ->
    0 <= r_event_now e1 -> 0 <= r_event_now e2 ->
    0 <= r_send e1 -> 0 <= r_send e2 ->
    defend_window ll < time_now e1 ->
    0 <= time_now e1 -> time_now e1 + DEFEND_INTERVAL_USEC < 2 ^ 64 ->
    exists ll1,
      ipv4acd_on_packet e1 ll = Done (0, ll1, [announcement_of ll]) /\
      defend_window ll1 = time_now e1 + DEFEND_INTERVAL_USEC /\
      (time_now e2 <= time_now e1 + DEFEND_INTERVAL_USEC ->
       exists ll2,
         ipv4acd_on_packet e2 ll1 =
           Done (0, ll2, notified ll SD_IPV4ACD_EVENT_CONFLICT) /\
         is_reset ll2) /\
      (time_now e1 + DEFEND_INTERVAL_USEC < time_now e2 ->
       exists ll2,
         ipv4acd_on_packet e2 ll1 = Done (0, ll2, [announcement_of ll]) /\
         state ll2 = state ll /\
         defend_window ll2 = u64 (time_now e2 + DEFEND_INTERVAL_USEC)).
Proof.
  intros ll e1 e2 Hs Hn1 Hn2 Hc1 Hc2 Hr1 Hr2 Hs1 Hs2 Hw H0 H64.
  rewrite (on_packet_defend e1 ll Hn1 Hs Hc1 Hr1 Hw Hs1).
  set (ll1 := with_defend_window (u64 (time_now e1 + DEFEND_INTERVAL_USEC)) ll).
  assert (Hd : defend_window ll1 = time_now e1 + DEFEND_INTERVAL_USEC).
  { unfold ll1. cbn [defend_window with_defend_window].
    unfold u64. apply Z.mod_small.
    unfold DEFEND_INTERVAL_USEC, USEC_PER_SEC in *. lia. }
  exists ll1. split; [reflexivity|]. split; [exact Hd|]. split.
  - intros Hle. eexists. split.
    + apply (on_packet_conflict_in_window e2 ll1 Hn2 Hs Hc2 Hr2).
      rewrite Hd. exact Hle.
    + apply reset_is_reset.
  - intros Hlt. eexists. split.
    + apply (on_packet_defend e2 ll1 Hn2 Hs Hc2 Hr2); [|exact Hs2].
      rewrite Hd. exact Hlt.
    + split; reflexivity.
Qed.

(** ** Failures *)

Lemma same_config_reset ll : same_config ll (ipv4acd_reset ll).
Proof. rewrite reset_eq. repeat split. Qed.

Lemma events_app t1 t2 : events (t1 ++ t2) = events t1 ++ events t2.
Proof.
  induction t1 as [|a t1 IH]; [reflexivity|].
  destruct a; cbn [app events]; rewrite IH; reflexivity.
Qed.

Lemma events_notified ll ev :
  callback ll <> None -> events (notified ll ev) = [ev].
Proof.
  intros H. unfold notified. destruct (callback ll); [reflexivity|congruence].
Qed.

Lemma stops_intro ll ll' t o :
  o = Done (0, ipv4acd_reset ll', t ++ notified ll SD_IPV4ACD_EVENT_STOP) ->
  same_config ll ll' -> events t = [] -> stops ll o.
Proof.
  intros Ho Hc Ht. exists (ipv4acd_reset ll'), (t ++ notified ll SD_IPV4ACD_EVENT_STOP).
  split; [exact Ho|]. split; [apply reset_is_reset|].
  split; [apply (same_config_trans _ _ _ Hc (same_config_reset ll'))|].
  intros Hcb. rewrite events_app, Ht, (events_notified _ _ Hcb). reflexivity.
Qed.

Lemma on_timeout_sched_fails_stops e ll :
  schedules_on_timeout ll = true ->
  (sends_on_timeout ll = true -> 0 <= r_send e) ->
  sched_fails e ->
  stops ll (ipv4acd_on_timeout e ll).
Proof.
  intros Hs Hsend Hf. unfold schedules_on_timeout, sends_on_timeout in *.
  destruct (set_next_wakeup_fails e Hf) as (c & Hc & Hw).
  apply Z.ltb_lt in Hc.
  destruct (state ll) eqn:Hst; try discriminate.
  - (* STARTED *)
    apply (stops_intro ll
             (with_n_iteration 0 (with_state IPV4ACD_STATE_WAITING_PROBE ll))
             []); [|repeat split|reflexivity].
    acd_unfold. acd_simpl. destruct (MAX_CONFLICTS <=? n_conflict ll);
      acd_simpl; rewrite Hw; acd_simpl; reflexivity.
  - (* WAITING_PROBE *)
    specialize (Hsend eq_refl). ltb_false Hsend.
    destruct (n_iteration ll <? PROBE_NUM - 2) eqn:En.
    + apply (stops_intro ll
               (with_n_iteration 0 (with_state IPV4ACD_STATE_PROBING ll))
               [probe_of ll]); [|repeat split|reflexivity].
      acd_unfold. acd_simpl. rewrite Hw. acd_simpl. reflexivity.
    + apply (stops_intro ll
               (with_n_iteration 0
                  (with_state IPV4ACD_STATE_WAITING_ANNOUNCE ll))
               [probe_of ll]); [|repeat split|reflexivity].
      acd_unfold. acd_simpl. rewrite Hw. acd_simpl. reflexivity.
  - (* PROBING *)
    specialize (Hsend eq_refl). ltb_false Hsend.
    destruct (n_iteration ll <? PROBE_NUM - 2) eqn:En.
    + apply (stops_intro ll
               (with_n_iteration (u32 (n_iteration ll + 1)) ll)
               [probe_of ll]); [|repeat split|reflexivity].
      acd_unfold. acd_simpl. rewrite Hw. acd_simpl. reflexivity.
    + apply (stops_intro ll
               (with_n_iteration 0
                  (with_state IPV4ACD_STATE_WAITING_ANNOUNCE ll))
               [probe_of ll]); [|repeat split|reflexivity].
      acd_unfold. acd_simpl. rewrite Hw. acd_simpl. reflexivity.
  - (* WAITING_ANNOUNCE *)
    specialize (Hsend eq_refl). ltb_false Hsend.
    apply (stops_intro ll
             (with_n_iteration 0 (with_state IPV4ACD_STATE_ANNOUNCING ll))
             [announcement_of ll]); [|repeat split|reflexivity].
    acd_unfold. acd_simpl. rewrite Hw. acd_simpl. reflexivity.
  - (* ANNOUNCING, first round *)
    specialize (Hsend Hs). ltb_false Hsend.
    assert (En : (ANNOUNCE_NUM - 1 <=? n_iteration ll) = false)
      by (apply Z.leb_gt; apply Z.ltb_lt; exact Hs).
    apply (stops_intro ll
             (with_n_iteration (u32 (n_iteration ll + 1)) ll)
             [announcement_of ll]); [|repeat split|reflexivity].
    acd_unfold. acd_simpl. rewrite Hw. acd_simpl. reflexivity.
Qed.

(** C7. On the receive path a frame shorter than [struct ether_arp] (28
    bytes) changes nothing: the session (state, counters, timer) is the
    same, no frame is sent and no event reported. A failed read with EAGAIN
    or EINTR is ignored likewise. Any other failed read stops the session:
    reset to INIT, STOP reported. So does a failed send in the timer handler
    or in the defence of the packet handler, and so does a timer that the
    timer handler cannot schedule. *)
Theorem failures_are_ignored_or_stop_the_session :
  forall (ll : sd_ipv4acd) (e : env),
    (0 <= recv_n e < sizeof_ether_arp ->
     ipv4acd_on_packet e ll = Done (0, ll, [])) /\
    (recv_n e < 0 -> recv_errno e = EAGAIN \/ recv_errno e = EINTR ->
     ipv4acd_on_packet e ll = Done (0, ll, [])) /\
    (recv_n e < 0 -> recv_errno e <> EAGAIN -> recv_errno e <> EINTR ->
     stops ll (ipv4acd_on_packet e ll)) /\
    (sends_on_timeout ll = true -> r_send e < 0 ->
     stops ll (ipv4acd_on_timeout e ll)) /\
    (schedules_on_timeout ll = true ->
     (sends_on_timeout ll = true -> 0 <= r_send e) ->
     sched_fails e ->
     stops ll (ipv4acd_on_timeout e ll)) /\
    (recv_n e = sizeof_ether_arp ->
     state ll = IPV4ACD_STATE_ANNOUNCING \/
     state ll = IPV4ACD_STATE_RUNNING ->
     ipv4acd_arp_conflict ll (packet e) = true ->
     0 <= r_event_now e -> defend_window ll < time_now e ->
     r_send e < 0 ->
     stops ll (ipv4acd_on_packet e ll)).
Proof.
  intros ll e. repeat split.
  - intros [H0 H1]. apply on_packet_short; [exact H0 | lia].
  - apply on_packet_transient.
  - intros H0 H1 H2.
    apply (stops_intro ll ll []);
      [ apply (on_packet_recv_fails e ll H0 H1 H2)
      | apply same_config_refl | reflexivity ].
  - intros Hs He.
    apply (stops_intro ll ll []);
      [ apply (on_timeout_send_fails e ll Hs He)
      | apply same_config_refl | reflexivity ].
  - apply on_timeout_sched_fails_stops.
  - intros Hn Hs Hc H0 Hw H1.
    apply (stops_intro ll
             (with_defend_window (u64 (time_now e + DEFEND_INTERVAL_USEC)) ll)
             []);
      [ apply (on_packet_defend_fails e ll Hn Hs Hc H0 Hw H1)
      | repeat split | reflexivity ].
Qed.

Lemma failures_are_ignored_or_stop_the_session_witness :
  ipv4acd_on_packet (env_recv 500000 20) probing_s1 =
    Done (0, probing_s1, []) /\
  stops probing_s1 (ipv4acd_on_timeout (env_send_fails 1000000) probing_s1).
Proof.
  split.
  - apply (proj1 (failures_are_ignored_or_stop_the_session probing_s1
                    (env_recv 500000 20))).
    split; [discriminate | reflexivity].
  - apply (proj1 (proj2 (proj2 (proj2
             (failures_are_ignored_or_stop_the_session probing_s1
                (env_send_fails 1000000)))))).
    + reflexivity.
    + reflexivity.
Defined.

(** ** Stopping *)

(** C8. In every state, [sd_ipv4acd_stop] returns 0 and leaves the session
    reset: INIT, counter cleared, timer and receive sources released, socket
    closed, configuration kept. It reports STOP once per call, also from
    INIT: stopping twice in a row reports STOP twice and the session is in
    INIT after each call. *)
Theorem stop_always_resets_and_reports_stop :
  forall ll : sd_ipv4acd,
    sd_ipv4acd_stop ll =
      Done (0, ipv4acd_reset ll, notified ll SD_IPV4ACD_EVENT_STOP) /\
    is_reset (ipv4acd_reset ll) /\
    same_config ll (ipv4acd_reset ll) /\
    sd_ipv4acd_stop (ipv4acd_reset ll) =
      Done (0, ipv4acd_reset ll, notified ll SD_IPV4ACD_EVENT_STOP) /\
    run [Call_stop; Call_stop] ll =
      Done (tt, ipv4acd_reset ll,
            notified ll SD_IPV4ACD_EVENT_STOP ++
            notified ll SD_IPV4ACD_EVENT_STOP) /\
    (callback ll <> None ->
     events (notified ll SD_IPV4ACD_EVENT_STOP) = [SD_IPV4ACD_EVENT_STOP] /\
     events (notified ll SD_IPV4ACD_EVENT_STOP ++
             notified ll SD_IPV4ACD_EVENT_STOP) =
       [SD_IPV4ACD_EVENT_STOP; SD_IPV4ACD_EVENT_STOP]).
Proof.
  intros ll.
  assert (Hrr : ipv4acd_reset (ipv4acd_reset ll) = ipv4acd_reset ll)
    by (rewrite !reset_eq; reflexivity).
  assert (H2 : sd_ipv4acd_stop (ipv4acd_reset ll) =
               Done (0, ipv4acd_reset ll, notified ll SD_IPV4ACD_EVENT_STOP)).
  { rewrite stop_eq, Hrr, notified_reset. reflexivity. }
  split; [apply stop_eq|].
  split; [apply reset_is_reset|].
  split; [apply same_config_reset|].
  split; [exact H2|].
  split.
  - rewrite (run_cons Call_stop _ _ _ _ _ (stop_eq ll)),
      (run_cons Call_stop _ _ _ _ _ H2), run_nil.
    rewrite app_nil_r. reflexivity.
  - intros Hcb.
    rewrite events_app, (events_notified _ _ Hcb). split; reflexivity.
Qed.

Lemma stop_always_resets_and_reports_stop_witness :
  run [Call_stop; Call_stop] session_s1 =
    Done (tt, session_s1,
          [Callback 1 SD_IPV4ACD_EVENT_STOP 0;
           Callback 1 SD_IPV4ACD_EVENT_STOP 0]) /\
  events (notified session_s1 SD_IPV4ACD_EVENT_STOP) =
    [SD_IPV4ACD_EVENT_STOP].
Proof.
  destruct (stop_always_resets_and_reports_stop session_s1)
    as (_ & _ & _ & _ & Hrun & Hev).
  split.
  - exact Hrun.
  - apply Hev. discriminate.
Defined.

(** ** Frames that arrive too early *)

Lemma start_cases e ll r ll' t :
  sd_ipv4acd_start e ll = Done (r, ll', t) ->
  t = [] /\
  ((r < 0 /\ ll' = ll) \/
   (r < 0 /\ exists l0, ll' = ipv4acd_reset l0) \/
   (r = 0 /\ state ll = IPV4ACD_STATE_INIT /\
    ll' = ipv4acd_set_state IPV4ACD_STATE_STARTED true
            (armed_for e (next_timeout e 0 0)
               (with_receive_message_event_source
                  (Some {| io_fd := r_bind e;
                           io_priority := event_priority ll |})
                  (with_n_conflict 0
                     (with_defend_window 0 (with_fd (r_bind e) ll))))))).
Proof.
  unfold sd_ipv4acd_start, ipv4acd_set_next_wakeup. unfold_m.
  unfold EINVAL, EBUSY.
  destruct (event ll); cbn.
  2:{ intros H; injection H as <- <- <-. split; [reflexivity|].
      left. split; [reflexivity|reflexivity]. }
  repeat match goal with
         | |- context [if ?c then _ else _] =>
             destruct c eqn:?; cbn
         end.
  all: try congruence.
  all: intros H; injection H as <- <- <-.
  all: split; [reflexivity|].
  all: repeat match goal with
           | H : (_ <? 0) = true |- _ => apply Z.ltb_lt in H
           | H : (_ <? 0) = false |- _ => apply Z.ltb_ge in H
           end.
  all: try (left; split; [ first [reflexivity | assumption] | reflexivity ]).
  all: try (right; left; split; [ assumption | eexists; reflexivity ]).
  right. right. split; [reflexivity|]. split; [|reflexivity].
  destruct (state ll); try discriminate. reflexivity.
Qed.

Lemma start_success e ll ll' t :
  sd_ipv4acd_start e ll = Done (0, ll', t) ->
  t = [] /\ state ll = IPV4ACD_STATE_INIT /\
  state ll' = IPV4ACD_STATE_STARTED /\ n_iteration ll' = 0 /\
  n_conflict ll' = 0 /\ defend_window ll' = 0 /\
  receive_message_event_source ll' <> None /\
  timer_armed ll' = true /\
  wakeup_after ll' (time_now e) 0 /\
  same_config ll ll'.
Proof.
  intros H. destruct (start_cases e ll 0 ll' t H) as (Ht & [Hc|[Hc|Hc]]).
  - destruct Hc as [Hc _]. exfalso. revert Hc. apply Z.lt_irrefl.
  - destruct Hc as [Hc _]. exfalso. revert Hc. apply Z.lt_irrefl.
  - destruct Hc as (_ & Hs & ->). rewrite set_state_reset.
    split; [exact Ht|]. split; [exact Hs|].
    repeat split; try discriminate.
    eexists. repeat split.
Qed.

(** C10. [sd_ipv4acd_start] subscribes the socket and arms the first timer
    before it enters STARTED, so a frame can be delivered in STARTED. A
    full-sized frame delivered there runs into the [assert_not_reached] of
    the packet handler instead of being handled or ignored; the handler
    covers a full frame exactly in WAITING_PROBE, PROBING, WAITING_ANNOUNCE,
    ANNOUNCING and RUNNING. *)
Theorem full_frame_in_started_hits_the_assertion :
  (forall (ll : sd_ipv4acd) (e : env),
     recv_n e = sizeof_ether_arp ->
     state ll = IPV4ACD_STATE_STARTED ->
     ipv4acd_on_packet e ll = Aborted "Invalid state.") /\
  (forall (ll ll' : sd_ipv4acd) (e e' : env) (t : list action),
     sd_ipv4acd_start e ll = Done (0, ll', t) ->
     recv_n e' = sizeof_ether_arp ->
     state ll' = IPV4ACD_STATE_STARTED /\
     receive_message_event_source ll' <> None /\
     timer_armed ll' = true /\
     dispatch (SocketReadable e') ll' = Aborted "Invalid state.") /\
  (forall (ll : sd_ipv4acd) (e : env),
     recv_n e = sizeof_ether_arp ->
     (ipv4acd_on_packet e ll = Aborted "Invalid state." <->
      packet_state (state ll) = false)).
Proof.
  split; [|split].
  - intros ll e Hn Hs. apply on_packet_invalid_state; [exact Hn | right; exact Hs].
  - intros ll ll' e e' t H Hn.
    destruct (start_success e ll ll' t H)
      as (_ & _ & Hs & _ & _ & _ & Hrx & Ht & _).
    repeat (split; [assumption|]).
    unfold dispatch. unfold_m.
    destruct (receive_message_event_source ll'); [|congruence].
    rewrite on_packet_invalid_state; [reflexivity | exact Hn | right; exact Hs].
  - intros ll e Hn. split.
    + intros H. destruct (state ll) eqn:Hs; try reflexivity; exfalso.
      * rewrite on_packet_probing_conflict in H;
          [discriminate | exact Hn | left; exact Hs].
      * rewrite on_packet_probing_conflict in H;
          [discriminate | exact Hn | right; left; exact Hs].
      * rewrite on_packet_probing_conflict in H;
          [discriminate | exact Hn | right; right; exact Hs].
      * revert H. full_frame Hn. acd_unfold. acd_simpl.
        destruct (ipv4acd_arp_conflict _ _); acd_simpl; [|discriminate].
        destruct (r_event_now e <? 0); acd_simpl; [discriminate|].
        destruct (defend_window ll <? time_now e); acd_simpl.
        -- destruct (r_send e <? 0) eqn:Es; acd_simpl; discriminate.
        -- discriminate.
      * revert H. full_frame Hn. acd_unfold. acd_simpl.
        destruct (ipv4acd_arp_conflict _ _); acd_simpl; [|discriminate].
        destruct (r_event_now e <? 0); acd_simpl; [discriminate|].
        destruct (defend_window ll <? time_now e); acd_simpl.
        -- destruct (r_send e <? 0) eqn:Es; acd_simpl; discriminate.
        -- discriminate.
    + intros H. apply on_packet_invalid_state; [exact Hn|].
      destruct (state ll); try discriminate; [left | right]; reflexivity.
Qed.

Lemma full_frame_in_started_hits_the_assertion_witness :
  state started_s1 = IPV4ACD_STATE_STARTED /\
  receive_message_event_source started_s1 <> None /\
  timer_armed started_s1 = true /\
  dispatch (SocketReadable (env_at 0 0)) started_s1 =
    Aborted "Invalid state.".
Proof.
  apply (proj1 (proj2 full_frame_in_started_hits_the_assertion)
           session_s1 started_s1 (env_at 0 0) (env_at 0 0) []).
  - vm_compute. reflexivity.
  - reflexivity.
Defined.

(** ** The setters *)

(** C6, as the code has it. Each setter checks its argument first and the
    state second. [sd_ipv4acd_set_ifindex] refuses an index that is not
    positive with -EINVAL, [sd_ipv4acd_set_mac] and [sd_ipv4acd_set_address]
    refuse a NULL pointer with -EINVAL, whatever the state. With a valid
    argument each of them returns -EBUSY and changes nothing whenever
    [sd_ipv4acd_is_running], and stores the argument and returns 0 in INIT.
    The value behind the pointer is not looked at: a zero MAC address or a
    zero IPv4 address is stored like any other, and it is
    [sd_ipv4acd_start] that refuses it, with -EINVAL. *)
Theorem setters_check_argument_then_state :
  forall ll : sd_ipv4acd,
    (forall i : Z,
       sd_ipv4acd_set_ifindex i ll =
         if i <=? 0 then Done (- EINVAL, ll, [])
         else if sd_ipv4acd_is_running ll then Done (- EBUSY, ll, [])
         else Done (0, with_ifindex i ll, [])) /\
    sd_ipv4acd_set_mac None ll = Done (- EINVAL, ll, []) /\
    (forall a : ether_addr,
       sd_ipv4acd_set_mac (Some a) ll =
         if sd_ipv4acd_is_running ll then Done (- EBUSY, ll, [])
         else Done (0, with_mac_addr a ll, [])) /\
    sd_ipv4acd_set_address None ll = Done (- EINVAL, ll, []) /\
    (forall a : Z,
       sd_ipv4acd_set_address (Some a) ll =
         if sd_ipv4acd_is_running ll then Done (- EBUSY, ll, [])
         else Done (0, with_address a ll, [])) /\
    (sd_ipv4acd_is_running ll = false <-> state ll = IPV4ACD_STATE_INIT) /\
    (forall e : env,
       address ll = 0 \/ ether_addr_is_null (mac_addr ll) = true ->
       sd_ipv4acd_start e ll = Done (- EINVAL, ll, [])).
Proof.
  intros ll.
  split; [|split; [|split; [|split; [|split; [|split]]]]].
  - intros i. unfold sd_ipv4acd_set_ifindex, sd_ipv4acd_is_running. unfold_m.
    rewrite Z.leb_antisym. destruct (0 <? i); cbn; [|reflexivity].
    destruct (IPv4ACDState_eqb _ _); reflexivity.
  - reflexivity.
  - intros a. unfold sd_ipv4acd_set_mac, sd_ipv4acd_is_running. unfold_m.
    destruct (IPv4ACDState_eqb _ _); reflexivity.
  - reflexivity.
  - intros a. unfold sd_ipv4acd_set_address, sd_ipv4acd_is_running. unfold_m.
    destruct (IPv4ACDState_eqb _ _); reflexivity.
  - unfold sd_ipv4acd_is_running.
    destruct (state ll); cbn; split; congruence.
  - intros e H. unfold sd_ipv4acd_start. unfold_m.
    destruct (event ll); [|reflexivity].
    destruct (negb (0 <? ifindex ll)); [reflexivity|].
    destruct H as [H|H].
    + rewrite H. reflexivity.
    + rewrite H. destruct (address ll =? 0); reflexivity.
Qed.

Lemma setters_check_argument_then_state_witness :
  sd_ipv4acd_start (env_at 0 0)
    (with_address 0 (with_mac_addr mac_s1 (with_ifindex 2
       (with_event (Some 1) sd_ipv4acd_new)))) =
  Done (- EINVAL,
        with_address 0 (with_mac_addr mac_s1 (with_ifindex 2
          (with_event (Some 1) sd_ipv4acd_new))), []).
Proof.
  apply (proj2 (proj2 (proj2 (proj2 (proj2 (proj2
           (setters_check_argument_then_state _))))))).
  left. reflexivity.
Defined.

(** C6 as stated does not hold: in INIT the setters accept a zero MAC address
    and a zero IPv4 address (they return 0 and store it), and a running
    session answers [sd_ipv4acd_set_ifindex] with a zero index by -EINVAL
    and not by -EBUSY. *)
Lemma setters_accept_zero_addresses :
  sd_ipv4acd_set_mac (Some (mk_ether_addr [0; 0; 0; 0; 0; 0])) session_s1 =
    Done (0, with_mac_addr (mk_ether_addr [0; 0; 0; 0; 0; 0]) session_s1, [])
  /\
  sd_ipv4acd_set_address (Some 0) session_s1 =
    Done (0, with_address 0 session_s1, []) /\
  sd_ipv4acd_is_running started_s1 = true /\
  sd_ipv4acd_set_ifindex 0 started_s1 = Done (- EINVAL, started_s1, []) /\
  sd_ipv4acd_set_ifindex 0 started_s1 <> Done (- EBUSY, started_s1, []).
Proof.
  repeat split. discriminate.
Qed.

(** ** Invariants of reachable sessions *)

Ltac split_ifs :=
  repeat (match goal with
          | |- context [if ?c then _ else _] => destruct c eqn:?
          | |- context [match ?c with Some _ => _ | None => _ end] =>
              destruct c eqn:?
          end; cbn).

Ltac crush_handler :=
  unfold dispatch, ipv4acd_on_timeout, ipv4acd_on_packet, on_timeout_probe,
    on_timeout_announce, ipv4acd_on_conflict, sd_ipv4acd_stop,
    ipv4acd_client_notify, ipv4acd_set_next_wakeup, arp_send_probe,
    arp_send_announcement, ipv4acd_reset, ipv4acd_set_state,
    timer_armed, disarm;
  unfold_m; cbn; split_ifs.

(* the two handlers, for an invariant that reads state, defend_window and
   n_conflict *)
Ltac handler_keeps ll unfold_inv :=
  destruct ll as [nr st ifi fd ni nc rx tm dw ad mac ev pr cb ud];
  unfold_inv;
  match goal with
  | st : IPv4ACDState |- _ => destruct st
  end;
  crush_handler; try discriminate;
  (let H := fresh in let H1 := fresh in
   intros H; injection H as <- <- <-; cbn; intros H1;
   first [ exact I | exact H1 | reflexivity | discriminate
         | intros; first [discriminate | reflexivity | auto] ]).

Lemma on_timeout_defend_window e ll r ll' t :
  ipv4acd_on_timeout e ll = Done (r, ll', t) ->
  defend_window_clear ll -> defend_window_clear ll'.
Proof. handler_keeps ll ltac:(unfold defend_window_clear). Qed.

Lemma on_packet_defend_window e ll r ll' t :
  ipv4acd_on_packet e ll = Done (r, ll', t) ->
  defend_window_clear ll -> defend_window_clear ll'.
Proof. handler_keeps ll ltac:(unfold defend_window_clear). Qed.

Lemma on_timeout_no_conflicts e ll r ll' t :
  ipv4acd_on_timeout e ll = Done (r, ll', t) ->
  started_without_conflicts ll -> started_without_conflicts ll'.
Proof. handler_keeps ll ltac:(unfold started_without_conflicts). Qed.

Lemma on_packet_no_conflicts e ll r ll' t :
  ipv4acd_on_packet e ll = Done (r, ll', t) ->
  started_without_conflicts ll -> started_without_conflicts ll'.
Proof. handler_keeps ll ltac:(unfold started_without_conflicts). Qed.

Section Invariant.

(** A property of sessions that only reads [state], [defend_window] and
    [n_conflict], that holds after a reset and after a successful [start],
    and that both handlers keep, holds in every reachable session. *)
Variable inv : sd_ipv4acd -> Prop.

Hypothesis inv_reads :
  forall ll ll',
    state ll' = state ll -> defend_window ll' = defend_window ll ->
    n_conflict ll' = n_conflict ll -> inv ll -> inv ll'.
Hypothesis inv_init : forall ll, state ll = IPV4ACD_STATE_INIT -> inv ll.
Hypothesis inv_started :
  forall ll,
    state ll = IPV4ACD_STATE_STARTED -> defend_window ll = 0 ->
    n_conflict ll = 0 -> inv ll.
Hypothesis inv_on_timeout :
  forall e ll r ll' t,
    ipv4acd_on_timeout e ll = Done (r, ll', t) -> inv ll -> inv ll'.
Hypothesis inv_on_packet :
  forall e ll r ll' t,
    ipv4acd_on_packet e ll = Done (r, ll', t) -> inv ll -> inv ll'.

Lemma inv_reset ll : inv (ipv4acd_reset ll).
Proof. apply inv_init. rewrite reset_eq. reflexivity. Qed.

Lemma inv_disarm ll : inv ll -> inv (disarm ll).
Proof.
  apply inv_reads; unfold disarm; destruct (timer_event_source ll);
    reflexivity.
Qed.

Lemma dispatch_keeps ev ll r ll' t :
  dispatch ev ll = Done (r, ll', t) -> inv ll -> inv ll'.
Proof.
  destruct ev as [e|e]; unfold dispatch; unfold_m.
  - destruct (timer_armed ll).
    + destruct (ipv4acd_on_timeout e (disarm ll)) as [[[r0 l0] t0]|] eqn:E;
        [|discriminate].
      intros H. injection H as <- <- <-. intros Hi.
      apply (inv_on_timeout e _ _ _ _ E). apply inv_disarm, Hi.
    + intros H. injection H as <- <- <-. exact (fun H => H).
  - destruct (receive_message_event_source ll).
    + destruct (ipv4acd_on_packet e ll) as [[[r0 l0] t0]|] eqn:E;
        [|discriminate].
      intros H. injection H as <- <- <-.
      apply (inv_on_packet e _ _ _ _ E).
    + intros H. injection H as <- <- <-. exact (fun H => H).
Qed.

Lemma start_keeps e ll r ll' t :
  sd_ipv4acd_start e ll = Done (r, ll', t) -> inv ll -> inv ll'.
Proof.
  intros H Hi. destruct (start_cases e ll r ll' t H) as (_ & [Hc|[Hc|Hc]]).
  - destruct Hc as [_ ->]. exact Hi.
  - destruct Hc as [_ [l0 ->]]. apply inv_reset.
  - destruct Hc as (_ & _ & ->). rewrite set_state_reset.
    apply inv_started; reflexivity.
Qed.

Lemma perform_keeps c ll r ll' t :
  perform c ll = Done (r, ll', t) -> inv ll -> inv ll'.
Proof.
  destruct c; cbn [perform].
  - unfold sd_ipv4acd_set_ifindex. unfold_m. cbn. split_ifs;
      intros H; injection H as <- <- <-;
      first [exact (fun H => H) | apply inv_reads; reflexivity].
  - unfold sd_ipv4acd_set_mac. unfold_m. destruct addr; cbn; split_ifs;
      intros H; injection H as <- <- <-;
      first [exact (fun H => H) | apply inv_reads; reflexivity].
  - unfold sd_ipv4acd_set_address. unfold_m. destruct a; cbn; split_ifs;
      intros H; injection H as <- <- <-;
      first [exact (fun H => H) | apply inv_reads; reflexivity].
  - unfold sd_ipv4acd_set_callback. unfold_m. cbn.
    intros H; injection H as <- <- <-. apply inv_reads; reflexivity.
  - unfold sd_ipv4acd_attach_event. unfold_m.
    destruct (event ll); [| destruct ev]; cbn; split_ifs;
      intros H; injection H as <- <- <-;
      first [exact (fun H => H) | apply inv_reads; reflexivity].
  - unfold sd_ipv4acd_detach_event. unfold_m. cbn.
    intros H; injection H as <- <- <-. apply inv_reads; reflexivity.
  - apply start_keeps.
  - rewrite stop_eq. intros H; injection H as <- <- <-.
    intros _. apply inv_reset.
  - apply dispatch_keeps.
Qed.

Lemma reachable_keeps ll : reachable ll -> inv ll.
Proof.
  induction 1 as [|ll c r ll' t Hr IH Hp].
  - apply inv_init. reflexivity.
  - apply (perform_keeps c ll r ll' t Hp IH).
Qed.

End Invariant.

Lemma defend_window_clear_reads ll ll' :
  state ll' = state ll -> defend_window ll' = defend_window ll ->
  n_conflict ll' = n_conflict ll ->
  defend_window_clear ll -> defend_window_clear ll'.
Proof.
  unfold defend_window_clear. intros -> -> _. exact (fun H => H).
Qed.

Lemma defend_window_clear_init ll :
  state ll = IPV4ACD_STATE_INIT -> defend_window_clear ll.
Proof. unfold defend_window_clear. intros ->. exact I. Qed.

Lemma defend_window_clear_started ll :
  state ll = IPV4ACD_STATE_STARTED -> defend_window ll = 0 ->
  n_conflict ll = 0 -> defend_window_clear ll.
Proof. unfold defend_window_clear. intros -> H _. exact H. Qed.

Lemma started_without_conflicts_reads ll ll' :
  state ll' = state ll -> defend_window ll' = defend_window ll ->
  n_conflict ll' = n_conflict ll ->
  started_without_conflicts ll -> started_without_conflicts ll'.
Proof.
  unfold started_without_conflicts. intros -> _ ->. exact (fun H => H).
Qed.

Lemma started_without_conflicts_init ll :
  state ll = IPV4ACD_STATE_INIT -> started_without_conflicts ll.
Proof. unfold started_without_conflicts. intros ->. discriminate. Qed.

Lemma started_without_conflicts_started ll :
  state ll = IPV4ACD_STATE_STARTED -> defend_window ll = 0 ->
  n_conflict ll = 0 -> started_without_conflicts ll.
Proof. unfold started_without_conflicts. intros _ _ H _. exact H. Qed.

Lemma reachable_started_without_conflicts ll :
  reachable ll -> started_without_conflicts ll.
Proof.
  apply reachable_keeps.
  - apply started_without_conflicts_reads.
  - apply started_without_conflicts_init.
  - apply started_without_conflicts_started.
  - apply on_timeout_no_conflicts.
  - apply on_packet_no_conflicts.
Qed.

(** C9, as the code has it. [defend_window] is 0 in every reachable session
    whose state is STARTED, WAITING_PROBE, PROBING or WAITING_ANNOUNCE, that
    is in every state other than INIT, ANNOUNCING and RUNNING: a fresh
    session has it, and every call and every event of the loop ([start],
    [stop], the setters, a timer tick, a frame, the reset after a conflict)
    keeps it. [start] is what clears [defend_window]; a reset leaves the
    value in place, so INIT can show the window of an earlier defence. *)
Theorem defend_window_is_clear_between_start_and_bind :
  defend_window_clear sd_ipv4acd_new /\
  (forall (c : api_call) (ll ll' : sd_ipv4acd) (r : Z) (t : list action),
     defend_window_clear ll -> perform c ll = Done (r, ll', t) ->
     defend_window_clear ll') /\
  (forall ll : sd_ipv4acd,
     reachable ll ->
     state ll <> IPV4ACD_STATE_INIT ->
     state ll <> IPV4ACD_STATE_ANNOUNCING ->
     state ll <> IPV4ACD_STATE_RUNNING ->
     defend_window ll = 0) /\
  (forall (ll ll' : sd_ipv4acd) (e : env) (t : list action),
     sd_ipv4acd_start e ll = Done (0, ll', t) -> defend_window ll' = 0) /\
  (forall ll : sd_ipv4acd,
     defend_window (ipv4acd_reset ll) = defend_window ll).
Proof.
  assert (Hkeep : forall c ll r ll' t,
            perform c ll = Done (r, ll', t) ->
            defend_window_clear ll -> defend_window_clear ll').
  { apply perform_keeps.
    - apply defend_window_clear_reads.
    - apply defend_window_clear_init.
    - apply defend_window_clear_started.
    - apply on_timeout_defend_window.
    - apply on_packet_defend_window. }
  split; [exact I|].
  split; [intros c ll ll' r t Hi Hp; apply (Hkeep c ll r ll' t Hp Hi)|].
  split; [|split].
  - intros ll Hr.
    assert (Hc : defend_window_clear ll).
    { induction Hr as [|ll c r ll' t Hr IH Hp]; [exact I|].
      apply (Hkeep c ll r ll' t Hp IH). }
    intros H1 H2 H3. unfold defend_window_clear in Hc.
    destruct (state ll); try exact Hc; congruence.
  - intros ll ll' e t H. apply (start_success e ll ll' t H).
  - intros ll. rewrite reset_eq. reflexivity.
Qed.

Lemma started_s1_reachable : reachable started_s1.
Proof.
  apply (reachable_run (configure_s1 ++ [Call_start (env_at 0 0)])
           sd_ipv4acd_new started_s1 []).
  - apply reachable_new.
  - vm_compute. reflexivity.
Qed.

Lemma defend_window_is_clear_between_start_and_bind_witness :
  defend_window started_s1 = 0.
Proof.
  apply (proj1 (proj2 (proj2
           defend_window_is_clear_between_start_and_bind)) started_s1).
  - apply started_s1_reachable.
  - discriminate.
  - discriminate.
  - discriminate.
Defined.

(** C9 as stated does not hold in INIT. In scenario S4 the session is bound
    at 8 s, defends its address against the conflict at 9 s, which sets
    [defend_window] to 19 s, and is reset by the conflict at 14 s: it is
    then in INIT with [defend_window] still at 19 s. *)
Lemma defend_window_survives_the_reset :
  session_after (run s4_calls sd_ipv4acd_new) = Some s4_final /\
  reachable s4_final /\
  state s4_final = IPV4ACD_STATE_INIT /\
  state s4_final <> IPV4ACD_STATE_RUNNING /\
  state s4_final <> IPV4ACD_STATE_ANNOUNCING /\
  defend_window s4_final = 19 * USEC_PER_SEC /\
  defend_window s4_final <> 0.
Proof.
  assert (H : run s4_calls sd_ipv4acd_new =
              Done (tt, s4_final, trace_of (run s4_calls sd_ipv4acd_new)))
    by (vm_compute; reflexivity).
  split; [rewrite H; reflexivity|].
  split; [apply (reachable_run _ _ _ _ reachable_new H)|].
  repeat split; discriminate.
Qed.

(** ** Timing *)

Lemma wakeup_after_armed_for e d ll : wakeup_after (armed_for e d ll) (time_now e) d.
Proof. eexists. repeat split. Qed.

Lemma next_timeout_bounds e usec r :
  0 < r -> 0 <= usec -> usec + r <= 2 ^ 64 ->
  usec <= next_timeout e usec r < usec + r.
Proof.
  intros Hr Hu Hb. unfold next_timeout.
  replace (0 <? r) with true by (symmetry; apply Z.ltb_lt; exact Hr).
  pose proof (Z.mod_pos_bound (u64 (random_u64 e)) r Hr) as Hm.
  set (x := u64 (random_u64 e) mod r) in *.
  unfold u64. set (B := 2 ^ 64) in *.
  rewrite Z.mod_small; lia.
Qed.

(** C5. Whatever the random draw: a probe that is followed by another one
    arms the timer between [PROBE_MIN] = 1 s and [PROBE_MAX] = 2 s later; an
    announcement arms it exactly [ANNOUNCE_INTERVAL] = 2 s later; the tick
    that enters WAITING_PROBE arms it between 0 and [PROBE_WAIT] = 1 s
    later, and the first probe goes out when that timer fires; the last
    probe arms it exactly [ANNOUNCE_WAIT] = 2 s later, and the first
    announcement goes out when that timer fires; and with a random range of
    0 the wakeup is at the base delay, whatever the draw. The deadline of
    the armed timer is the current time of the event loop plus the delay,
    in 64-bit arithmetic. *)
Theorem wakeups_follow_the_rfc_timing :
  (forall (ll : sd_ipv4acd) (e : env),
     timer_armed ll = true ->
     state ll = IPV4ACD_STATE_WAITING_PROBE \/
     state ll = IPV4ACD_STATE_PROBING ->
     n_iteration ll < PROBE_NUM - 2 -> env_ok e ->
     exists ll' d,
       dispatch (TimerFires e) ll = Done (0, ll', [probe_of ll]) /\
       state ll' = IPV4ACD_STATE_PROBING /\
       wakeup_after ll' (time_now e) d /\
       1 * USEC_PER_SEC <= d <= 2 * USEC_PER_SEC) /\
  (forall (ll : sd_ipv4acd) (e : env),
     timer_armed ll = true ->
     state ll = IPV4ACD_STATE_WAITING_ANNOUNCE \/
     (state ll = IPV4ACD_STATE_ANNOUNCING /\ n_iteration ll = 0) ->
     env_ok e ->
     exists ll' t,
       dispatch (TimerFires e) ll = Done (0, ll', announcement_of ll :: t) /\
       announcements t = 0%nat /\
       state ll' = IPV4ACD_STATE_ANNOUNCING /\
       wakeup_after ll' (time_now e) (2 * USEC_PER_SEC)) /\
  (forall (ll : sd_ipv4acd) (e : env),
     reachable ll -> timer_armed ll = true ->
     state ll = IPV4ACD_STATE_STARTED -> sched_ok e ->
     exists ll' d,
       dispatch (TimerFires e) ll = Done (0, ll', []) /\
       state ll' = IPV4ACD_STATE_WAITING_PROBE /\
       wakeup_after ll' (time_now e) d /\
       0 <= d <= 1 * USEC_PER_SEC) /\
  (forall (ll : sd_ipv4acd) (e : env),
     timer_armed ll = true ->
     state ll = IPV4ACD_STATE_WAITING_PROBE \/
     state ll = IPV4ACD_STATE_PROBING ->
     PROBE_NUM - 2 <= n_iteration ll -> env_ok e ->
     exists ll',
       dispatch (TimerFires e) ll = Done (0, ll', [probe_of ll]) /\
       state ll' = IPV4ACD_STATE_WAITING_ANNOUNCE /\
       wakeup_after ll' (time_now e) (2 * USEC_PER_SEC)) /\
  (forall (ll : sd_ipv4acd) (e : env) (usec : Z),
     next_timeout e usec 0 = usec /\
     (sched_ok e ->
      exists ll',
        ipv4acd_set_next_wakeup e usec 0 ll = Done (0, ll', []) /\
        wakeup_after ll' (time_now e) usec)).
Proof.
  split; [|split; [|split; [|split]]].
  - intros ll e Ht Hs Hn He. rewrite (dispatch_timer e ll Ht).
    pose proof (same_config_disarm ll) as Hc.
    assert (Hb : 1 * USEC_PER_SEC <=
                 next_timeout e PROBE_MIN_USEC (PROBE_MAX_USEC - PROBE_MIN_USEC)
                 <= 2 * USEC_PER_SEC).
    { pose proof (next_timeout_bounds e PROBE_MIN_USEC
                    (PROBE_MAX_USEC - PROBE_MIN_USEC)) as H.
      unfold PROBE_MIN_USEC, PROBE_MAX_USEC, USEC_PER_SEC in *.
      assert (H64 : 1 * 1000000 + (2 * 1000000 - 1 * 1000000) <= 2 ^ 64)
        by (vm_compute; discriminate).
      specialize (H ltac:(lia) ltac:(lia) H64). lia. }
    destruct Hs as [Hs|Hs].
    + rewrite on_timeout_first_probe;
        [ | rewrite state_disarm; exact Hs | exact He
          | rewrite n_iteration_disarm; exact Hn ].
      eexists. eexists. split.
      * f_equal. f_equal. f_equal. apply (probe_of_same _ _ Hc).
      * split; [reflexivity|]. split; [apply wakeup_after_armed_for|exact Hb].
    + rewrite on_timeout_next_probe;
        [ | rewrite state_disarm; exact Hs | exact He
          | rewrite n_iteration_disarm; exact Hn ].
      eexists. eexists. split.
      * f_equal. f_equal. f_equal. apply (probe_of_same _ _ Hc).
      * split; [cbn; rewrite state_disarm; exact Hs|].
        split; [apply wakeup_after_armed_for|exact Hb].
  - intros ll e Ht Hs He. rewrite (dispatch_timer e ll Ht).
    pose proof (same_config_disarm ll) as Hc.
    destruct Hs as [Hs|[Hs Hn]].
    + rewrite on_timeout_first_announce;
        [ | rewrite state_disarm; exact Hs | exact He ].
      eexists. eexists. split.
      * f_equal. f_equal. f_equal. apply (announcement_of_same _ _ Hc).
      * split; [unfold notified; destruct (callback _); reflexivity|].
        split; [reflexivity|].
        apply (wakeup_after_armed_for e (next_timeout e ANNOUNCE_INTERVAL_USEC 0)).
    + rewrite on_timeout_next_announce;
        [ | rewrite state_disarm; exact Hs | exact He
          | rewrite n_iteration_disarm; exact Hn ].
      eexists. exists []. split.
      * f_equal. f_equal. f_equal. apply (announcement_of_same _ _ Hc).
      * split; [reflexivity|].
        split; [cbn; rewrite state_disarm; exact Hs|].
        apply (wakeup_after_armed_for e (next_timeout e ANNOUNCE_INTERVAL_USEC 0)).
  - intros ll e Hr Ht Hs He. rewrite (dispatch_timer e ll Ht).
    pose proof (reachable_started_without_conflicts ll Hr Hs) as Hn.
    assert (Hb : 0 <= next_timeout e 0 PROBE_WAIT_USEC <= 1 * USEC_PER_SEC).
    { pose proof (next_timeout_bounds e 0 PROBE_WAIT_USEC) as H.
      unfold PROBE_WAIT_USEC, USEC_PER_SEC in *.
      assert (H64 : 0 + 1 * 1000000 <= 2 ^ 64) by (vm_compute; discriminate).
      specialize (H ltac:(lia) ltac:(lia) H64). lia. }
    rewrite on_timeout_started;
      [ | rewrite state_disarm; exact Hs | exact He
        | rewrite n_conflict_disarm, Hn; reflexivity ].
    eexists. eexists. split; [reflexivity|].
    split; [reflexivity|]. split; [apply wakeup_after_armed_for|exact Hb].
  - intros ll e Ht Hs Hn He. rewrite (dispatch_timer e ll Ht).
    pose proof (same_config_disarm ll) as Hc.
    rewrite on_timeout_last_probe;
      [ | rewrite !state_disarm; exact Hs | exact He
        | rewrite n_iteration_disarm; exact Hn ].
    eexists. split.
    + f_equal. f_equal. f_equal. apply (probe_of_same _ _ Hc).
    + split; [reflexivity|].
      apply (wakeup_after_armed_for e (next_timeout e ANNOUNCE_WAIT_USEC 0)).
  - intros ll e usec. split; [reflexivity|].
    intros He. rewrite (set_next_wakeup_ok e usec 0 ll He).
    eexists. split; [reflexivity|].
    apply (wakeup_after_armed_for e (next_timeout e usec 0)).
Qed.

Lemma env_sched_ok_env_at now rnd : sched_ok (env_at now rnd).
Proof. apply env_ok_sched, env_ok_env_at. Qed.

Lemma wakeups_follow_the_rfc_timing_witness :
  exists ll' d,
    dispatch (TimerFires (env_at 0 123456789)) started_s1 =
      Done (0, ll', []) /\
    state ll' = IPV4ACD_STATE_WAITING_PROBE /\
    wakeup_after ll' 0 d /\
    0 <= d <= 1 * USEC_PER_SEC.
Proof.
  apply (proj1 (proj2 (proj2 wakeups_follow_the_rfc_timing))
           started_s1 (env_at 0 123456789)).
  - apply started_s1_reachable.
  - reflexivity.
  - reflexivity.
  - apply env_sched_ok_env_at.
Defined.

(** ** Rate limiting *)

(** The rate limit as [ipv4acd_on_timeout] implements it: a session that is
    in STARTED with [n_conflict >= MAX_CONFLICTS] arms its timer between
    [RATE_LIMIT_INTERVAL] = 60 s and 61 s later and clears [n_conflict]. *)
Lemma rate_limited_tick e ll :
  state ll = IPV4ACD_STATE_STARTED -> timer_armed ll = true ->
  MAX_CONFLICTS <= n_conflict ll -> sched_ok e ->
  exists ll' d,
    dispatch (TimerFires e) ll = Done (0, ll', []) /\
    state ll' = IPV4ACD_STATE_WAITING_PROBE /\ n_conflict ll' = 0 /\
    wakeup_after ll' (time_now e) d /\
    RATE_LIMIT_INTERVAL_USEC <= d < RATE_LIMIT_INTERVAL_USEC + PROBE_WAIT_USEC.
Proof.
  intros Hs Ht Hn He. rewrite (dispatch_timer e ll Ht).
  rewrite on_timeout_rate_limited;
    [ | rewrite state_disarm; exact Hs | exact He
      | rewrite n_conflict_disarm; exact Hn ].
  eexists. eexists. split; [reflexivity|].
  split; [reflexivity|]. split; [reflexivity|].
  split.
  - apply (wakeup_after_armed_for e
             (next_timeout e RATE_LIMIT_INTERVAL_USEC PROBE_WAIT_USEC)).
  - apply next_timeout_bounds;
      unfold RATE_LIMIT_INTERVAL_USEC, PROBE_WAIT_USEC, USEC_PER_SEC;
      [reflexivity | discriminate | vm_compute; discriminate].
Qed.

(** No reachable session takes that branch: [sd_ipv4acd_start], the only
    way into STARTED, clears [n_conflict]. *)
Lemma rate_limit_is_never_reached ll :
  reachable ll -> state ll = IPV4ACD_STATE_STARTED ->
  n_conflict ll < MAX_CONFLICTS.
Proof.
  intros Hr Hs. rewrite (reachable_started_without_conflicts ll Hr Hs).
  reflexivity.
Qed.

(** C4, on the run of scenario S3. Ten rounds of [start] and a conflict on
    the first probe, then the eleventh [start]: every [start] clears
    [n_conflict], so the session is in STARTED with [n_conflict = 0], the
    tick of STARTED takes the branch without rate limit and, whatever the
    random draw, arms the timer less than [PROBE_WAIT] = 1 s later, far
    from [RATE_LIMIT_INTERVAL] = 60 s; the first probe goes out when that
    timer fires. *)
Theorem eleventh_start_is_not_rate_limited :
  forall rnd : Z,
    run s3_calls sd_ipv4acd_new = Done (tt, s3_final, s3_trace) /\
    events s3_trace = repeat SD_IPV4ACD_EVENT_CONFLICT 10 /\
    state s3_final = IPV4ACD_STATE_STARTED /\
    n_conflict s3_final = 0 /\
    exists ll' ll'' d,
      dispatch (TimerFires (env_at 10000000 rnd)) s3_final =
        Done (0, ll', []) /\
      state ll' = IPV4ACD_STATE_WAITING_PROBE /\
      wakeup_after ll' 10000000 d /\
      0 <= d < PROBE_WAIT_USEC /\
      d < RATE_LIMIT_INTERVAL_USEC /\
      dispatch (TimerFires (env_at (10000000 + d) 0)) ll' =
        Done (0, ll'', [probe_of s3_final]).
Proof.
  intros rnd.
  split; [vm_compute; reflexivity|].
  split; [vm_compute; reflexivity|].
  split; [reflexivity|]. split; [reflexivity|].
  assert (Hb : 0 <= next_timeout (env_at 10000000 rnd) 0 PROBE_WAIT_USEC
               < PROBE_WAIT_USEC).
  { pose proof (next_timeout_bounds (env_at 10000000 rnd) 0 PROBE_WAIT_USEC)
      as H.
    unfold PROBE_WAIT_USEC, USEC_PER_SEC in *.
    assert (H64 : 0 + 1 * 1000000 <= 2 ^ 64) by (vm_compute; discriminate).
    specialize (H ltac:(lia) ltac:(lia) H64). lia. }
  set (d := next_timeout (env_at 10000000 rnd) 0 PROBE_WAIT_USEC) in *.
  set (ll' := armed_for (env_at 10000000 rnd) d
                (with_n_iteration 0
                   (with_state IPV4ACD_STATE_WAITING_PROBE (disarm s3_final)))).
  assert (D1 : dispatch (TimerFires (env_at 10000000 rnd)) s3_final =
               Done (0, ll', [])).
  { rewrite dispatch_timer by reflexivity.
    rewrite on_timeout_started;
      [ reflexivity | reflexivity | apply env_sched_ok_env_at | reflexivity ]. }
  destruct (tick_waiting_probe (env_at (10000000 + d) 0) ll'
              eq_refl eq_refl eq_refl (env_ok_env_at _ _))
    as (ll'' & D2 & _).
  exists ll', ll'', d.
  split; [exact D1|]. split; [reflexivity|].
  split; [apply (wakeup_after_armed_for (env_at 10000000 rnd))|].
  split; [exact Hb|].
  split; [unfold RATE_LIMIT_INTERVAL_USEC, PROBE_WAIT_USEC, USEC_PER_SEC in *; lia|].
  exact D2.
Qed.

(** * Further properties *)

(** ** Machine integers *)

Lemma u32_small x : 0 <= x < 2 ^ 32 -> u32 x = x.
Proof. intros H. unfold u32. apply Z.mod_small. exact H. Qed.

Lemma u32_succ x : u32 (u32 x + 1) = u32 (x + 1).
Proof.
  unfold u32. rewrite Z.add_mod_idemp_l; [reflexivity|].
  vm_compute. discriminate.
Qed.

(** ** The shape of reachable sessions *)

Ltac z_facts :=
  repeat match goal with
         | H : (_ <? _) = true |- _ => apply Z.ltb_lt in H
         | H : (_ <? _) = false |- _ => apply Z.ltb_ge in H
         | H : (_ <=? _) = true |- _ => apply Z.leb_le in H
         | H : (_ <=? _) = false |- _ => apply Z.leb_gt in H
         | H : (_ =? _) = true |- _ => apply Z.eqb_eq in H
         | H : (_ =? _) = false |- _ => apply Z.eqb_neq in H
         end.

(* after the case analysis of a handler: the session it has left *)
Ltac shape_goal Hshape :=
  unfold session_wf, session_shape, holds_resources, released, timer_armed;
  cbn;
  unfold PROBE_NUM, ANNOUNCE_NUM, MAX_CONFLICTS in *; z_facts;
  destruct Hshape as (Hres & Hit & Hnc);
  try subst;
  try match goal with
      | H : ?n < 3 - 2, H' : 0 <= ?n <= 1 |- _ =>
          assert (n = 0) by lia; subst n
      | H : 2 - 1 > ?n, H' : 0 <= ?n <= 1 |- _ =>
          assert (n = 0) by lia; subst n
      | H : ?n < 2 - 1, H' : 0 <= ?n <= 1 |- _ =>
          assert (n = 0) by lia; subst n
      end;
  try change (u32 (0 + 1)) with 1;
  repeat split;
  first [ discriminate | reflexivity | lia | apply Hres | assumption ].

Lemma on_timeout_shape e ll r ll' t :
  ipv4acd_on_timeout e ll = Done (r, ll', t) ->
  session_shape ll -> timer_armed ll = false -> session_wf ll'.
Proof.
  intros H Hshape Harmed. revert H.
  destruct ll as [nr st ifi fd ni nc rx tm dw ad mac ev pr cb ud].
  unfold session_shape, holds_resources, released in Hshape.
  unfold timer_armed in Harmed.
  destruct st; cbn in Hshape, Harmed; crush_handler; try discriminate.
  all: intros H; injection H as <- <- <-.
  all: shape_goal Hshape.
Qed.

Lemma on_packet_shape e ll r ll' t :
  ipv4acd_on_packet e ll = Done (r, ll', t) ->
  session_wf ll -> session_wf ll'.
Proof.
  intros H [Hshape Harmed]. revert H.
  destruct ll as [nr st ifi fd ni nc rx tm dw ad mac ev pr cb ud].
  unfold session_shape, holds_resources, released in Hshape.
  unfold timer_armed in Harmed.
  destruct st; cbn in Hshape, Harmed; crush_handler; try discriminate.
  all: intros H; injection H as <- <- <-.
  all: shape_goal Hshape.
Qed.

Lemma start_shape e ll r ll' t :
  sd_ipv4acd_start e ll = Done (r, ll', t) ->
  session_wf ll -> session_wf ll'.
Proof.
  intros H [Hshape Harmed]. revert H.
  destruct ll as [nr st ifi fd ni nc rx tm dw ad mac ev pr cb ud].
  unfold sd_ipv4acd_start, ipv4acd_set_next_wakeup, ipv4acd_reset,
    ipv4acd_set_state.
  unfold_m. cbn. split_ifs; try congruence.
  all: intros H; injection H as <- <- <-.
  all: try (split; assumption).
  all: destruct st; try discriminate.
  all: unfold session_shape, holds_resources, released in Hshape;
    cbn in Hshape.
  all: shape_goal Hshape.
Qed.

Lemma disarm_shape ll :
  session_wf ll -> session_shape (disarm ll) /\ timer_armed (disarm ll) = false.
Proof.
  intros [Hshape _]. unfold disarm, timer_armed.
  destruct (timer_event_source ll) as [tm|] eqn:Ht; cbn.
  - split; [|reflexivity].
    unfold session_shape, holds_resources, released in *. cbn.
    destruct (state ll); rewrite ?Ht in Hshape;
      repeat split; try discriminate; try apply Hshape.
    destruct Hshape as [[H _] _]. discriminate.
  - split; [exact Hshape | rewrite Ht; reflexivity].
Qed.

Lemma dispatch_shape ev ll r ll' t :
  dispatch ev ll = Done (r, ll', t) -> session_wf ll -> session_wf ll'.
Proof.
  destruct ev as [e|e]; unfold dispatch; unfold_m.
  - destruct (timer_armed ll).
    + destruct (ipv4acd_on_timeout e (disarm ll)) as [[[r0 l0] t0]|] eqn:E;
        [|discriminate].
      intros H. injection H as <- <- <-. intros Hi.
      destruct (disarm_shape ll Hi) as [H1 H2].
      apply (on_timeout_shape e _ _ _ _ E H1 H2).
    + intros H. injection H as <- <- <-. exact (fun H => H).
  - destruct (receive_message_event_source ll).
    + destruct (ipv4acd_on_packet e ll) as [[[r0 l0] t0]|] eqn:E;
        [|discriminate].
      intros H. injection H as <- <- <-.
      apply (on_packet_shape e _ _ _ _ E).
    + intros H. injection H as <- <- <-. exact (fun H => H).
Qed.

Lemma session_wf_reads ll ll' :
  state ll' = state ll -> n_iteration ll' = n_iteration ll ->
  n_conflict ll' = n_conflict ll -> fd ll' = fd ll ->
  timer_event_source ll' = timer_event_source ll ->
  receive_message_event_source ll' = receive_message_event_source ll ->
  session_wf ll -> session_wf ll'.
Proof.
  unfold session_wf, session_shape, holds_resources, released, timer_armed.
  intros -> -> -> -> -> ->. exact (fun H => H).
Qed.

Lemma perform_shape c ll r ll' t :
  perform c ll = Done (r, ll', t) -> session_wf ll -> session_wf ll'.
Proof.
  destruct c; cbn [perform].
  - unfold sd_ipv4acd_set_ifindex. unfold_m. cbn. split_ifs;
      intros H; injection H as <- <- <-;
      first [exact (fun H => H) | apply session_wf_reads; reflexivity].
  - unfold sd_ipv4acd_set_mac. unfold_m. destruct addr; cbn; split_ifs;
      intros H; injection H as <- <- <-;
      first [exact (fun H => H) | apply session_wf_reads; reflexivity].
  - unfold sd_ipv4acd_set_address. unfold_m. destruct a; cbn; split_ifs;
      intros H; injection H as <- <- <-;
      first [exact (fun H => H) | apply session_wf_reads; reflexivity].
  - unfold sd_ipv4acd_set_callback. unfold_m. cbn.
    intros H; injection H as <- <- <-. apply session_wf_reads; reflexivity.
  - unfold sd_ipv4acd_attach_event. unfold_m.
    destruct (event ll); [| destruct ev]; cbn; split_ifs;
      intros H; injection H as <- <- <-;
      first [exact (fun H => H) | apply session_wf_reads; reflexivity].
  - unfold sd_ipv4acd_detach_event. unfold_m. cbn.
    intros H; injection H as <- <- <-. apply session_wf_reads; reflexivity.
  - apply start_shape.
  - rewrite stop_eq. intros H; injection H as <- <- <-.
    intros [Hshape _]. rewrite reset_eq.
    unfold session_wf, session_shape, released, timer_armed. cbn.
    repeat split.
    + unfold session_shape in Hshape.
      destruct (state ll); destruct Hshape as (_ & _ & H); lia.
    + unfold session_shape in Hshape.
      destruct (state ll); destruct Hshape as (_ & _ & H); lia.
  - apply dispatch_shape.
Qed.

Lemma reachable_shape ll : reachable ll -> session_wf ll.
Proof.
  induction 1 as [|ll c r ll' t Hr IH Hp].
  - unfold session_wf, session_shape, released, timer_armed. cbn.
    repeat split; first [reflexivity | discriminate].
  - apply (perform_shape c ll r ll' t Hp IH).
Qed.

(** X1. In every reachable session the socket, the timer source and the
    receive source are all there while the session is running, and all gone
    (descriptor -1) while it is not. *)
Theorem resources_are_held_exactly_while_running :
  forall ll : sd_ipv4acd,
    reachable ll ->
    (sd_ipv4acd_is_running ll = true -> holds_resources ll) /\
    (sd_ipv4acd_is_running ll = false -> released ll).
Proof.
  intros ll Hr. destruct (reachable_shape ll Hr) as [Hshape _].
  unfold session_shape, sd_ipv4acd_is_running in *.
  destruct (state ll); cbn; split; intros H;
    first [discriminate | apply Hshape].
Qed.

Lemma resources_are_held_exactly_while_running_witness :
  holds_resources started_s1.
Proof.
  apply (proj1 (resources_are_held_exactly_while_running started_s1
                  started_s1_reachable)).
  reflexivity.
Defined.

(** X2. In every reachable session [n_iteration] and [n_conflict] are 0 or
    1: the increments never wrap around, [n_iteration] is 1 only in the
    second round of PROBING or ANNOUNCING, and [n_conflict] is 1 only in
    INIT, after a conflict. *)
Theorem counters_are_zero_or_one :
  forall ll : sd_ipv4acd,
    reachable ll ->
    0 <= n_iteration ll <= 1 /\ 0 <= n_conflict ll <= 1 /\
    (n_iteration ll = 1 ->
     state ll = IPV4ACD_STATE_PROBING \/ state ll = IPV4ACD_STATE_ANNOUNCING) /\
    (n_conflict ll = 1 -> state ll = IPV4ACD_STATE_INIT) /\
    u32 (n_iteration ll + 1) = n_iteration ll + 1 /\
    u32 (n_conflict ll + 1) = n_conflict ll + 1.
Proof.
  intros ll Hr. destruct (reachable_shape ll Hr) as [Hshape _].
  unfold session_shape in Hshape.
  assert (H : (0 <= n_iteration ll <= 1 /\ 0 <= n_conflict ll <= 1) /\
              (n_iteration ll = 1 ->
               state ll = IPV4ACD_STATE_PROBING \/
               state ll = IPV4ACD_STATE_ANNOUNCING) /\
              (n_conflict ll = 1 -> state ll = IPV4ACD_STATE_INIT)).
  { destruct (state ll); destruct Hshape as (_ & Hi & Hc);
      (split; [lia|]); split; intros H;
      first [ reflexivity | left; reflexivity | right; reflexivity
            | exfalso; lia ]. }
  destruct H as ((Hi & Hc) & H1 & H2).
  repeat split; try lia; try assumption.
  - apply u32_small. assert (2 < 2 ^ 32) by (vm_compute; reflexivity). lia.
  - apply u32_small. assert (2 < 2 ^ 32) by (vm_compute; reflexivity). lia.
Qed.

Lemma s4_final_reachable : reachable s4_final.
Proof.
  apply (reachable_run s4_calls sd_ipv4acd_new s4_final
           (trace_of (run s4_calls sd_ipv4acd_new)) reachable_new).
  vm_compute. reflexivity.
Qed.

Lemma counters_are_zero_or_one_witness :
  n_conflict s4_final = 1 /\ state s4_final = IPV4ACD_STATE_INIT.
Proof.
  split; [reflexivity|].
  apply (proj1 (proj2 (proj2 (proj2
           (counters_are_zero_or_one s4_final s4_final_reachable))))).
  reflexivity.
Defined.

(** ** Assertions *)

Lemma on_timeout_aborts e ll msg :
  ipv4acd_on_timeout e ll = Aborted msg ->
  (msg = "Invalid state."%string /\ awaits_timer (state ll) = false) \/
  (msg = "sd_event_now"%string /\ r_event_now e < 0).
Proof.
  destruct ll as [nr st ifi fd ni nc rx tm dw ad mac ev pr cb ud].
  destruct st; crush_handler; try discriminate.
  all: intros H; injection H as <-; z_facts.
  all: first [ left; split; reflexivity | right; split; [reflexivity|assumption] ].
Qed.

Lemma on_packet_aborts e ll msg :
  ipv4acd_on_packet e ll = Aborted msg ->
  (msg = "Invalid state."%string /\ recv_n e = sizeof_ether_arp /\
   packet_state (state ll) = false) \/
  (msg = "sd_event_now"%string /\ r_event_now e < 0).
Proof.
  destruct ll as [nr st ifi fd ni nc rx tm dw ad mac ev pr cb ud].
  destruct st; crush_handler; try discriminate.
  all: intros H; injection H as <-.
  all: try match goal with
           | H : negb _ = false |- _ => apply negb_false_iff in H
           end; z_facts.
  all: first [ left; split; [reflexivity | split; [assumption | reflexivity]]
             | right; split; [reflexivity|assumption] ].
Qed.

(** X3. In every reachable session the timer is armed exactly in the states
    that wait for one (STARTED to ANNOUNCING), so the event loop runs the
    timer handler only in states it handles. When the clock works, the one
    assertion an event of the loop can hit in a reachable session is the
    "Invalid state" of the packet handler, on a full frame in STARTED. *)
Theorem only_a_frame_in_started_hits_an_assertion :
  forall ll : sd_ipv4acd,
    reachable ll ->
    timer_armed ll = awaits_timer (state ll) /\
    (forall (e : env) (msg : string),
       dispatch (TimerFires e) ll = Aborted msg ->
       msg = "sd_event_now"%string /\ r_event_now e < 0) /\
    (forall (e : env) (msg : string),
       dispatch (SocketReadable e) ll = Aborted msg ->
       (msg = "sd_event_now"%string /\ r_event_now e < 0) \/
       (msg = "Invalid state."%string /\ recv_n e = sizeof_ether_arp /\
        state ll = IPV4ACD_STATE_STARTED)).
Proof.
  intros ll Hr. destruct (reachable_shape ll Hr) as [Hshape Harmed].
  split; [exact Harmed|]. split.
  - intros e msg. unfold dispatch. unfold_m.
    destruct (timer_armed ll) eqn:Ha; [|discriminate].
    destruct (ipv4acd_on_timeout e (disarm ll)) as [[[r l] t]|m] eqn:E;
      [discriminate|].
    intros H. injection H as <-.
    destruct (on_timeout_aborts e _ _ E) as [[_ H]|H]; [|exact H].
    rewrite state_disarm in H. congruence.
  - intros e msg. unfold dispatch. unfold_m.
    destruct (receive_message_event_source ll) eqn:Hrx; [|discriminate].
    destruct (ipv4acd_on_packet e ll) as [[[r l] t]|m] eqn:E;
      [discriminate|].
    intros H. injection H as <-.
    destruct (on_packet_aborts e _ _ E) as [(Hm & Hn & Hs)|H];
      [right | left; exact H].
    split; [exact Hm|]. split; [exact Hn|].
    unfold session_shape, released in Hshape.
    destruct (state ll); try discriminate; [|reflexivity].
    destruct Hshape as ((_ & H & _) & _). congruence.
Qed.

Lemma only_a_frame_in_started_hits_an_assertion_witness :
  timer_armed running_s1 = false.
Proof.
  apply (proj1 (only_a_frame_in_started_hits_an_assertion running_s1
    (reachable_run
       (configure_s1 ++
        [Call_start (env_at 0 0); tick 0 0; tick 0 0; tick 1000000 0;
         tick 2000000 0; tick 4000000 0; tick 6000000 0; tick 8000000 0])
       sd_ipv4acd_new running_s1
       [probe_of started_s1; probe_of started_s1; probe_of started_s1;
        announcement_of started_s1; Callback 1 SD_IPV4ACD_EVENT_BIND 0;
        announcement_of started_s1]
       reachable_new eq_refl))).
Defined.

(** ** What one call of a handler does *)

Ltac pick_disj :=
  first [ reflexivity | assumption | discriminate
        | left; pick_disj | right; pick_disj ].

Ltac trace_goal :=
  unfold PROBE_NUM, ANNOUNCE_NUM, MAX_CONFLICTS in *; z_facts;
  repeat match goal with
         | |- _ /\ _ => split
         end;
  try (intros HH; try discriminate HH);
  cbn in *;
  try pick_disj; try lia.

(** X4. What one call of the timer handler does when it returns: it returns
    0; it sends at most one frame, a probe only in WAITING_PROBE and PROBING
    and an announcement only in WAITING_ANNOUNCE and ANNOUNCING; it reports
    at most one event, which is never CONFLICT; BIND is reported only on the
    step from WAITING_ANNOUNCE to ANNOUNCING, after the announcement has
    been sent and the next timer armed, with both counters at 0; STOP is
    reported only with the session reset. *)
Theorem timer_call_sends_one_frame_and_reports_one_event :
  forall (e : env) (ll : sd_ipv4acd) (r : Z) (ll' : sd_ipv4acd)
         (t : list action),
    0 <= n_iteration ll ->
    ipv4acd_on_timeout e ll = Done (r, ll', t) ->
    r = 0 /\
    (probes t + announcements t <= 1)%nat /\
    (probes t = 1%nat ->
     state ll = IPV4ACD_STATE_WAITING_PROBE \/
     state ll = IPV4ACD_STATE_PROBING) /\
    (announcements t = 1%nat ->
     state ll = IPV4ACD_STATE_WAITING_ANNOUNCE \/
     state ll = IPV4ACD_STATE_ANNOUNCING) /\
    (events t = [] \/ events t = [SD_IPV4ACD_EVENT_BIND] \/
     events t = [SD_IPV4ACD_EVENT_STOP]) /\
    (events t = [SD_IPV4ACD_EVENT_BIND] ->
     state ll = IPV4ACD_STATE_WAITING_ANNOUNCE /\
     state ll' = IPV4ACD_STATE_ANNOUNCING /\
     n_iteration ll' = 0 /\ n_conflict ll' = 0 /\
     announcements t = 1%nat /\ timer_armed ll' = true) /\
    (events t = [SD_IPV4ACD_EVENT_STOP] -> is_reset ll').
Proof.
  intros e ll r ll' t Hni H. revert H.
  destruct ll as [nr st ifi fd ni nc rx tm dw ad mac ev pr cb ud].
  cbn in Hni.
  destruct st; crush_handler; try discriminate.
  all: intros H; injection H as <- <- <-.
  all: unfold is_reset, probes, announcements, timer_armed.
  all: trace_goal.
  all: try (exfalso;
            match goal with
            | H : u32 (?n + 1) = 0 |- _ =>
                assert (n = 0) by lia; subst n; vm_compute in H; discriminate
            end).
  all: repeat split;
    try match goal with
        | H : Some _ = Some ?t |- ts_enabled ?t = true =>
            injection H as <-
        end; reflexivity.
Qed.

Lemma timer_call_sends_one_frame_and_reports_one_event_witness :
  is_reset (ipv4acd_reset probing_s1).
Proof.
  apply (timer_call_sends_one_frame_and_reports_one_event
           (env_send_fails 0) probing_s1 0 (ipv4acd_reset probing_s1)
           [Callback 1 SD_IPV4ACD_EVENT_STOP 0]).
  - vm_compute. discriminate.
  - reflexivity.
  - reflexivity.
Defined.

(** X5. What one call of the packet handler does when it returns: it
    returns 0 and never sends a probe; it sends at most one announcement, and
    only in ANNOUNCING or RUNNING for a frame whose sender address is the
    session's, read after the defend window has passed, and then it only
    moves the window and reports nothing; it reports at most one event, never
    BIND; CONFLICT comes with the session reset and [n_conflict] counted up
    by one, STOP with the session reset and [n_conflict] as it was. *)
Theorem packet_call_defends_or_reports_one_event :
  forall (e : env) (ll : sd_ipv4acd) (r : Z) (ll' : sd_ipv4acd)
         (t : list action),
    ipv4acd_on_packet e ll = Done (r, ll', t) ->
    r = 0 /\ probes t = 0%nat /\ (announcements t <= 1)%nat /\
    (announcements t = 1%nat ->
     (state ll = IPV4ACD_STATE_ANNOUNCING \/
      state ll = IPV4ACD_STATE_RUNNING) /\
     arp_spa (packet e) = address ll /\
     defend_window ll < time_now e /\
     ll' = with_defend_window (u64 (time_now e + DEFEND_INTERVAL_USEC)) ll /\
     events t = []) /\
    (events t = [] \/ events t = [SD_IPV4ACD_EVENT_CONFLICT] \/
     events t = [SD_IPV4ACD_EVENT_STOP]) /\
    (events t = [SD_IPV4ACD_EVENT_CONFLICT] ->
     is_reset ll' /\ n_conflict ll' = u32 (n_conflict ll + 1) /\
     announcements t = 0%nat) /\
    (events t = [SD_IPV4ACD_EVENT_STOP] ->
     is_reset ll' /\ n_conflict ll' = n_conflict ll).
Proof.
  intros e ll r ll' t H. revert H.
  destruct ll as [nr st ifi fd ni nc rx tm dw ad mac ev pr cb ud].
  destruct st; crush_handler; try discriminate.
  all: intros H; injection H as <- <- <-.
  all: unfold is_reset, probes, announcements, ipv4acd_arp_conflict,
         with_defend_window in *.
  all: trace_goal.
  all: repeat split; try reflexivity; try assumption.
  all: pick_disj.
Qed.

Lemma packet_call_defends_or_reports_one_event_witness :
  is_reset (ipv4acd_reset (with_n_conflict 1 probing_s1)) /\
  n_conflict (ipv4acd_reset (with_n_conflict 1 probing_s1)) =
    u32 (n_conflict probing_s1 + 1).
Proof.
  assert (H := packet_call_defends_or_reports_one_event
                 (env_at 0 0) probing_s1 0
                 (ipv4acd_reset (with_n_conflict 1 probing_s1))
                 [Callback 1 SD_IPV4ACD_EVENT_CONFLICT 0] eq_refl).
  destruct H as (_ & _ & _ & _ & _ & H & _).
  destruct (H eq_refl) as (H1 & H2 & _). split; assumption.
Defined.

Lemma handlers_config e ll r ll' t :
  ipv4acd_on_timeout e ll = Done (r, ll', t) \/
  ipv4acd_on_packet e ll = Done (r, ll', t) ->
  same_config ll ll' /\ event ll' = event ll /\
  event_priority ll' = event_priority ll /\ n_ref ll' = n_ref ll /\
  Forall (made_by ll) t.
Proof.
  intros H.
  destruct ll as [nr st ifi fd ni nc rx tm dw ad mac ev pr cb ud].
  destruct H as [H|H]; revert H.
  all: destruct st; crush_handler; try discriminate.
  all: intros H; injection H as <- <- <-.
  all: unfold same_config; cbn; repeat split.
  all: repeat (apply Forall_cons; [cbn; repeat split; assumption|]).
  all: apply Forall_nil.
Qed.

(** X6. Neither handler touches the configuration: interface index,
    address, MAC address, callback, userdata, event loop, priority and
    reference count are after the call what they were before; and every
    frame it sends carries the session's interface index, address and MAC
    address, every event goes to the session's callback with its userdata. *)
Theorem handlers_keep_the_configuration :
  forall (e : env) (ll : sd_ipv4acd) (r : Z) (ll' : sd_ipv4acd)
         (t : list action),
    ipv4acd_on_timeout e ll = Done (r, ll', t) \/
    ipv4acd_on_packet e ll = Done (r, ll', t) ->
    same_config ll ll' /\ event ll' = event ll /\
    event_priority ll' = event_priority ll /\ n_ref ll' = n_ref ll /\
    Forall (made_by ll) t.
Proof.
  intros e ll r ll' t H. exact (handlers_config e ll r ll' t H).
Qed.

Lemma handlers_keep_the_configuration_witness :
  Forall (made_by waiting_announce_s1)
    [announcement_of started_s1; Callback 1 SD_IPV4ACD_EVENT_BIND 0].
Proof.
  apply (handlers_keep_the_configuration (env_at 4000000 0)
           waiting_announce_s1 0
           (match session_after
                    (ipv4acd_on_timeout (env_at 4000000 0)
                       waiting_announce_s1) with
            | Some l => l
            | None => session_s1
            end)
           [announcement_of started_s1; Callback 1 SD_IPV4ACD_EVENT_BIND 0]).
  left. reflexivity.
Defined.

Ltac made_by_goal :=
  repeat (apply Forall_cons; [cbn; repeat split; assumption|]);
  apply Forall_nil.

(** X7. Whatever is done to a session, a setter, start, stop or an event of
    the loop: what it sends and reports is made with the configuration the
    session had before the call; while the session is running, the call
    leaves interface index, address and MAC address as they are, so that a
    running session probes and defends one address on one interface; and on
    an idle session the call sends no frame. *)
Theorem a_running_session_keeps_its_address :
  forall (c : api_call) (ll : sd_ipv4acd) (r : Z) (ll' : sd_ipv4acd)
         (t : list action),
    perform c ll = Done (r, ll', t) ->
    Forall (made_by ll) t /\
    (sd_ipv4acd_is_running ll = true ->
     ifindex ll' = ifindex ll /\ address ll' = address ll /\
     mac_addr ll' = mac_addr ll) /\
    (sd_ipv4acd_is_running ll = false ->
     probes t = 0%nat /\ announcements t = 0%nat).
Proof.
  intros c ll r ll' t H. revert H.
  destruct ll as [nr st ifi fd ni nc rx tm dw ad mac ev pr cb ud].
  unfold sd_ipv4acd_is_running, probes, announcements.
  destruct c as [i|addr|a|cb1 ud1|ev1 rd dl p| |e| |lev]; cbn [perform].
  - unfold sd_ipv4acd_set_ifindex. unfold_m.
    destruct st; cbn; split_ifs; intros H; injection H as <- <- <-;
      (split; [made_by_goal|]); split; intros Hr;
      first [discriminate Hr | cbn; repeat split].
  - unfold sd_ipv4acd_set_mac. unfold_m.
    destruct st, addr; cbn; intros H; injection H as <- <- <-;
      (split; [made_by_goal|]); split; intros Hr;
      first [discriminate Hr | cbn; repeat split].
  - unfold sd_ipv4acd_set_address. unfold_m.
    destruct st, a; cbn; intros H; injection H as <- <- <-;
      (split; [made_by_goal|]); split; intros Hr;
      first [discriminate Hr | cbn; repeat split].
  - unfold sd_ipv4acd_set_callback. unfold_m. cbn.
    intros H; injection H as <- <- <-.
    (split; [made_by_goal|]); split; intros Hr; cbn; repeat split.
  - unfold sd_ipv4acd_attach_event. unfold_m. cbn.
    destruct ev, ev1; cbn; split_ifs; intros H; injection H as <- <- <-;
      (split; [made_by_goal|]); split; intros Hr; cbn; repeat split.
  - unfold sd_ipv4acd_detach_event. unfold_m. cbn.
    intros H; injection H as <- <- <-.
    (split; [made_by_goal|]); split; intros Hr; cbn; repeat split.
  - unfold sd_ipv4acd_start, ipv4acd_set_next_wakeup, ipv4acd_reset,
      ipv4acd_set_state. unfold_m. cbn.
    destruct ev, st; cbn; split_ifs; try discriminate;
      intros H; injection H as <- <- <-;
      (split; [made_by_goal|]); split; intros Hr;
      first [discriminate Hr | cbn; repeat split].
  - destruct st; crush_handler; intros H; injection H as <- <- <-;
      (split; [made_by_goal|]); split; intros Hr;
      first [discriminate Hr | cbn; repeat split].
  - destruct lev as [e|e]; destruct st; crush_handler; try discriminate;
      intros H; injection H as <- <- <-;
      (split; [made_by_goal|]); split; intros Hr;
      first [discriminate Hr | cbn; repeat split].
Qed.

Lemma a_running_session_keeps_its_address_witness :
  ifindex (ipv4acd_reset (with_n_conflict 1 probing_s1)) =
    ifindex probing_s1 /\
  address (ipv4acd_reset (with_n_conflict 1 probing_s1)) =
    address probing_s1 /\
  mac_addr (ipv4acd_reset (with_n_conflict 1 probing_s1)) =
    mac_addr probing_s1.
Proof.
  apply (a_running_session_keeps_its_address
           (Loop (SocketReadable (env_at 0 0))) probing_s1 0
           (ipv4acd_reset (with_n_conflict 1 probing_s1))
           [Callback 1 SD_IPV4ACD_EVENT_CONFLICT 0] eq_refl).
  reflexivity.
Defined.

(** ** Which frames are conflicts *)

(** X8. Before the first announcement (WAITING_PROBE, PROBING,
    WAITING_ANNOUNCE) every full-sized frame is a conflict, whatever the
    addresses in it: the classifier is not asked and the clock is not read.
    The session is reset with [n_conflict] counted up, CONFLICT is reported
    and nothing is sent. *)
Theorem any_full_frame_before_announcing_is_a_conflict :
  forall (e : env) (ll : sd_ipv4acd) (p : ether_arp),
    recv_n e = sizeof_ether_arp ->
    state ll = IPV4ACD_STATE_WAITING_PROBE \/
    state ll = IPV4ACD_STATE_PROBING \/
    state ll = IPV4ACD_STATE_WAITING_ANNOUNCE ->
    ipv4acd_on_packet (with_packet p e) ll =
    Done (0, ipv4acd_reset (with_n_conflict (u32 (n_conflict ll + 1)) ll),
          notified ll SD_IPV4ACD_EVENT_CONFLICT).
Proof.
  intros e ll p Hn Hs.
  apply (on_packet_probing_conflict (with_packet p e) ll Hn Hs).
Qed.

Lemma any_full_frame_before_announcing_is_a_conflict_witness :
  ipv4acd_arp_conflict probing_s1 {| arp_spa := 1; arp_tpa := 2 |} = false /\
  ipv4acd_on_packet
    (with_packet {| arp_spa := 1; arp_tpa := 2 |} (env_at 0 0)) probing_s1 =
  Done (0, ipv4acd_reset (with_n_conflict (u32 (n_conflict probing_s1 + 1))
                            probing_s1),
        notified probing_s1 SD_IPV4ACD_EVENT_CONFLICT).
Proof.
  split; [reflexivity|].
  apply (any_full_frame_before_announcing_is_a_conflict (env_at 0 0)
           probing_s1 {| arp_spa := 1; arp_tpa := 2 |}).
  - reflexivity.
  - right. left. reflexivity.
Defined.

(** X9. In ANNOUNCING and RUNNING only the sender address of a full-sized
    frame counts: a frame from another sender is dropped without a change,
    without a trace and without reading the clock, also when its target
    address is the session's; and what happens on a frame from the
    session's address does not depend on the target address. *)
Theorem only_the_sender_address_makes_a_conflict :
  forall (e : env) (ll : sd_ipv4acd) (p : ether_arp),
    recv_n e = sizeof_ether_arp ->
    state ll = IPV4ACD_STATE_ANNOUNCING \/ state ll = IPV4ACD_STATE_RUNNING ->
    (arp_spa p <> address ll ->
     ipv4acd_on_packet (with_packet p e) ll = Done (0, ll, [])) /\
    (forall tpa : Z,
       ipv4acd_on_packet
         (with_packet {| arp_spa := arp_spa p; arp_tpa := tpa |} e) ll =
       ipv4acd_on_packet (with_packet p e) ll).
Proof.
  intros e ll p Hn Hs. split.
  - intros Hp.
    apply (on_packet_benign (with_packet p e) ll Hn Hs).
    unfold ipv4acd_arp_conflict. apply Z.eqb_neq. exact Hp.
  - intros tpa. destruct p as [spa tpa0].
    unfold ipv4acd_on_packet, ipv4acd_arp_conflict, with_packet. reflexivity.
Qed.

Lemma only_the_sender_address_makes_a_conflict_witness :
  ipv4acd_on_packet
    (with_packet {| arp_spa := 1; arp_tpa := address_s1 |} (env_at 0 0))
    running_s1 = Done (0, running_s1, []).
Proof.
  apply (proj1 (only_the_sender_address_makes_a_conflict (env_at 0 0)
                  running_s1 {| arp_spa := 1; arp_tpa := address_s1 |}
                  eq_refl (or_intror eq_refl))).
  vm_compute. discriminate.
Defined.

(** ** Starting *)

Lemma configured_reads ll ll' :
  same_config ll ll' -> event ll' = event ll -> configured ll ->
  configured ll'.
Proof.
  intros (H1 & H2 & H3 & _) He (C1 & C2 & C3 & C4).
  unfold configured. rewrite He, H1, H2, H3. repeat split; assumption.
Qed.

Lemma start_runs e ll :
  configured ll -> state ll = IPV4ACD_STATE_INIT -> start_ok e ->
  exists ll', sd_ipv4acd_start e ll = Done (0, ll', []).
Proof.
  intros (C1 & C2 & C3 & C4) Hs (B1 & B2 & B3 & S1 & S2 & S3).
  unfold sd_ipv4acd_start, ipv4acd_set_next_wakeup. unfold_m.
  destruct (event ll) as [l|]; [|congruence].
  apply Z.ltb_lt in C2. apply Z.eqb_neq in C3.
  apply Z.ltb_ge in B1, B2, B3, S1, S2, S3.
  rewrite Hs, C2, C3, C4. cbn. rewrite B1. cbn. rewrite B2. cbn.
  rewrite B3. cbn. rewrite S1. cbn. rewrite S2. cbn. rewrite S3. cbn.
  eexists. reflexivity.
Qed.

(** X10. What [sd_ipv4acd_start] can do when it returns: it never reports an
    event and never sends a frame, also when it fails after the socket was
    bound; it returns 0 or a negative code; 0 only for a configured session
    in INIT, which is then in STARTED with the new socket, both event
    sources, the timer armed for now and counters and defend window at 0; a
    negative code leaves state and configuration as they were, and a
    session that was running or whose bind failed is not touched at all. *)
Theorem start_enters_started_or_keeps_the_state :
  forall (e : env) (ll : sd_ipv4acd) (r : Z) (ll' : sd_ipv4acd)
         (t : list action),
    sd_ipv4acd_start e ll = Done (r, ll', t) ->
    t = [] /\ r <= 0 /\
    same_config ll ll' /\ event ll' = event ll /\
    (r = 0 ->
     configured ll /\ state ll = IPV4ACD_STATE_INIT /\
     state ll' = IPV4ACD_STATE_STARTED /\ fd ll' = r_bind e /\
     0 <= fd ll' /\ receive_message_event_source ll' <> None /\
     wakeup_after ll' (time_now e) 0 /\
     n_iteration ll' = 0 /\ n_conflict ll' = 0 /\ defend_window ll' = 0) /\
    (r < 0 ->
     state ll' = state ll /\
     (sd_ipv4acd_is_running ll = true \/ r_bind e < 0 -> ll' = ll)).
Proof.
  intros e ll r ll' t H. revert H.
  destruct ll as [nr st ifi fd ni nc rx tm dw ad mac ev pr cb ud].
  unfold sd_ipv4acd_start, ipv4acd_set_next_wakeup, ipv4acd_reset,
    ipv4acd_set_state, configured, wakeup_after, next_timeout,
    sd_ipv4acd_is_running.
  unfold_m. unfold EINVAL, EBUSY. cbn.
  destruct ev as [l|]; cbn; [destruct st; cbn|].
  all: split_ifs; try discriminate.
  all: intros H; injection H as <- <- <-.
  all: z_facts.
  all: split; [reflexivity|].
  all: split; [first [lia | discriminate]|].
  all: split; [unfold same_config; cbn; repeat split|].
  all: split; [reflexivity|].
  all: split; intros Hr; try (exfalso; lia); try discriminate Hr.
  all: cbn.
  all: try (split; [reflexivity|]; intros [Hx|Hx];
            first [reflexivity | discriminate Hx | exfalso; lia]).
  all: repeat split; try discriminate; try assumption; try lia.
  all: eexists; repeat split.
Qed.

Lemma start_enters_started_or_keeps_the_state_witness :
  state started_s1 = IPV4ACD_STATE_STARTED /\ fd started_s1 = 3.
Proof.
  destruct (start_enters_started_or_keeps_the_state (env_at 0 0) session_s1
              0 started_s1 [] eq_refl) as (_ & _ & _ & _ & H & _).
  destruct (H eq_refl) as (_ & _ & H1 & H2 & _).
  split; assumption.
Defined.

(** X11. When [sd_ipv4acd_start] refuses: without an event loop, with an
    interface index that is not positive, with the address 0.0.0.0 or the
    MAC address 00:00:00:00:00:00 it returns -EINVAL, in any state; a
    configured session that is running gets -EBUSY; a configured idle one
    whose socket cannot be bound gets the error of the bind. In each case
    the session is left exactly as it was and nothing is reported. *)
Theorem start_refuses_without_a_change :
  forall (e : env) (ll : sd_ipv4acd),
    (event ll = None \/ ifindex ll <= 0 \/ address ll = 0 \/
     ether_addr_is_null (mac_addr ll) = true ->
     sd_ipv4acd_start e ll = Done (- EINVAL, ll, [])) /\
    (configured ll -> sd_ipv4acd_is_running ll = true ->
     sd_ipv4acd_start e ll = Done (- EBUSY, ll, [])) /\
    (configured ll -> sd_ipv4acd_is_running ll = false -> r_bind e < 0 ->
     sd_ipv4acd_start e ll = Done (r_bind e, ll, [])).
Proof.
  intros e ll.
  unfold configured, sd_ipv4acd_is_running, sd_ipv4acd_start. unfold_m.
  split; [|split].
  - intros H. destruct (event ll) as [l|] eqn:He; [|reflexivity].
    destruct (0 <? ifindex ll) eqn:Hi; [|reflexivity]. cbn.
    destruct (address ll =? 0) eqn:Ha; [reflexivity|].
    destruct (ether_addr_is_null (mac_addr ll)) eqn:Hm; [reflexivity|].
    z_facts. exfalso.
    destruct H as [H|[H|[H|H]]]; first [discriminate | lia].
  - intros (C1 & C2 & C3 & C4) Hs.
    destruct (event ll) as [l|]; [|congruence].
    apply Z.ltb_lt in C2. apply Z.eqb_neq in C3.
    rewrite C2, C3, C4. cbn.
    destruct (state ll); cbn in *; first [discriminate | reflexivity].
  - intros (C1 & C2 & C3 & C4) Hs Hb.
    destruct (event ll) as [l|]; [|congruence].
    apply Z.ltb_lt in C2, Hb. apply Z.eqb_neq in C3.
    rewrite C2, C3, C4. cbn.
    destruct (state ll); cbn in *; try discriminate.
    rewrite Hb. reflexivity.
Qed.

Lemma start_refuses_without_a_change_witness :
  sd_ipv4acd_start (env_at 0 0) running_s1 = Done (- EBUSY, running_s1, []).
Proof.
  apply (proj1 (proj2 (start_refuses_without_a_change (env_at 0 0)
                         running_s1))).
  - repeat split; first [discriminate | reflexivity].
  - reflexivity.
Defined.

(** ** The event loop and the callback *)

Lemma s32_small x : - 2 ^ 31 <= x < 2 ^ 31 -> s32 x = x.
Proof.
  intros H. unfold s32.
  assert (E : 2 ^ 32 = 2 ^ 31 + 2 ^ 31) by (vm_compute; reflexivity).
  set (B := 2 ^ 31) in *. rewrite Z.mod_small; lia.
Qed.

(** X12. A session takes one event loop: attaching to a session without a
    loop stores the loop and the priority, converted to [int] (unchanged
    when it fits) and returns 0, in any state; a second attach returns
    -EBUSY and leaves the first loop and priority; after a detach the next
    attach is taken again; and when no loop is given and the default loop
    cannot be had, the error is returned and the session stays as it was. *)
Theorem a_session_takes_one_event_loop :
  forall (ll : sd_ipv4acd) (l1 l2 p1 p2 rd dl : Z),
    event ll = None ->
    exists ll1 ll2 ll3 : sd_ipv4acd,
      sd_ipv4acd_attach_event (Some l1) rd dl p1 ll = Done (0, ll1, []) /\
      event ll1 = Some l1 /\ event_priority ll1 = s32 p1 /\
      (- 2 ^ 31 <= p1 < 2 ^ 31 -> event_priority ll1 = p1) /\
      state ll1 = state ll /\ same_config ll ll1 /\
      sd_ipv4acd_attach_event (Some l2) rd dl p2 ll1 =
        Done (- EBUSY, ll1, []) /\
      sd_ipv4acd_detach_event ll1 = Done (0, ll2, []) /\
      event ll2 = None /\
      sd_ipv4acd_attach_event (Some l2) rd dl p2 ll2 = Done (0, ll3, []) /\
      event ll3 = Some l2 /\ event_priority ll3 = s32 p2 /\
      (rd < 0 ->
       sd_ipv4acd_attach_event None rd dl p1 ll = Done (rd, ll, [])).
Proof.
  intros ll l1 l2 p1 p2 rd dl He.
  destruct ll as [nr st ifi fd ni nc rx tm dw ad mac ev pr cb ud].
  cbn in He. subst ev.
  eexists. eexists. eexists.
  unfold sd_ipv4acd_attach_event, sd_ipv4acd_detach_event. unfold_m. cbn.
  repeat split.
  - intros H. apply s32_small. exact H.
  - intros H. apply Z.ltb_lt in H. rewrite H. cbn. rewrite H. reflexivity.
Qed.

Lemma a_session_takes_one_event_loop_witness :
  sd_ipv4acd_attach_event None (-12) 0 0 sd_ipv4acd_new =
  Done (-12, sd_ipv4acd_new, []).
Proof.
  destruct (a_session_takes_one_event_loop sd_ipv4acd_new 1 2 0 0 (-12) 0
              eq_refl)
    as (l1 & l2 & l3 & _ & _ & _ & _ & _ & _ & _ & _ & _ & _ & _ & _ & H).
  apply H. reflexivity.
Defined.


(** ** Reference counting *)

(** X14. Taking a reference and dropping it again gives back the session as
    it was, as long as the 32-bit counter does not overflow; nothing is
    sent or reported. At the largest count [sd_ipv4acd_ref] wraps the
    counter to 0, and the next unref dies on its assertion. *)
Theorem ref_then_unref_gives_the_session_back :
  forall ll : sd_ipv4acd,
    1 <= n_ref ll < 2 ^ 32 ->
    exists ll1 : sd_ipv4acd,
      sd_ipv4acd_ref (Some ll) = Done (Some ll1) /\
      n_ref ll1 = u32 (n_ref ll + 1) /\
      (n_ref ll < 2 ^ 32 - 1 ->
       n_ref ll1 = n_ref ll + 1 /\
       sd_ipv4acd_unref (Some ll1) = Done (Live ll, [])) /\
      (n_ref ll = 2 ^ 32 - 1 ->
       n_ref ll1 = 0 /\
       sd_ipv4acd_unref (Some ll1) = Aborted "ll->n_ref >= 1").
Proof.
  intros ll [H1 H2].
  destruct ll as [nr st ifi fd ni nc rx tm dw ad mac ev pr cb ud].
  cbn in H1, H2.
  exists (with_n_ref (u32 (nr + 1))
            (mk_sd_ipv4acd nr st ifi fd ni nc rx tm dw ad mac ev pr cb ud)).
  unfold sd_ipv4acd_ref, sd_ipv4acd_unref, with_n_ref. cbn.
  replace (1 <=? nr) with true by (symmetry; apply Z.leb_le; exact H1).
  split; [reflexivity|]. split; [reflexivity|]. split.
  - intros H3. rewrite (u32_small (nr + 1)) by lia.
    split; [reflexivity|].
    replace (1 <=? nr + 1) with true by (symmetry; apply Z.leb_le; lia).
    replace (nr + 1 - 1) with nr by lia.
    rewrite (u32_small nr) by lia.
    replace (0 <? nr) with true by (symmetry; apply Z.ltb_lt; lia).
    reflexivity.
  - intros H3. subst nr. split; reflexivity.
Qed.

Lemma ref_then_unref_gives_the_session_back_witness :
  exists ll1 : sd_ipv4acd,
    sd_ipv4acd_ref (Some started_s1) = Done (Some ll1) /\
    sd_ipv4acd_unref (Some ll1) = Done (Live started_s1, []).
Proof.
  destruct (ref_then_unref_gives_the_session_back started_s1)
    as (ll1 & H1 & _ & H2 & _).
  - split; [vm_compute; discriminate | vm_compute; reflexivity].
  - exists ll1. split; [exact H1|]. apply H2. vm_compute. reflexivity.
Defined.

(** X15. What [sd_ipv4acd_unref] does by the count: NULL is ignored; with
    more than one reference only the counter goes down; the last reference
    resets the session, detaches it from the event loop and frees it, and
    does so silently: no STOP is reported, even when the session was
    running with a callback set; a session without references hits the
    assertion. *)
Theorem the_last_unref_frees_without_an_event :
  forall ll : sd_ipv4acd,
    n_ref ll < 2 ^ 32 ->
    sd_ipv4acd_unref None = Done (Null, []) /\
    (1 < n_ref ll ->
     sd_ipv4acd_unref (Some ll) =
       Done (Live (with_n_ref (n_ref ll - 1) ll), [])) /\
    (n_ref ll = 1 ->
     exists last : sd_ipv4acd,
       sd_ipv4acd_unref (Some ll) = Done (Freed last, []) /\
       is_reset last /\ event last = None /\ n_ref last = 0) /\
    (n_ref ll < 1 ->
     sd_ipv4acd_unref (Some ll) = Aborted "ll->n_ref >= 1").
Proof.
  intros ll Hb. unfold sd_ipv4acd_unref.
  split; [reflexivity|]. split; [|split].
  - intros H.
    replace (1 <=? n_ref ll) with true by (symmetry; apply Z.leb_le; lia).
    cbn. rewrite (u32_small (n_ref ll - 1)) by lia.
    replace (0 <? n_ref ll - 1) with true
      by (symmetry; apply Z.ltb_lt; lia).
    reflexivity.
  - intros H. rewrite H.
    change (1 <=? 1) with true. change (u32 (1 - 1)) with 0. cbn.
    change (0 <? 0) with false. cbn.
    exists (with_event None (ipv4acd_reset (with_n_ref 0 ll))).
    split; [reflexivity|]. rewrite reset_eq. unfold is_reset. cbn.
    repeat split.
  - intros H.
    replace (1 <=? n_ref ll) with false by (symmetry; apply Z.leb_gt; lia).
    reflexivity.
Qed.

Lemma the_last_unref_frees_without_an_event_witness :
  exists last : sd_ipv4acd,
    sd_ipv4acd_unref (Some running_s1) = Done (Freed last, []) /\
    is_reset last /\ event last = None /\ n_ref last = 0.
Proof.
  apply (the_last_unref_frees_without_an_event running_s1).
  - vm_compute. reflexivity.
  - reflexivity.
Defined.

(** ** Scheduling *)

(** X16. [ipv4acd_set_next_wakeup], when the clock answers: either it arms
    the timer and returns 0, and then the delay after now lies in
    [usec, usec + random_usec), exactly [usec] without jitter, and nothing
    else in the session changes; or it returns the negative code of the
    event loop and leaves the session, old timer included, as it was. It
    never sends or reports anything. *)
Theorem wakeup_is_armed_within_the_jitter_or_not_at_all :
  forall (e : env) (usec random_usec : Z) (ll : sd_ipv4acd),
    0 <= r_event_now e ->
    0 <= usec -> 0 <= random_usec -> usec + random_usec <= 2 ^ 64 ->
    exists (code : Z) (ll' : sd_ipv4acd),
      ipv4acd_set_next_wakeup e usec random_usec ll = Done (code, ll', []) /\
      ((code = 0 /\ sched_ok e /\
        exists d : Z,
          usec <= d <= usec + random_usec /\
          (0 < random_usec -> d < usec + random_usec) /\
          ll' = armed_for e d ll /\ wakeup_after ll' (time_now e) d) \/
       (code < 0 /\ sched_fails e /\ ll' = ll)).
Proof.
  intros e usec r ll Hn Hu Hr Hb.
  destruct (Z.ltb_spec (r_add_time e) 0) as [Ha|Ha];
    [|destruct (Z.ltb_spec (r_set_priority e) 0) as [Hp|Hp]].
  - exists (r_add_time e), ll. unfold ipv4acd_set_next_wakeup.
    replace (r_event_now e <? 0) with false
      by (symmetry; apply Z.ltb_ge; exact Hn).
    replace (r_add_time e <? 0) with true
      by (symmetry; apply Z.ltb_lt; exact Ha).
    split; [reflexivity|]. right.
    split; [exact Ha|]. split; [|reflexivity].
    split; [exact Hn | left; exact Ha].
  - exists (r_set_priority e), ll. unfold ipv4acd_set_next_wakeup.
    replace (r_event_now e <? 0) with false
      by (symmetry; apply Z.ltb_ge; exact Hn).
    replace (r_add_time e <? 0) with false
      by (symmetry; apply Z.ltb_ge; exact Ha).
    replace (r_set_priority e <? 0) with true
      by (symmetry; apply Z.ltb_lt; exact Hp).
    split; [reflexivity|]. right.
    split; [exact Hp|]. split; [|reflexivity].
    split; [exact Hn | right; exact Hp].
  - assert (Hs : sched_ok e) by (repeat split; assumption).
    exists 0, (armed_for e (next_timeout e usec r) ll).
    split; [apply (set_next_wakeup_ok e usec r ll Hs)|]. left.
    split; [reflexivity|]. split; [exact Hs|].
    exists (next_timeout e usec r).
    split; [|split; [|split; [reflexivity | apply wakeup_after_armed_for]]].
    + destruct (Z.ltb_spec 0 r) as [Hr'|Hr'].
      * pose proof (next_timeout_bounds e usec r Hr' Hu Hb). lia.
      * unfold next_timeout.
        replace (0 <? r) with false by (symmetry; apply Z.ltb_ge; exact Hr').
        lia.
    + intros Hr'. apply (next_timeout_bounds e usec r Hr' Hu Hb).
Qed.

Lemma wakeup_is_armed_within_the_jitter_or_not_at_all_witness :
  exists (code : Z) (ll' : sd_ipv4acd),
    ipv4acd_set_next_wakeup (env_at 0 1500000) PROBE_MIN_USEC
      (PROBE_MAX_USEC - PROBE_MIN_USEC) probing_s1 = Done (code, ll', []) /\
    ((code = 0 /\ sched_ok (env_at 0 1500000) /\
      exists d : Z,
        PROBE_MIN_USEC <= d <=
          PROBE_MIN_USEC + (PROBE_MAX_USEC - PROBE_MIN_USEC) /\
        (0 < PROBE_MAX_USEC - PROBE_MIN_USEC ->
         d < PROBE_MIN_USEC + (PROBE_MAX_USEC - PROBE_MIN_USEC)) /\
        ll' = armed_for (env_at 0 1500000) d probing_s1 /\
        wakeup_after ll' (time_now (env_at 0 1500000)) d) \/
     (code < 0 /\ sched_fails (env_at 0 1500000) /\ ll' = probing_s1)).
Proof.
  apply (wakeup_is_armed_within_the_jitter_or_not_at_all
           (env_at 0 1500000) PROBE_MIN_USEC
           (PROBE_MAX_USEC - PROBE_MIN_USEC) probing_s1).
  - vm_compute. discriminate.
  - vm_compute. discriminate.
  - vm_compute. discriminate.
  - vm_compute. discriminate.
Defined.

(** ** Counting the rounds of a state *)

Lemma IPv4ACDState_eqb_refl st : IPv4ACDState_eqb st st = true.
Proof. destruct st; reflexivity. Qed.

(** X17. [ipv4acd_set_state] counts the rounds of a state: called [n + 1]
    times in a row for the same state without [reset_counter], it leaves
    the session in that state with [n_iteration] = [n] when the state was
    entered by the first call, and with [n + 1] more than before when the
    session was in it already, both modulo 2^32; with [reset_counter] the
    count is 0 whatever it was. *)
Theorem set_state_counts_the_rounds :
  forall (st : IPv4ACDState) (ll : sd_ipv4acd) (n : nat),
    state (Nat.iter (S n) (ipv4acd_set_state st false) ll) = st /\
    n_iteration (Nat.iter (S n) (ipv4acd_set_state st false) ll) =
      (if IPv4ACDState_eqb st (state ll)
       then u32 (n_iteration ll + Z.of_nat (S n))
       else u32 (Z.of_nat n)) /\
    n_iteration
      (ipv4acd_set_state st true
         (Nat.iter (S n) (ipv4acd_set_state st false) ll)) = 0.
Proof.
  intros st ll n.
  assert (H : state (Nat.iter (S n) (ipv4acd_set_state st false) ll) = st /\
              n_iteration (Nat.iter (S n) (ipv4acd_set_state st false) ll) =
                (if IPv4ACDState_eqb st (state ll)
                 then u32 (n_iteration ll + Z.of_nat (S n))
                 else u32 (Z.of_nat n))).
  { induction n as [|n [IHs IHn]].
    - cbn [Nat.iter nat_rect]. unfold ipv4acd_set_state.
      destruct (IPv4ACDState_eqb st (state ll)) eqn:E; cbn.
      + split; [|reflexivity].
        destruct st, (state ll); first [reflexivity | discriminate E].
      + split; reflexivity.
    - change (Nat.iter (S (S n)) (ipv4acd_set_state st false) ll)
        with (ipv4acd_set_state st false
                (Nat.iter (S n) (ipv4acd_set_state st false) ll)).
      remember (Nat.iter (S n) (ipv4acd_set_state st false) ll) as l1.
      unfold ipv4acd_set_state at 1 2.
      rewrite IHs, IPv4ACDState_eqb_refl. cbn.
      split; [exact IHs|]. rewrite IHn.
      destruct (IPv4ACDState_eqb st (state ll)).
      + rewrite u32_succ. f_equal. lia.
      + rewrite u32_succ. f_equal. lia. }
  destruct H as [Hs Hn]. split; [exact Hs|]. split; [exact Hn|].
  unfold ipv4acd_set_state. rewrite andb_false_r. reflexivity.
Qed.

(** ** From start to the bound address *)

(** X18. A configured idle session that is started and then sees seven
    timer ticks, with nothing failing and no frame arriving, ends in RUNNING
    with the address bound: on the wire are exactly three probes and two
    announcements, in this order, BIND is reported once, right after the
    first announcement, no timer is left armed, and the configuration is
    untouched. *)
Theorem a_quiet_start_binds_the_address :
  forall (ll : sd_ipv4acd) (e0 e1 e2 e3 e4 e5 e6 e7 : env),
    configured ll -> state ll = IPV4ACD_STATE_INIT ->
    start_ok e0 ->
    env_ok e1 -> env_ok e2 -> env_ok e3 -> env_ok e4 -> env_ok e5 ->
    env_ok e6 ->
    exists ll' : sd_ipv4acd,
      run (Call_start e0 :: map timer [e1; e2; e3; e4; e5; e6; e7]) ll =
        Done (tt, ll',
              [probe_of ll; probe_of ll; probe_of ll; announcement_of ll] ++
              notified ll SD_IPV4ACD_EVENT_BIND ++ [announcement_of ll]) /\
      state ll' = IPV4ACD_STATE_RUNNING /\ n_conflict ll' = 0 /\
      timer_armed ll' = false /\ same_config ll ll'.
Proof.
  intros ll e0 e1 e2 e3 e4 e5 e6 e7 Hc Hs H0 H1 H2 H3 H4 H5 H6.
  destruct (start_runs e0 ll Hc Hs H0) as (l0 & D0).
  destruct (start_success e0 ll l0 [] D0)
    as (_ & _ & S0 & _ & _ & _ & _ & T0 & _ & C0).
  destruct (tick_started e1 l0 S0 T0 (env_ok_sched e1 H1))
    as (l1 & D1 & S1 & N1 & T1 & C1).
  destruct (tick_waiting_probe e2 l1 S1 N1 T1 H2)
    as (l2 & D2 & S2 & N2 & T2 & C2).
  destruct (tick_probing e3 l2 S2 N2 T2 H3)
    as (l3 & D3 & S3 & N3 & T3 & C3).
  assert (N3' : PROBE_NUM - 2 <= n_iteration l3)
    by (rewrite N3; unfold PROBE_NUM; lia).
  destruct (tick_last_probe e4 l3 S3 N3' T3 H4)
    as (l4 & D4 & S4 & N4 & T4 & C4).
  destruct (tick_waiting_announce e5 l4 S4 T4 H5)
    as (l5 & D5 & S5 & N5 & NC5 & T5 & C5).
  destruct (tick_announcing e6 l5 S5 N5 T5 H6)
    as (l6 & D6 & S6 & N6 & NC6 & T6 & C6).
  assert (N6' : ANNOUNCE_NUM - 1 <= n_iteration l6)
    by (rewrite N6; unfold ANNOUNCE_NUM; lia).
  destruct (tick_running e7 l6 S6 N6' T6)
    as (l7 & D7 & S7 & NC7 & T7 & C7).
  pose proof (same_config_trans _ _ _ C0 C1) as K1.
  pose proof (same_config_trans _ _ _ K1 C2) as K2.
  pose proof (same_config_trans _ _ _ K2 C3) as K3.
  pose proof (same_config_trans _ _ _ K3 C4) as K4.
  pose proof (same_config_trans _ _ _ K4 C5) as K5.
  pose proof (same_config_trans _ _ _ K5 C6) as K6.
  pose proof (same_config_trans _ _ _ K6 C7) as K7.
  exists l7. split; [|split; [exact S7|split; [congruence|split;
                       [exact T7 | exact K7]]]].
  cbn [map]. unfold timer.
  rewrite (run_cons (Call_start e0) _ ll 0 l0 [] D0).
  rewrite (run_cons (Loop (TimerFires e1)) _ l0 0 l1 _ D1).
  rewrite (run_cons (Loop (TimerFires e2)) _ l1 0 l2 _ D2).
  rewrite (run_cons (Loop (TimerFires e3)) _ l2 0 l3 _ D3).
  rewrite (run_cons (Loop (TimerFires e4)) _ l3 0 l4 _ D4).
  rewrite (run_cons (Loop (TimerFires e5)) _ l4 0 l5 _ D5).
  rewrite (run_cons (Loop (TimerFires e6)) _ l5 0 l6 _ D6).
  rewrite (run_cons (Loop (TimerFires e7)) _ l6 0 l7 _ D7).
  rewrite run_nil.
  rewrite (probe_of_same _ _ K1), (probe_of_same _ _ K2),
    (probe_of_same _ _ K3), (announcement_of_same _ _ K4),
    (notified_same _ _ SD_IPV4ACD_EVENT_BIND K4),
    (announcement_of_same _ _ K5).
  cbn [app]. rewrite ?app_nil_r. reflexivity.
Qed.

Lemma session_s1_configured : configured session_s1.
Proof. repeat split; first [discriminate | reflexivity]. Qed.

Lemma env_at_start_ok now rnd : start_ok (env_at now rnd).
Proof. repeat split; discriminate. Qed.

Lemma a_quiet_start_binds_the_address_witness :
  exists ll' : sd_ipv4acd,
    run (Call_start (env_at 0 0) ::
         map timer [env_at 0 0; env_at 0 0; env_at 1000000 0;
                    env_at 2000000 0; env_at 4000000 0; env_at 6000000 0;
                    env_at 8000000 0]) session_s1 =
      Done (tt, ll',
            [probe_of session_s1; probe_of session_s1; probe_of session_s1;
             announcement_of session_s1] ++
            notified session_s1 SD_IPV4ACD_EVENT_BIND ++
            [announcement_of session_s1]) /\
    state ll' = IPV4ACD_STATE_RUNNING /\ n_conflict ll' = 0 /\
    timer_armed ll' = false /\ same_config session_s1 ll'.
Proof.
  apply (a_quiet_start_binds_the_address session_s1).
  - exact session_s1_configured.
  - reflexivity.
  - apply env_at_start_ok.
  - apply env_ok_env_at.
  - apply env_ok_env_at.
  - apply env_ok_env_at.
  - apply env_ok_env_at.
  - apply env_ok_env_at.
  - apply env_ok_env_at.
Defined.

(** X19. A configured session can be restarted from any state: [stop]
    followed by [start], with nothing failing, reports STOP, sends nothing,
    and leaves the session in STARTED with its timer armed for now and with
    counters and defend window at 0, whatever they were. *)
Theorem stop_then_start_begins_afresh :
  forall (ll : sd_ipv4acd) (e : env),
    configured ll -> start_ok e ->
    exists ll' : sd_ipv4acd,
      run [Call_stop; Call_start e] ll =
        Done (tt, ll', notified ll SD_IPV4ACD_EVENT_STOP) /\
      state ll' = IPV4ACD_STATE_STARTED /\
      n_iteration ll' = 0 /\ n_conflict ll' = 0 /\ defend_window ll' = 0 /\
      timer_armed ll' = true /\ wakeup_after ll' (time_now e) 0 /\
      same_config ll ll'.
Proof.
  intros ll e Hc He.
  assert (Hc' : configured (ipv4acd_reset ll)).
  { apply (configured_reads ll); [apply same_config_reset| |exact Hc].
    rewrite reset_eq. reflexivity. }
  assert (Hs : state (ipv4acd_reset ll) = IPV4ACD_STATE_INIT)
    by (rewrite reset_eq; reflexivity).
  destruct (start_runs e _ Hc' Hs He) as (l1 & D1).
  destruct (start_success e _ l1 [] D1)
    as (_ & _ & S1 & N1 & NC1 & DW1 & _ & T1 & W1 & C1).
  exists l1. split.
  - rewrite (run_cons Call_stop _ ll 0 _ _ (stop_eq ll)).
    rewrite (run_cons (Call_start e) _ _ 0 l1 [] D1).
    rewrite run_nil. cbn [app]. rewrite ?app_nil_r. reflexivity.
  - repeat (split; [assumption|]).
    apply (same_config_trans _ _ _ (same_config_reset ll) C1).
Qed.

Lemma stop_then_start_begins_afresh_witness :
  exists ll' : sd_ipv4acd,
    run [Call_stop; Call_start (env_at 9000000 0)] running_s1 =
      Done (tt, ll', notified running_s1 SD_IPV4ACD_EVENT_STOP) /\
    state ll' = IPV4ACD_STATE_STARTED /\
    n_iteration ll' = 0 /\ n_conflict ll' = 0 /\ defend_window ll' = 0 /\
    timer_armed ll' = true /\
    wakeup_after ll' (time_now (env_at 9000000 0)) 0 /\
    same_config running_s1 ll'.
Proof.
  apply (stop_then_start_begins_afresh running_s1 (env_at 9000000 0)).
  - repeat split; first [discriminate | reflexivity].
  - apply env_at_start_ok.
Defined.
